(** * bossa-web: the SAM-BA client and the two NVM flash drivers

    A shallow embedding of [samba.ts], [applet.ts], [wordcopyapplet.ts],
    [flash.ts], [D2xNvmFlash.ts] and [D5xNvmFlash.ts], of the byte
    buffer of [util.ts], of the identification of the device in
    [device.ts] and of [erase] and [write] of [flasher.ts].

    Numbers.  The drivers compute on JavaScript numbers that hold
    integers; they are modelled by [Z].  The bitwise operators first
    convert to a signed 32-bit integer, which is written out in
    [to_int32].  The operator [/] is real division: where the source
    relies on a quotient that need not be integral (the loop bound of
    [erase]) the quotient is a rational of [Q]; every other quotient of
    the drivers is exact as soon as the base address of the flash is
    even and the page size a multiple of 4 ([word_aligned], which holds
    of every device of [device.ts]), and is written with [Z.div].

    Effects.  Every method that talks to the board is a computation of
    the monad [M]: it threads the state of the serial device and of the
    objects ([SamBA], the applet, the flash driver), may throw, and
    emits the list of commands it handed to [sendCommand], each with the
    reply that came back.  The model is sequential: a command is over
    when the next one is sent.  ([writeByte] of the source does not
    wait for its command; what that does to the commands that follow
    on a real port is outside the model.)  The polling loop
    [waitReady] has no bound in the source; it takes a number of polls
    after which the run is reported as [OutOfFuel]. *)

From Stdlib Require Import ZArith List String Ascii Bool Lia QArith Qround DecimalString.
Import ListNotations.
Open Scope string_scope.
Open Scope list_scope.
Open Scope Z_scope.

(** ** JavaScript numbers and typed arrays *)

Module JS.

(** ToInt32 on an integral number. *)
Definition to_int32 (z : Z) : Z := (z + 2 ^ 31) mod 2 ^ 32 - 2 ^ 31.

(** [a & b], [a | b], [~a], [a << n], [a >> n]. *)
Definition and (a b : Z) : Z := Z.land (to_int32 a) (to_int32 b).
Definition or (a b : Z) : Z := Z.lor (to_int32 a) (to_int32 b).
Definition not (a : Z) : Z := Z.lnot (to_int32 a).
Definition shl (a n : Z) : Z := to_int32 (Z.shiftl (to_int32 a) (n mod 32)).
Definition shr (a n : Z) : Z := Z.shiftr (to_int32 a) (n mod 32).

(** Truthiness of a number: everything but zero. *)
Definition truthy (a : Z) : bool := negb (a =? 0).

Definition len {A} (l : list A) : Z := Z.of_nat (List.length l).

(** [a[i]] on a Uint8Array or on an array of reply bytes read as a
    number: a missing element is [undefined], which every use in the
    source turns into 0. *)
Definition get (a : list Z) (i : Z) : Z :=
  if (0 <=? i) && (i <? len a) then nth (Z.to_nat i) a 0 else 0.

Fixpoint set_nth (n : nat) (a : list Z) (v : Z) : list Z :=
  match a, n with
  | [], _ => []
  | _ :: a', O => v :: a'
  | x :: a', S n' => x :: set_nth n' a' v
  end.

(** [a[i] = v] on a Uint8Array: the value is stored modulo 256, and a
    store outside the array is dropped. *)
Definition set (a : list Z) (i v : Z) : list Z :=
  if (0 <=? i) && (i <? len a) then set_nth (Z.to_nat i) a (v mod 256) else a.

(** [a.subarray(from)] and [a.subarray(0, to)]. *)
Definition subarray_from (a : list Z) (from : Z) : list Z := skipn (Z.to_nat from) a.
Definition subarray_to (a : list Z) (to : Z) : list Z := firstn (Z.to_nat to) a.

(** The digit of [d] in base 16: the characters 0 to 9 start at code
    48, the characters a to f at code 97. *)
Definition digit16 (d : Z) : ascii :=
  if d <? 10 then ascii_of_N (Z.to_N (48 + d)) else ascii_of_N (Z.to_N (97 + (d - 10))).

Fixpoint digits16 (n : nat) (v : Z) (acc : string) : string :=
  match n with
  | O => acc
  | S n' =>
      let acc' := String (digit16 (v mod 16)) acc in
      if v / 16 =? 0 then acc' else digits16 n' (v / 16) acc'
  end.

(** [value.toString(16)] on an integer: lowercase digits, a minus sign
    before the magnitude of a negative number. *)
Definition toString16 (value : Z) : string :=
  let m := Z.abs value in
  let s := digits16 (S (Z.to_nat (Z.log2 m))) m "" in
  if value <? 0 then String "-"%char s else s.

Fixpoint pad0 (n : nat) (s : string) : string :=
  match n with
  | O => s
  | S n' => String "0"%char (pad0 n' s)
  end.

End JS.

(** ** Errors, outcomes and the monad *)

Inductive Error : Type :=
| SamBAError (msg : string)
| FlashConfigError
| FlashRegionError
| FlashEraseError
| FlashCmdError
| FlashPageError
| JsError (msg : string).

Inductive Res (A : Type) : Type :=
| Ok (a : A)
| Throw (e : Error)
| OutOfFuel.
Arguments Ok {A} a.
Arguments Throw {A} e.
Arguments OutOfFuel {A}.

(** One entry of the log: a call of [sendCommand] (the command, sent
    followed by [#]; the binary payload written after it; the reply
    handed back, [None] for [null]), or the assignment
    [this._onBufferA = !this._onBufferA] with the value it stores. *)
Inductive Event : Type :=
| Sent (cmd : string) (data : option (list Z)) (reply : option (list Z))
| Flip (onBufferA : bool).

(** The serial port with the board behind it: handed a command and its
    payload, it moves to a new state and yields the bytes that reach
    the input buffer before the command's timeout. *)
Class SerialPort (Dev : Type) : Type :=
  { exchange : Dev -> string -> option (list Z) -> list Z * Dev }.

Record FlashOption (T : Type) : Type := mkOption
  { value : T; dirty : bool }.
Arguments mkOption {T} value dirty.
Arguments value {T} f.
Arguments dirty {T} f.

Module FlashOption.
Definition new {T} (v : T) : FlashOption T := mkOption v false.
Definition set {T} (o : FlashOption T) (v : T) : FlashOption T := mkOption v true.
Definition get {T} (o : FlashOption T) : T := value o.
Definition isDirty {T} (o : FlashOption T) : bool := dirty o.
End FlashOption.

(** The mutable fields of [SamBA]. *)
Record SamBAState : Type := mkSamBA
  { canChipErase : bool;
    canWriteBuffer : bool;
    canChecksumBuffer : bool;
    canProtect : bool;
    readBufferSize : Z }.

(** The mutable fields of [Flash] and of its two subclasses. *)
Record FlashState : Type := mkFlash
  { eraseAuto : bool;
    prepared : bool;
    onBufferA : bool;
    bootFlash : FlashOption bool;
    bod : FlashOption bool;
    bor : FlashOption bool;
    security : FlashOption bool;
    regions : FlashOption (list bool) }.

(** The constructor arguments of [Flash], fixed for the session. *)
Record Geometry : Type := mkGeometry
  { addr : Z;
    pages : Z;
    size : Z;
    planes : Z;
    lockRegions : Z;
    user : Z;
    stack : Z }.

Record World (Dev : Type) : Type := mkWorld
  { port : Dev;
    samba : SamBAState;
    installed : bool;
    flash : FlashState }.
Arguments mkWorld {Dev} port samba installed flash.
Arguments port {Dev} w.
Arguments samba {Dev} w.
Arguments installed {Dev} w.
Arguments flash {Dev} w.

Definition M (Dev A : Type) : Type := World Dev -> Res A * World Dev * list Event.

Definition ret {Dev A} (a : A) : M Dev A := fun w => (Ok a, w, []).

Definition bind {Dev A B} (m : M Dev A) (f : A -> M Dev B) : M Dev B :=
  fun w =>
    match m w with
    | (Ok a, w1, t1) => let '(r, w2, t2) := f a w1 in (r, w2, t1 ++ t2)
    | (Throw e, w1, t1) => (Throw e, w1, t1)
    | (OutOfFuel, w1, t1) => (OutOfFuel, w1, t1)
    end.

Definition throw {Dev A} (e : Error) : M Dev A := fun w => (Throw e, w, []).
Definition out_of_fuel {Dev A} : M Dev A := fun w => (OutOfFuel, w, []).
Definition gets {Dev A} (f : World Dev -> A) : M Dev A := fun w => (Ok (f w), w, []).
Definition modify {Dev} (f : World Dev -> World Dev) : M Dev unit := fun w => (Ok tt, f w, []).
Definition emit {Dev} (e : Event) : M Dev unit := fun w => (Ok tt, w, [e]).

Declare Scope monad_scope.
Delimit Scope monad_scope with monad.
Notation "x <- m ;; k" := (bind m (fun x => k))
  (at level 61, m at next level, right associativity) : monad_scope.
Notation "m ;; k" := (bind m (fun _ => k))
  (at level 61, right associativity) : monad_scope.
Open Scope monad_scope.

Definition when {Dev} (b : bool) (m : M Dev unit) : M Dev unit :=
  if b then m else ret tt.

Definition set_port {Dev} (w : World Dev) (d : Dev) : World Dev :=
  mkWorld d (samba w) (installed w) (flash w).
Definition set_samba {Dev} (w : World Dev) (s : SamBAState) : World Dev :=
  mkWorld (port w) s (installed w) (flash w).
Definition set_installed {Dev} (w : World Dev) (b : bool) : World Dev :=
  mkWorld (port w) (samba w) b (flash w).
Definition set_flash {Dev} (w : World Dev) (f : FlashState) : World Dev :=
  mkWorld (port w) (samba w) (installed w) f.

(** ** samba.ts *)

Module SamBA.

Definition new : SamBAState := mkSamBA false false false false 0.

(** [hex(value, digits = 8)]. *)
Definition hex (value : Z) (digits : Z) : string :=
  let result := JS.toString16 value in
  JS.pad0 (Z.to_nat digits - String.length result) result.

(** The loop of [readBuffer] over the bytes that arrive in time: it
    stops on a zero byte once two bytes are in, and when
    [responseSize] bytes are in. *)
Fixpoint collect (avail reply : list Z) (responseSize : Z) : list Z :=
  match avail with
  | [] => reply
  | c :: rest =>
      let reply' := reply ++ [c mod 256] in
      if (1 <? JS.len reply') && (c mod 256 =? 0) then reply'
      else if JS.truthy responseSize && (JS.len reply' =? responseSize) then reply'
      else collect rest reply' responseSize
  end.

Definition readBuffer (avail : list Z) (responseSize : Z) : option (list Z) :=
  match collect avail [] responseSize with
  | [] => None
  | reply => Some reply
  end.

(** [new TextDecoder("ascii").decode(buffer)]: every byte gives one
    character.  The bytes below 0x80, which is all that a SAM-BA
    banner holds, decode to themselves; the upper half is kept as the
    byte value (the decoder's table sends 27 of those bytes to
    characters outside Latin-1, none of which the client looks at). *)
Definition decode (buffer : list Z) : string :=
  string_of_list_ascii (map (fun b => ascii_of_N (Z.to_N b)) buffer).

(** [decodeResponse(buffer)].  The two conditions of the source are
    assignments; an assignment stores its right-hand side and has it
    as its value. *)
Definition decodeResponse (buffer : list Z) : string :=
  let buffer :=
    if 2 <? JS.len buffer then
      let buffer1 := JS.set buffer (JS.len buffer - 1) 0x0c in
      if JS.truthy 0x0c then
        let buffer2 := JS.set buffer1 (JS.len buffer - 2) 0x0a in
        if JS.truthy 0x0a then JS.subarray_to buffer2 (JS.len buffer - 2)
        else buffer2
      else buffer1
    else buffer in
  decode buffer.

Definition set_canChipErase (s : SamBAState) : SamBAState :=
  mkSamBA true (canWriteBuffer s) (canChecksumBuffer s) (canProtect s) (readBufferSize s).
Definition set_canWriteBuffer (s : SamBAState) : SamBAState :=
  mkSamBA (canChipErase s) true (canChecksumBuffer s) (canProtect s) (readBufferSize s).
Definition set_canChecksumBuffer (s : SamBAState) : SamBAState :=
  mkSamBA (canChipErase s) (canWriteBuffer s) true (canProtect s) (readBufferSize s).
Definition set_canProtect (s : SamBAState) : SamBAState :=
  mkSamBA (canChipErase s) (canWriteBuffer s) (canChecksumBuffer s) true (readBufferSize s).
Definition set_readBufferSize (s : SamBAState) (n : Z) : SamBAState :=
  mkSamBA (canChipErase s) (canWriteBuffer s) (canChecksumBuffer s) (canProtect s) n.

(** The [switch] of [_connect] on one character of the bracket. *)
Definition extension (c : ascii) (s : SamBAState) : SamBAState :=
  if Ascii.eqb c "X" then set_canChipErase s
  else if Ascii.eqb c "Y" then set_canWriteBuffer s
  else if Ascii.eqb c "Z" then set_canChecksumBuffer s
  else if Ascii.eqb c "P" then set_canProtect s
  else s.

(** The [while] loop of [_connect]; it advances [extIndex] at every
    turn, so [length version - extIndex] turns are enough. *)
Fixpoint scan (n : nat) (version : string) (extIndex : nat) (s : SamBAState) : SamBAState :=
  match n with
  | O => s
  | S n' =>
      match String.get extIndex version with
      | Some c =>
          if Ascii.eqb c "]" then s
          else scan n' version (S extIndex) (extension c s)
      | None => s
      end
  end.

(** What [_connect] does with the version string. *)
Definition extensions (version : string) (s : SamBAState) : SamBAState :=
  match String.index 0 "[Arduino:" version with
  | Some extIndex =>
      let extIndex := (extIndex + 9)%nat in
      let s := scan (String.length version - extIndex) version extIndex s in
      set_readBufferSize s 63
  | None => s
  end.

(** The text of the commands, as the primitives below build it. *)
Definition cmd_O (addr value : Z) : string := ("O" ++ hex addr 8 ++ "," ++ hex value 2)%string.
Definition cmd_o (addr : Z) : string := ("o" ++ hex addr 8 ++ ",4")%string.
Definition cmd_W (addr value : Z) : string := ("W" ++ hex addr 8 ++ "," ++ hex value 8)%string.
Definition cmd_w (addr : Z) : string := ("w" ++ hex addr 8 ++ ",4")%string.
Definition cmd_S (addr size : Z) : string := ("S" ++ hex addr 8 ++ "," ++ hex size 8)%string.
Definition cmd_R (addr chunk : Z) : string := ("R" ++ hex addr 8 ++ "," ++ hex chunk 8)%string.
Definition cmd_G (addr : Z) : string := ("G" ++ hex addr 8)%string.

(** [result[3] << 24 | result[2] << 16 | result[1] << 8 | result[0] << 0]. *)
Definition word_of (result : list Z) : Z :=
  JS.or (JS.or (JS.or (JS.shl (JS.get result 3) 24)
                      (JS.shl (JS.get result 2) 16))
               (JS.shl (JS.get result 1) 8))
        (JS.shl (JS.get result 0) 0).

Section Port.
Context {Dev : Type} `{SerialPort Dev}.

(** [sendCommand(cmd, responseSize, data)]: the parameters [size]
    and [timeout] take no part in what is written. *)
Definition sendCommand (cmd : string) (responseSize : Z) (data : option (list Z))
  : M Dev (option (list Z)) :=
  fun w =>
    let '(avail, d) := exchange (port w) cmd data in
    let reply := if 0 <? responseSize then readBuffer avail responseSize else None in
    (Ok reply, set_port w d, [Sent cmd data reply]).

(** [writeByte] starts its command and does not wait for it; the
    log has the command at the place of the call. *)
Definition writeByte (addr value : Z) : M Dev unit :=
  sendCommand (cmd_O addr value) 0 None ;;
  ret tt.

Definition readByte (addr : Z) : M Dev Z :=
  result <- sendCommand (cmd_o addr) 1 None ;;
  match result with
  | Some result => ret (JS.get result 0)
  | None => throw (SamBAError "Reading")
  end.

Definition writeWord (addr value : Z) : M Dev unit :=
  sendCommand (cmd_W addr value) 0 None ;;
  ret tt.

Definition readWord (addr : Z) : M Dev Z :=
  result <- sendCommand (cmd_w addr) 4 None ;;
  match result with
  | Some result =>
      ret (word_of result)
  | None => throw (SamBAError "Reading")
  end.

(** [write(addr, buffer, size)]: the whole of [buffer] follows the
    command. *)
Definition write (addr : Z) (buffer : list Z) (size : Z) : M Dev unit :=
  sendCommand (cmd_S addr size) 0 (Some buffer) ;;
  ret tt.

(** The [for] loop of [read] that copies a reply into [buffer]. *)
Fixpoint copy_reply (n : nat) (i start : Z) (result buffer : list Z) : Z * list Z :=
  match n with
  | O => (start, buffer)
  | S n' => copy_reply n' (i + 1) (start + 1) result (JS.set buffer start (JS.get result i))
  end.

(** The [while (size > 0)] loop of [read]; every turn lowers [size]
    by [chunk], which is at least 1, so [n] turns are enough as
    soon as [size <= n]. *)
Fixpoint read_chunks (n : nat) (addr size start : Z) (buffer : list Z) : M Dev (list Z) :=
  match n with
  | O => ret buffer
  | S n' =>
      if 0 <? size then
        rbs <- gets (fun w => readBufferSize (samba w)) ;;
        let chunk := if (0 <? rbs) && (rbs <? size) then rbs else size in
        result <- sendCommand (cmd_R addr chunk) chunk None ;;
        match result with
        | Some result =>
            let '(start, buffer) := copy_reply (Z.to_nat chunk) 0 start result buffer in
            read_chunks n' (addr + chunk) (size - chunk) (start + chunk) buffer
        | None => throw (SamBAError "Reading binary")
        end
      else ret buffer
  end.

(** [read(addr, buffer, size)], returning the buffer it fills. *)
Definition read (addr : Z) (buffer : list Z) (size : Z) : M Dev (list Z) :=
  let start := 0 in
  rbs <- gets (fun w => readBufferSize (samba w)) ;;
  if (rbs =? 0) && (32 <? size) && negb (JS.truthy (JS.and size (size - 1))) then
    b <- readByte addr ;;
    let buffer := JS.set buffer start b in
    read_chunks (Z.to_nat (size - 1)) (addr + 1) (size - 1) (start + 1) buffer
  else
    read_chunks (Z.to_nat size) addr size start buffer.

Definition go (addr : Z) : M Dev unit :=
  sendCommand (cmd_G addr) 0 None ;;
  ret tt.

Definition checksumBufferSize : Z := 4096.

Definition chipErase (start_addr : Z) : M Dev unit :=
  can <- gets (fun w => canChipErase (samba w)) ;;
  if negb can then throw (SamBAError "Chip erase not supported") else
  result <- sendCommand ("X" ++ hex start_addr 8)%string 3 None ;;
  match result with
  | Some result =>
      if JS.get result 0 =? 0x58 then ret tt
      else throw (SamBAError "Board response for 'X' command wrong")
  | None => throw (SamBAError "Board response for 'X' command wrong")
  end.

Definition writeBuffer (src_addr dst_addr size : Z) : M Dev unit :=
  can <- gets (fun w => canWriteBuffer (samba w)) ;;
  if negb can then throw (SamBAError "Cannot write buffer") else
  if checksumBufferSize <? size then throw (SamBAError "Size too large for checksum buffer") else
  result <- sendCommand ("Y" ++ hex src_addr 8 ++ ",0")%string 3 None ;;
  match result with
  | Some result =>
      if JS.get result 0 =? 0x59 then
        result <- sendCommand ("Y" ++ hex dst_addr 8 ++ "," ++ hex size 8)%string 3 None ;;
        match result with
        | Some result =>
            if JS.get result 0 =? 0x59 then ret tt
            else throw (SamBAError "Board response for 'Y' command wrong")
        | None => throw (SamBAError "Board response for 'Y' command wrong")
        end
      else throw (SamBAError "Board response for 'Y' command wrong")
  | None => throw (SamBAError "Board response for 'Y' command wrong")
  end.

Definition setBinaryMode : M Dev (option (list Z)) :=
  sendCommand "N" 2 None.

Definition readVersion : M Dev string :=
  buffer <- sendCommand "V" 256 None ;;
  match buffer with
  | Some buffer => ret (decodeResponse buffer)
  | None => throw (SamBAError "No data received")
  end.

(** [_connect()], from [setBinaryMode] on.  The read loop and the
    [readBuffer] that empties the pipe send nothing and leave no
    mark on the fields of the client: the next [sendCommand] resets
    the input buffer. *)
Definition _connect : M Dev unit :=
  setBinaryMode ;;
  version <- readVersion ;;
  modify (fun w => set_samba w (extensions version (samba w))).

End Port.

End SamBA.

(** ** applet.ts, wordcopyapplet.ts *)

Module WordCopyApplet.

Definition dst_addr : Z := 0x00000028.
Definition reset : Z := 0x00000024.
Definition src_addr : Z := 0x0000002c.
Definition stack : Z := 0x00000020.
Definition start : Z := 0x00000000.
Definition words : Z := 0x00000030.
(** The 32 bytes of Thumb code, then the 20 zero bytes of the parameter
    cells. *)
Definition code : list Z :=
  [ 0x09; 0x48; 0x0a; 0x49; 0x0a; 0x4a; 0x02; 0xe0; 0x08; 0xc9; 0x08; 0xc0; 0x01; 0x3a; 0x00; 0x2a;
    0xfa; 0xd1; 0x04; 0x48; 0x00; 0x28; 0x01; 0xd1; 0x01; 0x48; 0x85; 0x46; 0x70; 0x47; 0xc0; 0x46 ] ++ repeat 0x00 20.

(** [applet.code.length], the [size] of the applet. *)
Definition size : Z := JS.len code.

Section Port.
Context {Dev : Type} `{SerialPort Dev}.

(** The applet is built by [Flash] at the address [user]. *)
Variable addr : Z.

Definition checkInstall : M Dev unit :=
  inst <- gets installed ;;
  if negb inst then
    SamBA.write addr code size ;;
    modify (fun w => set_installed w true)
  else ret tt.

Definition setStack (stack_top : Z) : M Dev unit :=
  checkInstall ;;
  SamBA.writeWord (addr + stack) stack_top.

Definition runv : M Dev unit :=
  checkInstall ;;
  SamBA.writeWord (addr + reset) (addr + start + 1) ;;
  SamBA.go (addr + stack).

Definition setDstAddr (dstAddr : Z) : M Dev unit :=
  checkInstall ;;
  SamBA.writeWord (addr + dst_addr) dstAddr.

Definition setSrcAddr (srcAddr : Z) : M Dev unit :=
  checkInstall ;;
  SamBA.writeWord (addr + src_addr) srcAddr.

Definition setWords (n : Z) : M Dev unit :=
  checkInstall ;;
  SamBA.writeWord (addr + words) n.

End Port.

End WordCopyApplet.

(** ** flash.ts *)

Module Flash.

Definition set_eraseAuto (f : FlashState) (b : bool) : FlashState :=
  mkFlash b (prepared f) (onBufferA f) (bootFlash f) (bod f) (bor f) (security f) (regions f).
Definition set_prepared (f : FlashState) (b : bool) : FlashState :=
  mkFlash (eraseAuto f) b (onBufferA f) (bootFlash f) (bod f) (bor f) (security f) (regions f).
Definition set_onBufferA (f : FlashState) (b : bool) : FlashState :=
  mkFlash (eraseAuto f) (prepared f) b (bootFlash f) (bod f) (bor f) (security f) (regions f).
Definition set_bootFlash (f : FlashState) (o : FlashOption bool) : FlashState :=
  mkFlash (eraseAuto f) (prepared f) (onBufferA f) o (bod f) (bor f) (security f) (regions f).
Definition set_bod (f : FlashState) (o : FlashOption bool) : FlashState :=
  mkFlash (eraseAuto f) (prepared f) (onBufferA f) (bootFlash f) o (bor f) (security f) (regions f).
Definition set_bor (f : FlashState) (o : FlashOption bool) : FlashState :=
  mkFlash (eraseAuto f) (prepared f) (onBufferA f) (bootFlash f) (bod f) o (security f) (regions f).
Definition set_security (f : FlashState) (o : FlashOption bool) : FlashState :=
  mkFlash (eraseAuto f) (prepared f) (onBufferA f) (bootFlash f) (bod f) (bor f) o (regions f).
Definition set_regions (f : FlashState) (o : FlashOption (list bool)) : FlashState :=
  mkFlash (eraseAuto f) (prepared f) (onBufferA f) (bootFlash f) (bod f) (bor f) (security f) o.

(** The test [(n & (n - 1)) == 0] of the constructor. *)
Definition pow2_test (n : Z) : bool := JS.and n (n - 1) =? 0.

(** The constructor of [Flash], followed by [this._eraseAuto = true]
    of the two subclasses. *)
Definition new (g : Geometry) : Error + FlashState :=
  if negb (pow2_test (size g)) then inl FlashConfigError
  else if negb (pow2_test (pages g)) then inl FlashConfigError
  else if negb (pow2_test (lockRegions g)) then inl FlashConfigError
  else inr (mkFlash true false true
                    (FlashOption.new true) (FlashOption.new true) (FlashOption.new true)
                    (FlashOption.new true) (FlashOption.new [])).

Section Driver.
Context {Dev : Type} `{SerialPort Dev}.
Variable g : Geometry.

Definition totalSize : Z := size g * pages g.

(** [Math.trunc((user + size + 3) / 4) * 4]. *)
Definition pageBufferA : Z := Z.quot (user g + WordCopyApplet.size + 3) 4 * 4.
Definition pageBufferB : Z := pageBufferA + size g.

(** [this._onBufferA ? this._pageBufferA : this._pageBufferB]. *)
Definition pageBuffer (onA : bool) : Z := if onA then pageBufferA else pageBufferB.

Definition setLockRegions (rs : list bool) : M Dev unit :=
  if lockRegions g <? JS.len rs then throw FlashRegionError
  else modify (fun w => set_flash w (set_regions (flash w) (FlashOption.set (regions (flash w)) rs))).

Definition setSecurity : M Dev unit :=
  modify (fun w => set_flash w (set_security (flash w) (FlashOption.set (security (flash w)) true))).

(** [canBod], [canBor] and [canBootFlash] are constants of both
    drivers: true, true and false. *)
Definition canBod : bool := true.
Definition canBor : bool := true.
Definition canBootFlash : bool := false.

Definition setBod (enable : bool) : M Dev unit :=
  when canBod
    (modify (fun w => set_flash w (set_bod (flash w) (FlashOption.set (bod (flash w)) enable)))).

Definition setBor (enable : bool) : M Dev unit :=
  when canBor
    (modify (fun w => set_flash w (set_bor (flash w) (FlashOption.set (bor (flash w)) enable)))).

Definition setBootFlash (enable : bool) : M Dev unit :=
  when canBootFlash
    (modify (fun w => set_flash w (set_bootFlash (flash w) (FlashOption.set (bootFlash (flash w)) enable)))).

Definition setEraseAuto (enable : bool) : M Dev unit :=
  modify (fun w => set_flash w (set_eraseAuto (flash w) enable)).

Definition writeBuffer (dst_addr size_ : Z) : M Dev unit :=
  onA <- gets (fun w => onBufferA (flash w)) ;;
  SamBA.writeBuffer (pageBuffer onA) (dst_addr + addr g) size_.

Definition loadBuffer (data : list Z) (offset bufferSize : Z) : M Dev unit :=
  let data := if 0 <? offset then JS.subarray_from data offset else data in
  onA <- gets (fun w => onBufferA (flash w)) ;;
  SamBA.write (pageBuffer onA) data bufferSize.

Definition prepareApplet : M Dev unit :=
  p <- gets (fun w => prepared (flash w)) ;;
  if negb p then
    WordCopyApplet.setWords (user g) (size g / 4) ;;
    WordCopyApplet.setStack (user g) (stack g) ;;
    modify (fun w => set_flash w (set_prepared (flash w) true))
  else ret tt.

(** [this._onBufferA = !this._onBufferA]. *)
Definition flipBuffer : M Dev unit :=
  onA <- gets (fun w => onBufferA (flash w)) ;;
  modify (fun w => set_flash w (set_onBufferA (flash w) (negb onA))) ;;
  emit (Flip (negb onA)).

(** The shape of the [for] loops of the drivers that walk offsets:
    [for (offset = from; offset < limit; offset += step) body];
    [n] bounds the number of turns. *)
Fixpoint for_offsets (n : nat) (offset limit step : Z) (body : Z -> M Dev unit) : M Dev unit :=
  match n with
  | O => ret tt
  | S n' =>
      if offset <? limit then
        body offset ;;
        for_offsets n' (offset + step) limit step body
      else ret tt
  end.

(** The loop of [getLockRegions], shared by the two drivers, which
    only differ in the address of the lock bytes. *)
Fixpoint lock_regions (n : nat) (region addr_ lockBits : Z) (acc : list bool) : M Dev (list bool) :=
  match n with
  | O => ret acc
  | S n' =>
      if region <? lockRegions g then
        p <- (if Z.rem region 8 =? 0
              then b <- SamBA.readByte addr_ ;; ret (addr_ + 1, b)
              else ret (addr_, lockBits)) ;;
        let addr_ := fst p in
        let lockBits := snd p in
        let unlocked := JS.and lockBits (JS.shl 1 (Z.rem region 8)) =? 0 in
        lock_regions n' (region + 1) addr_ lockBits (acc ++ [unlocked])
      else ret acc
  end.

(** The comparison loop of [writeOptions]:
    [for (i = 0; i < regions.length && equal; i++)
       equal &&= (regions[i] == current[i])]. *)
Fixpoint regions_equal (rs current : list bool) : bool :=
  match rs with
  | [] => true
  | r :: rs' =>
      match current with
      | c :: current' => if Bool.eqb r c then regions_equal rs' current' else false
      | [] => false
      end
  end.

(** The loop of [writeOptions] that sets the lock bits in the copy
    of the user row; [lock_offset] is where the lock bytes start.
    The index [lock_offset + region / 8] is an integer for one
    region in eight; at any other index a typed array reads
    [undefined] and drops the store. *)
Fixpoint lock_bits (rs : list bool) (region lock_offset : Z) (userRow : list Z) : list Z :=
  match rs with
  | [] => userRow
  | r :: rs' =>
      let mask := JS.shl 1 (Z.rem region 8) in
      let userRow :=
        if Z.rem region 8 =? 0 then
          let i := lock_offset + region / 8 in
          if r then JS.set userRow i (JS.and (JS.get userRow i) (JS.not mask))
          else JS.set userRow i (JS.or (JS.get userRow i) mask)
        else userRow in
      lock_bits rs' (region + 1) lock_offset userRow
  end.

End Driver.

End Flash.

(** [a < b] on rationals. *)
Definition Qlt_bool (a b : Q) : bool := negb (Qle_bool b a).

(** ** D2xNvmFlash.ts *)

Module D2x.

Definition CMDEX_KEY : Z := 0xa500.
Definition NVM_INT_STATUS_READY_MASK : Z := 0x1.
Definition NVM_CTRL_STATUS_MASK : Z := 0xFFEB.
Definition NVM_REG_BASE : Z := 0x41004000.

Definition NVM_REG_CTRLA : Z := 0x00.
Definition NVM_REG_CTRLB : Z := 0x04.
Definition NVM_REG_INTFLAG : Z := 0x14.
Definition NVM_REG_STATUS : Z := 0x18.
Definition NVM_REG_ADDR : Z := 0x1c.
Definition NVM_REG_LOCK : Z := 0x20.

Definition NVM_CMD_ER : Z := 0x02.
Definition NVM_CMD_WP : Z := 0x04.
Definition NVM_CMD_EAR : Z := 0x05.
Definition NVM_CMD_WAP : Z := 0x06.
Definition NVM_CMD_LR : Z := 0x40.
Definition NVM_CMD_UR : Z := 0x41.
Definition NVM_CMD_SSB : Z := 0x45.
Definition NVM_CMD_PBC : Z := 0x44.

Definition ERASE_ROW_PAGES : Z := 4.

Definition NVM_UR_ADDR : Z := 0x804000.
Definition NVM_UR_BOD33_ENABLE_OFFSET : Z := 0x1.
Definition NVM_UR_BOD33_ENABLE_MASK : Z := 0x6.
Definition NVM_UR_BOD33_RESET_OFFSET : Z := 0x1.
Definition NVM_UR_BOD33_RESET_MASK : Z := 0x7.
Definition NVM_UR_NVM_LOCK_OFFSET : Z := 0x6.

(** The constructor: base address 0, one plane, 16 lock regions. *)
Definition geometry (pages_ size_ user_ stack_ : Z) : Geometry :=
  mkGeometry 0 pages_ size_ 1 16 user_ stack_.

Section Driver.
Context {Dev : Type} `{SerialPort Dev}.
Variable g : Geometry.

Definition NVM_UR_SIZE : Z := size g * ERASE_ROW_PAGES.

Definition readReg (reg : Z) : M Dev Z :=
  SamBA.readWord (NVM_REG_BASE + reg).

Definition writeReg (reg value : Z) : M Dev unit :=
  SamBA.writeWord (NVM_REG_BASE + reg) value.

(** [while (((await this.readReg(NVM_REG_INTFLAG)) & 0x1) == 0);]
    with at most [fuel] reads. *)
Fixpoint waitReady (fuel : nat) : M Dev unit :=
  match fuel with
  | O => out_of_fuel
  | S fuel' =>
      v <- readReg NVM_REG_INTFLAG ;;
      if JS.and v 0x1 =? 0 then waitReady fuel' else ret tt
  end.

Definition command (fuel : nat) (cmd : Z) : M Dev unit :=
  waitReady fuel ;;
  writeReg NVM_REG_CTRLA (JS.or CMDEX_KEY cmd) ;;
  waitReady fuel ;;
  v <- readReg NVM_REG_INTFLAG ;;
  if JS.truthy (JS.and v 0x2) then
    writeReg NVM_REG_INTFLAG 0x2 ;;
    throw FlashCmdError
  else ret tt.

(** The [for] loop of [erase]: [eraseNum] is compared with the real
    quotient [eraseEnd]. *)
Fixpoint erase_rows (n : nat) (fuel : nat) (eraseNum : Z) (eraseEnd : Q) (eraseSize : Z)
  : M Dev unit :=
  match n with
  | O => ret tt
  | S n' =>
      if Qlt_bool (inject_Z eraseNum) eraseEnd then
        waitReady fuel ;;
        statusReg <- readReg NVM_REG_STATUS ;;
        writeReg NVM_REG_STATUS (JS.or statusReg NVM_CTRL_STATUS_MASK) ;;
        let wordAddr := (eraseNum * eraseSize) / 2 in
        writeReg NVM_REG_ADDR wordAddr ;;
        command fuel NVM_CMD_ER ;;
        erase_rows n' fuel (eraseNum + 1) eraseEnd eraseSize
      else ret tt
  end.

(** [erase(offset, size)].  [offset % eraseSize] is not a number
    when [eraseSize] is 0, and then counts as false (the loop then
    makes no turn, in the source and here).  Past the first test
    [offset / eraseSize] is an integer; the loop makes as many turns as
    there are integers from it up to [eraseEnd], which the bound given
    to [erase_rows] allows (lemma [d2x_erase_rows_enough]). *)
Definition erase (fuel : nat) (offset size_ : Z) : M Dev unit :=
  let eraseSize := size g * ERASE_ROW_PAGES in
  if negb (eraseSize =? 0) && JS.truthy (Z.rem offset eraseSize) then throw FlashEraseError
  else if Flash.totalSize g <? offset + size_ then throw FlashEraseError
  else
    let eraseEnd : Q := (inject_Z (offset + size_ + eraseSize - 1) / inject_Z eraseSize)%Q in
    let eraseNum := offset / eraseSize in
    erase_rows (Z.to_nat (Qceiling eraseEnd - eraseNum)) fuel eraseNum eraseEnd eraseSize.

Definition eraseAll (fuel : nat) (offset : Z) : M Dev unit :=
  can <- gets (fun w => canChipErase (samba w)) ;;
  if can then SamBA.chipErase offset
  else erase fuel offset (Flash.totalSize g - offset).

Definition getLockRegions : M Dev (list bool) :=
  Flash.lock_regions g (Z.to_nat (lockRegions g)) 0
                     (NVM_UR_ADDR + NVM_UR_NVM_LOCK_OFFSET) 0 [].

Definition getSecurity : M Dev bool :=
  reg <- readReg NVM_REG_STATUS ;;
  ret (negb (JS.and reg 0x100 =? 0)).

Definition getBod : M Dev bool :=
  byte <- SamBA.readByte (NVM_UR_ADDR + NVM_UR_BOD33_ENABLE_OFFSET) ;;
  ret (negb (JS.and byte NVM_UR_BOD33_ENABLE_MASK =? 0)).

Definition getBor : M Dev bool :=
  byte <- SamBA.readByte (NVM_UR_ADDR + NVM_UR_BOD33_RESET_OFFSET) ;;
  ret (negb (JS.and byte NVM_UR_BOD33_RESET_MASK =? 0)).

Definition readUserRow (userRow : list Z) : M Dev (list Z) :=
  if negb (JS.len userRow =? NVM_UR_SIZE) then throw (JsError "Invalid row buffer size")
  else SamBA.read NVM_UR_ADDR userRow NVM_UR_SIZE.

(** [userRow[i] |= mask] and [userRow[i] &= ~mask]. *)
Definition or_at (a : list Z) (i mask : Z) : list Z := JS.set a i (JS.or (JS.get a i) mask).
Definition clear_at (a : list Z) (i mask : Z) : list Z :=
  JS.set a i (JS.and (JS.get a i) (JS.not mask)).

(** The body of the loop of [writeOptions] that writes one page of
    the user row. *)
Definition write_row_page (fuel : nat) (userRow : list Z) (offset : Z) : M Dev unit :=
  Flash.loadBuffer g userRow offset (size g) ;;
  command fuel NVM_CMD_PBC ;;
  Flash.prepareApplet g ;;
  WordCopyApplet.setDstAddr (user g) (NVM_UR_ADDR + offset) ;;
  onA <- gets (fun w => onBufferA (flash w)) ;;
  WordCopyApplet.setSrcAddr (user g) (Flash.pageBuffer g onA) ;;
  Flash.flipBuffer ;;
  waitReady fuel ;;
  WordCopyApplet.runv (user g) ;;
  writeReg NVM_REG_ADDR ((NVM_UR_ADDR + offset) / 2) ;;
  command fuel NVM_CMD_WAP.

Definition writeOptions (fuel : nat) : M Dev unit :=
  let userRow := repeat 0 (Z.to_nat NVM_UR_SIZE) in
  borO <- gets (fun w => bor (flash w)) ;;
  userRow <-
    (if Flash.canBor && FlashOption.isDirty borO then
       current <- getBor ;;
       if negb (Bool.eqb (FlashOption.get borO) current) then
         userRow <- readUserRow userRow ;;
         if FlashOption.get borO
         then ret (or_at userRow NVM_UR_BOD33_RESET_OFFSET NVM_UR_BOD33_RESET_MASK)
         else ret (clear_at userRow NVM_UR_BOD33_RESET_OFFSET NVM_UR_BOD33_RESET_MASK)
       else ret userRow
     else ret userRow) ;;
  bodO <- gets (fun w => bod (flash w)) ;;
  userRow <-
    (if Flash.canBod && FlashOption.isDirty bodO then
       current <- getBod ;;
       if negb (Bool.eqb (FlashOption.get bodO) current) then
         userRow <- readUserRow userRow ;;
         if FlashOption.get bodO
         then ret (or_at userRow NVM_UR_BOD33_ENABLE_OFFSET NVM_UR_BOD33_ENABLE_MASK)
         else ret (clear_at userRow NVM_UR_BOD33_ENABLE_OFFSET NVM_UR_BOD33_ENABLE_MASK)
       else ret userRow
     else ret userRow) ;;
  regionsO <- gets (fun w => regions (flash w)) ;;
  userRow <-
    (if FlashOption.isDirty regionsO then
       current <- getLockRegions ;;
       let rs := FlashOption.get regionsO in
       if negb (Flash.regions_equal rs current) then
         userRow <- readUserRow userRow ;;
         ret (Flash.lock_bits rs 0 NVM_UR_NVM_LOCK_OFFSET userRow)
       else ret userRow
     else ret userRow) ;;
  (* if (userRow): an object, always true *)
  ctrlb <- readReg NVM_REG_CTRLB ;;
  writeReg NVM_REG_CTRLB (JS.or (JS.or ctrlb (JS.shl 0x1 18)) (JS.shl 0x1 7)) ;;
  writeReg NVM_REG_ADDR (NVM_UR_ADDR / 2) ;;
  command fuel NVM_CMD_EAR ;;
  Flash.for_offsets (Z.to_nat NVM_UR_SIZE) 0 NVM_UR_SIZE (size g)
                    (write_row_page fuel userRow) ;;
  securityO <- gets (fun w => security (flash w)) ;;
  if FlashOption.isDirty securityO && Bool.eqb (FlashOption.get securityO) true then
    current <- getSecurity ;;
    if negb (Bool.eqb (FlashOption.get securityO) current) then command fuel NVM_CMD_SSB
    else ret tt
  else ret tt.

Definition writePage (fuel : nat) (page : Z) : M Dev unit :=
  if pages g <=? page then throw FlashPageError else
  ctrlb <- readReg NVM_REG_CTRLB ;;
  writeReg NVM_REG_CTRLB (JS.or (JS.or ctrlb (JS.shl 0x1 18)) (JS.shl 0x1 7)) ;;
  auto <- gets (fun w => eraseAuto (flash w)) ;;
  when (auto && (Z.rem page ERASE_ROW_PAGES =? 0))
       (erase fuel (page * size g) (ERASE_ROW_PAGES * size g)) ;;
  command fuel NVM_CMD_PBC ;;
  let addr_ := addr g + page * size g in
  Flash.prepareApplet g ;;
  WordCopyApplet.setDstAddr (user g) addr_ ;;
  onA <- gets (fun w => onBufferA (flash w)) ;;
  WordCopyApplet.setSrcAddr (user g) (Flash.pageBuffer g onA) ;;
  Flash.flipBuffer ;;
  waitReady fuel ;;
  WordCopyApplet.runv (user g) ;;
  writeReg NVM_REG_ADDR (addr_ / 2) ;;
  command fuel NVM_CMD_WP.

Definition readPage (page : Z) (buf : list Z) : M Dev (list Z) :=
  if pages g <=? page then throw FlashPageError
  else SamBA.read (addr g + page * size g) buf (size g).

Definition writeBuffer (fuel : nat) (dst_addr size_ : Z) : M Dev unit :=
  auto <- gets (fun w => eraseAuto (flash w)) ;;
  when auto (erase fuel dst_addr size_) ;;
  Flash.writeBuffer g dst_addr size_.

End Driver.

End D2x.

(** ** D5xNvmFlash.ts *)

Module D5x.

Definition CMDEX_KEY : Z := 0xa500.
Definition NVM_REG_BASE : Z := 0x41004000.

Definition NVM_REG_CTRLA : Z := 0x00.
Definition NVM_REG_CTRLB : Z := 0x04.
Definition NVM_REG_INTFLAG : Z := 0x10.
Definition NVM_REG_STATUS : Z := 0x12.
Definition NVM_REG_ADDR : Z := 0x14.
Definition NVM_REG_RUNLOCK : Z := 0x18.

Definition NVM_CMD_EP : Z := 0x00.
Definition NVM_CMD_EB : Z := 0x01.
Definition NVM_CMD_WP : Z := 0x03.
Definition NVM_CMD_WQW : Z := 0x04.
Definition NVM_CMD_LR : Z := 0x11.
Definition NVM_CMD_UR : Z := 0x12.
Definition NVM_CMD_SSB : Z := 0x16.
Definition NVM_CMD_PBC : Z := 0x15.

Definition ERASE_BLOCK_PAGES : Z := 16.

Definition NVM_UP_ADDR : Z := 0x804000.
Definition NVM_UP_BOD33_DISABLE_OFFSET : Z := 0x0.
Definition NVM_UP_BOD33_DISABLE_MASK : Z := 0x1.
Definition NVM_UP_BOD33_RESET_OFFSET : Z := 0x1.
Definition NVM_UP_BOD33_RESET_MASK : Z := 0x2.
Definition NVM_UP_NVM_LOCK_OFFSET : Z := 0x8.

(** The constructor: base address 0, one plane, 32 lock regions. *)
Definition geometry (pages_ size_ user_ stack_ : Z) : Geometry :=
  mkGeometry 0 pages_ size_ 1 32 user_ stack_.

Section Driver.
Context {Dev : Type} `{SerialPort Dev}.
Variable g : Geometry.

Definition NVM_UP_SIZE : Z := size g.

Definition readRegU16 (reg : Z) : M Dev Z :=
  lo <- SamBA.readByte (NVM_REG_BASE + reg) ;;
  hi <- SamBA.readByte (NVM_REG_BASE + reg + 1) ;;
  ret (JS.or lo (JS.shl hi 8)).

Definition writeRegU16 (reg value : Z) : M Dev unit :=
  SamBA.writeByte (NVM_REG_BASE + reg) (JS.and value 0xff) ;;
  SamBA.writeByte (NVM_REG_BASE + reg) (JS.and (JS.shr value 8) 0xff).

Definition readRegU32 (reg : Z) : M Dev Z :=
  SamBA.readWord (NVM_REG_BASE + reg).

Definition writeRegU32 (reg value : Z) : M Dev unit :=
  SamBA.writeWord (NVM_REG_BASE + reg) value.

(** [while ((await this.readRegU16(NVM_REG_STATUS) & 0x1) == 0);]
    with at most [fuel] reads of the register. *)
Fixpoint waitReady (fuel : nat) : M Dev unit :=
  match fuel with
  | O => out_of_fuel
  | S fuel' =>
      v <- readRegU16 NVM_REG_STATUS ;;
      if JS.and v 0x1 =? 0 then waitReady fuel' else ret tt
  end.

Definition command (fuel : nat) (cmd : Z) : M Dev unit :=
  waitReady fuel ;;
  writeRegU32 NVM_REG_CTRLB (JS.or CMDEX_KEY cmd) ;;
  waitReady fuel ;;
  v <- readRegU16 NVM_REG_INTFLAG ;;
  if JS.truthy (JS.and v 0xce) then
    writeRegU16 NVM_REG_INTFLAG 0xce ;;
    throw FlashCmdError
  else ret tt.

Fixpoint erase_blocks (n : nat) (fuel : nat) (eraseNum : Z) (eraseEnd : Q) (eraseSize : Z)
  : M Dev unit :=
  match n with
  | O => ret tt
  | S n' =>
      if Qlt_bool (inject_Z eraseNum) eraseEnd then
        let wordAddr := eraseNum * eraseSize in
        writeRegU32 NVM_REG_ADDR wordAddr ;;
        command fuel NVM_CMD_EB ;;
        erase_blocks n' fuel (eraseNum + 1) eraseEnd eraseSize
      else ret tt
  end.

(** [erase(offset, size)], as in the other driver. *)
Definition erase (fuel : nat) (offset size_ : Z) : M Dev unit :=
  let eraseSize := size g * ERASE_BLOCK_PAGES in
  if negb (eraseSize =? 0) && JS.truthy (Z.rem offset eraseSize) then throw FlashEraseError
  else if Flash.totalSize g <? offset + size_ then throw FlashEraseError
  else
    let eraseEnd : Q := (inject_Z (offset + size_ + eraseSize - 1) / inject_Z eraseSize)%Q in
    let eraseNum := offset / eraseSize in
    erase_blocks (Z.to_nat (Qceiling eraseEnd - eraseNum)) fuel eraseNum eraseEnd eraseSize.

Definition eraseAll (fuel : nat) (offset : Z) : M Dev unit :=
  can <- gets (fun w => canChipErase (samba w)) ;;
  if can then SamBA.chipErase offset
  else erase fuel offset (Flash.totalSize g - offset).

Definition getLockRegions : M Dev (list bool) :=
  Flash.lock_regions g (Z.to_nat (lockRegions g)) 0
                     (NVM_UP_ADDR + NVM_UP_NVM_LOCK_OFFSET) 0 [].

Definition getSecurity : M Dev bool := ret false.

Definition getBod : M Dev bool :=
  byte <- SamBA.readByte (NVM_UP_ADDR + NVM_UP_BOD33_DISABLE_OFFSET) ;;
  ret (JS.and byte NVM_UP_BOD33_DISABLE_MASK =? 0).

Definition getBor : M Dev bool :=
  byte <- SamBA.readByte (NVM_UP_ADDR + NVM_UP_BOD33_RESET_OFFSET) ;;
  ret (negb (JS.and byte NVM_UP_BOD33_RESET_MASK =? 0)).

Definition readUserPage (userRow : list Z) : M Dev (list Z) :=
  if negb (JS.len userRow =? NVM_UP_SIZE) then throw (JsError "Invalid row buffer size")
  else SamBA.read NVM_UP_ADDR userRow NVM_UP_SIZE.

Definition or_at (a : list Z) (i mask : Z) : list Z := JS.set a i (JS.or (JS.get a i) mask).
Definition clear_at (a : list Z) (i mask : Z) : list Z :=
  JS.set a i (JS.and (JS.get a i) (JS.not mask)).

(** [(v | (0x3 << 14)) & 0xffcf]. *)
Definition manual_write (v : Z) : Z := JS.and (JS.or v (JS.shl 0x3 14)) 0xffcf.

(** The body of the loop of [writeOptions] that writes one quad
    word of the user page. *)
Definition write_quad_word (fuel : nat) (userPage : list Z) (offset : Z) : M Dev unit :=
  Flash.loadBuffer g userPage offset 16 ;;
  command fuel NVM_CMD_PBC ;;
  Flash.prepareApplet g ;;
  WordCopyApplet.setDstAddr (user g) (NVM_UP_ADDR + offset) ;;
  onA <- gets (fun w => onBufferA (flash w)) ;;
  WordCopyApplet.setSrcAddr (user g) (Flash.pageBuffer g onA) ;;
  WordCopyApplet.setWords (user g) 4 ;;
  Flash.flipBuffer ;;
  waitReady fuel ;;
  WordCopyApplet.runv (user g) ;;
  writeRegU32 NVM_REG_ADDR (NVM_UP_ADDR + offset) ;;
  command fuel NVM_CMD_WQW.

Definition writeOptions (fuel : nat) : M Dev unit :=
  let userPage := repeat 0 (Z.to_nat NVM_UP_SIZE) in
  borO <- gets (fun w => bor (flash w)) ;;
  userPage <-
    (if Flash.canBor && FlashOption.isDirty borO then
       current <- getBor ;;
       if negb (Bool.eqb (FlashOption.get borO) current) then
         userPage <- readUserPage userPage ;;
         if FlashOption.get borO
         then ret (or_at userPage NVM_UP_BOD33_RESET_OFFSET NVM_UP_BOD33_RESET_MASK)
         else ret (clear_at userPage NVM_UP_BOD33_RESET_OFFSET NVM_UP_BOD33_RESET_MASK)
       else ret userPage
     else ret userPage) ;;
  bodO <- gets (fun w => bod (flash w)) ;;
  userPage <-
    (if Flash.canBod && FlashOption.isDirty bodO then
       current <- getBod ;;
       if negb (Bool.eqb (FlashOption.get bodO) current) then
         userPage <- readUserPage userPage ;;
         if FlashOption.get bodO
         then ret (clear_at userPage NVM_UP_BOD33_DISABLE_OFFSET NVM_UP_BOD33_DISABLE_MASK)
         else ret (or_at userPage NVM_UP_BOD33_DISABLE_OFFSET NVM_UP_BOD33_DISABLE_MASK)
       else ret userPage
     else ret userPage) ;;
  regionsO <- gets (fun w => regions (flash w)) ;;
  userPage <-
    (if FlashOption.isDirty regionsO then
       current <- getLockRegions ;;
       let rs := FlashOption.get regionsO in
       if negb (Flash.regions_equal rs current) then
         userPage <- readUserPage userPage ;;
         ret (Flash.lock_bits rs 0 NVM_UP_NVM_LOCK_OFFSET userPage)
       else ret userPage
     else ret userPage) ;;
  (* if (userPage): an object, always true *)
  ctrla <- readRegU16 NVM_REG_CTRLA ;;
  writeRegU16 NVM_REG_CTRLA (manual_write ctrla) ;;
  writeRegU32 NVM_REG_ADDR NVM_UP_ADDR ;;
  command fuel NVM_CMD_EP ;;
  Flash.for_offsets (Z.to_nat NVM_UP_SIZE) 0 NVM_UP_SIZE (size g)
                    (write_quad_word fuel userPage) ;;
  securityO <- gets (fun w => security (flash w)) ;;
  if FlashOption.isDirty securityO && Bool.eqb (FlashOption.get securityO) true then
    current <- getSecurity ;;
    if negb (Bool.eqb (FlashOption.get securityO) current) then command fuel NVM_CMD_SSB
    else ret tt
  else ret tt.

Definition writePage (fuel : nat) (page : Z) : M Dev unit :=
  if pages g <=? page then throw FlashPageError else
  ctrla <- readRegU16 NVM_REG_CTRLA ;;
  writeRegU16 NVM_REG_CTRLA (manual_write ctrla) ;;
  auto <- gets (fun w => eraseAuto (flash w)) ;;
  when (auto && (Z.rem page ERASE_BLOCK_PAGES =? 0))
       (erase fuel (page * size g) (ERASE_BLOCK_PAGES * size g)) ;;
  command fuel NVM_CMD_PBC ;;
  let addr_ := addr g + page * size g in
  Flash.prepareApplet g ;;
  WordCopyApplet.setDstAddr (user g) addr_ ;;
  onA <- gets (fun w => onBufferA (flash w)) ;;
  WordCopyApplet.setSrcAddr (user g) (Flash.pageBuffer g onA) ;;
  WordCopyApplet.setWords (user g) (size g / 4) ;;
  Flash.flipBuffer ;;
  waitReady fuel ;;
  WordCopyApplet.runv (user g) ;;
  writeRegU32 NVM_REG_ADDR (addr_ / 2) ;;
  command fuel NVM_CMD_WP.

Definition readPage (page : Z) (buf : list Z) : M Dev (list Z) :=
  if pages g <=? page then throw FlashPageError
  else SamBA.read (addr g + page * size g) buf (size g).

(** [(dst_addr / this._size) % ERASE_BLOCK_PAGES == 0]: the real
    quotient is a multiple of 16 when [dst_addr] is a multiple of
    sixteen pages; with a page size of 0 the quotient is not a number
    and the test fails. *)
Definition writeBuffer (fuel : nat) (dst_addr size_ : Z) : M Dev unit :=
  auto <- gets (fun w => eraseAuto (flash w)) ;;
  when (auto && negb (size g =? 0) && (Z.rem dst_addr (size g * ERASE_BLOCK_PAGES) =? 0))
       (erase fuel dst_addr size_) ;;
  Flash.writeBuffer g dst_addr size_.

End Driver.

End D5x.

(** ** The vocabulary of the statements *)

(** The characters of the version string that the specification calls
    the inside of the bracket: what follows the first [[Arduino:] up to
    the next closing bracket, or up to the end when there is none. *)
Module Banner.

Fixpoint drop (n : nat) (s : string) : string :=
  match n, s with
  | O, _ => s
  | S n', String _ s' => drop n' s'
  | S _, EmptyString => EmptyString
  end.

Fixpoint until_bracket (s : string) : list ascii :=
  match s with
  | EmptyString => []
  | String c s' => if Ascii.eqb c "]" then [] else c :: until_bracket s'
  end.

Definition bracket (version : string) : option (list ascii) :=
  match String.index 0 "[Arduino:" version with
  | Some i => Some (until_bracket (drop (i + 9) version))
  | None => None
  end.

Definition has (x : ascii) (inside : list ascii) : bool :=
  existsb (fun c => Ascii.eqb c x) inside.

End Banner.

(** The letter of a command. *)
Definition first_char (cmd : string) : ascii :=
  match cmd with
  | String c _ => c
  | EmptyString => "000"%char
  end.

(** Events that are commands, and commands other than [G]. *)
Definition is_sent (e : Event) : Prop :=
  match e with
  | Sent _ _ _ => True
  | Flip _ => False
  end.

Definition not_go (e : Event) : Prop :=
  match e with
  | Sent cmd _ _ => first_char cmd <> "G"%char
  | Flip _ => True
  end.

(** The number of assignments to [_onBufferA] in a log. *)
Fixpoint flips (t : list Event) : nat :=
  match t with
  | [] => 0
  | Flip _ :: t' => S (flips t')
  | Sent _ _ _ :: t' => flips t'
  end.

(** [respects P m]: every run of [m], whatever its outcome, relates the
    state before, the state after and the log by [P]. *)
Definition respects {Dev A} (P : World Dev -> World Dev -> list Event -> Prop) (m : M Dev A) : Prop :=
  forall w r w' t, m w = (r, w', t) -> P w w' t.

(** The relations that the transport, the applet and the preparation
    of the applet respect. *)
Class Stable {Dev} `{SerialPort Dev} (P : World Dev -> World Dev -> list Event -> Prop) : Prop :=
  { st_nil : forall w, P w w [];
    st_app : forall w1 w2 w3 t1 t2, P w1 w2 t1 -> P w2 w3 t2 -> P w1 w3 (t1 ++ t2);
    st_io : forall cmd responseSize data,
        first_char cmd <> "G"%char -> respects P (SamBA.sendCommand cmd responseSize data);
    st_installed : forall w, P w (set_installed w true) [];
    st_prepared : forall w, P w (set_flash w (Flash.set_prepared (flash w) true)) [] }.

(** ** The logs of [command] *)

Module D2xLog.

(** A read of INTFLAG, the dispatch of a command, the write that clears
    the error flag. *)
Definition poll (reply : option (list Z)) : Event :=
  Sent (SamBA.cmd_w (D2x.NVM_REG_BASE + D2x.NVM_REG_INTFLAG)) None reply.
Definition dispatch (cmd : Z) : Event :=
  Sent (SamBA.cmd_W (D2x.NVM_REG_BASE + D2x.NVM_REG_CTRLA) (JS.or D2x.CMDEX_KEY cmd)) None None.
Definition clear : Event :=
  Sent (SamBA.cmd_W (D2x.NVM_REG_BASE + D2x.NVM_REG_INTFLAG) 0x2) None None.

Definition ready (reply : list Z) : bool := negb (JS.and (SamBA.word_of reply) 0x1 =? 0).
Definition error (reply : list Z) : bool := JS.truthy (JS.and (SamBA.word_of reply) 0x2).

(** The log of a ready-wait and its outcome: reads of INTFLAG answered
    not ready, closed by one answered ready, or by one left unanswered,
    or by the end of the fuel. *)
Inductive wait : Res unit -> list Event -> Prop :=
| wait_ready reply : ready reply = true -> wait (Ok tt) [poll (Some reply)]
| wait_busy reply r t : ready reply = false -> wait r t -> wait r (poll (Some reply) :: t)
| wait_silent : wait (Throw (SamBAError "Reading")) [poll None]
| wait_fuel : wait OutOfFuel [].

(** The log of [command(cmd)] and its outcome, stage by stage. *)
Inductive command_log (cmd : Z) : Res unit -> list Event -> Prop :=
| stops_in_first_wait r t :
    wait r t -> r <> Ok tt -> command_log cmd r t
| stops_in_second_wait t1 r t2 :
    wait (Ok tt) t1 -> wait r t2 -> r <> Ok tt ->
    command_log cmd r (t1 ++ dispatch cmd :: t2)
| check_unanswered t1 t2 :
    wait (Ok tt) t1 -> wait (Ok tt) t2 ->
    command_log cmd (Throw (SamBAError "Reading")) (t1 ++ dispatch cmd :: t2 ++ [poll None])
| check_passes t1 t2 reply :
    wait (Ok tt) t1 -> wait (Ok tt) t2 -> error reply = false ->
    command_log cmd (Ok tt) (t1 ++ dispatch cmd :: t2 ++ [poll (Some reply)])
| check_fails t1 t2 reply :
    wait (Ok tt) t1 -> wait (Ok tt) t2 -> error reply = true ->
    command_log cmd (Throw FlashCmdError) (t1 ++ dispatch cmd :: t2 ++ [poll (Some reply); clear]).

End D2xLog.

Module D5xLog.

Definition byte_read (a : Z) (reply : option (list Z)) : Event :=
  Sent (SamBA.cmd_o (D5x.NVM_REG_BASE + a)) None reply.
Definition value16 (lo hi : list Z) : Z := JS.or (JS.get lo 0) (JS.shl (JS.get hi 0) 8).

(** The log of a 16-bit read of a register and its outcome: the byte at
    the address of the register, then the byte at the next address. *)
Inductive read16 (reg : Z) : Res Z -> list Event -> Prop :=
| read16_both lo hi :
    read16 reg (Ok (value16 lo hi)) [byte_read reg (Some lo); byte_read (reg + 1) (Some hi)]
| read16_low_unanswered :
    read16 reg (Throw (SamBAError "Reading")) [byte_read reg None]
| read16_high_unanswered lo :
    read16 reg (Throw (SamBAError "Reading")) [byte_read reg (Some lo); byte_read (reg + 1) None].

Definition dispatch (cmd : Z) : Event :=
  Sent (SamBA.cmd_W (D5x.NVM_REG_BASE + D5x.NVM_REG_CTRLB) (JS.or D5x.CMDEX_KEY cmd)) None None.

(** The two byte writes with which [command] clears the error flags. *)
Definition clear : list Event :=
  [ Sent (SamBA.cmd_O (D5x.NVM_REG_BASE + D5x.NVM_REG_INTFLAG) (JS.and 0xce 0xff)) None None;
    Sent (SamBA.cmd_O (D5x.NVM_REG_BASE + D5x.NVM_REG_INTFLAG) (JS.and (JS.shr 0xce 8) 0xff)) None None ].

Inductive wait : Res unit -> list Event -> Prop :=
| wait_ready v t :
    read16 D5x.NVM_REG_STATUS (Ok v) t -> JS.and v 0x1 <> 0 -> wait (Ok tt) t
| wait_busy v t r t' :
    read16 D5x.NVM_REG_STATUS (Ok v) t -> JS.and v 0x1 = 0 -> wait r t' -> wait r (t ++ t')
| wait_silent e t :
    read16 D5x.NVM_REG_STATUS (Throw e) t -> wait (Throw e) t
| wait_fuel : wait OutOfFuel [].

Inductive command_log (cmd : Z) : Res unit -> list Event -> Prop :=
| stops_in_first_wait r t :
    wait r t -> r <> Ok tt -> command_log cmd r t
| stops_in_second_wait t1 r t2 :
    wait (Ok tt) t1 -> wait r t2 -> r <> Ok tt ->
    command_log cmd r (t1 ++ dispatch cmd :: t2)
| check_unanswered t1 t2 e t3 :
    wait (Ok tt) t1 -> wait (Ok tt) t2 -> read16 D5x.NVM_REG_INTFLAG (Throw e) t3 ->
    command_log cmd (Throw e) (t1 ++ dispatch cmd :: t2 ++ t3)
| check_passes t1 t2 v t3 :
    wait (Ok tt) t1 -> wait (Ok tt) t2 -> read16 D5x.NVM_REG_INTFLAG (Ok v) t3 ->
    JS.and v 0xce = 0 ->
    command_log cmd (Ok tt) (t1 ++ dispatch cmd :: t2 ++ t3)
| check_fails t1 t2 v t3 :
    wait (Ok tt) t1 -> wait (Ok tt) t2 -> read16 D5x.NVM_REG_INTFLAG (Ok v) t3 ->
    JS.and v 0xce <> 0 ->
    command_log cmd (Throw FlashCmdError) (t1 ++ dispatch cmd :: t2 ++ t3 ++ clear).

End D5xLog.

(** Three relations that runs respect: nothing but commands in the log
    and [_onBufferA] unchanged; no [G] command in the log; no dirty
    flag of an option cleared. *)
Definition quiet {Dev} (w w' : World Dev) (t : list Event) : Prop :=
  Forall is_sent t /\ onBufferA (flash w') = onBufferA (flash w).

Definition no_go {Dev} (w w' : World Dev) (t : list Event) : Prop :=
  Forall not_go t.

Definition stays_dirty {T} (o o' : FlashOption T) : Prop :=
  dirty o = true -> dirty o' = true.

Definition keeps_dirty {Dev} (w w' : World Dev) (t : list Event) : Prop :=
  stays_dirty (bootFlash (flash w)) (bootFlash (flash w')) /\
  stays_dirty (bod (flash w)) (bod (flash w')) /\
  stays_dirty (bor (flash w)) (bor (flash w')) /\
  stays_dirty (security (flash w)) (security (flash w')) /\
  stays_dirty (regions (flash w)) (regions (flash w')).


(** The ways in which the loop of [erase] can end. *)
Definition erase_outcome (r : Res unit) : Prop :=
  r = Ok tt \/ r = Throw (SamBAError "Reading") \/ r = Throw FlashCmdError \/ r = OutOfFuel.

(** The geometries on which the quotients [size / 4] and [addr / 2] of
    the drivers are integers. *)
Definition word_aligned (g : Geometry) : Prop :=
  (2 | addr g) /\ (4 | size g).

(** [writePage] called for each page of a list, one call after the
    other. *)
Fixpoint writePages {Dev} (writePage : Z -> M Dev unit) (ps : list Z) : M Dev unit :=
  match ps with
  | [] => ret tt
  | page :: ps' => writePage page ;; writePages writePage ps'
  end.

(** What a completed [writePage] does with the two page buffers: the
    log has one assignment to [_onBufferA], which negates it; before
    it, the source cell of the applet is given the buffer that was
    active and no [G] command is sent; after it, the applet is run. *)
Definition flips_before_run {Dev} (g : Geometry) (writePage : Z -> M Dev unit) : Prop :=
  forall page (w w' : World Dev) t,
    writePage page w = (Ok tt, w', t) ->
    onBufferA (flash w') = negb (onBufferA (flash w)) /\
    exists pre post,
      t = pre ++ Flip (negb (onBufferA (flash w))) :: post
      /\ Forall is_sent pre /\ Forall not_go pre /\ Forall is_sent post
      /\ In (Sent (SamBA.cmd_W (user g + WordCopyApplet.src_addr)
                               (Flash.pageBuffer g (onBufferA (flash w)))) None None) pre
      /\ In (Sent (SamBA.cmd_G (user g + WordCopyApplet.stack)) None None) post.

(** The operations of a flash driver that a caller can invoke, in
    either driver. *)
Inductive Family : Type := D2xFamily | D5xFamily.

Inductive Op : Type :=
| SetLockRegions (rs : list bool)
| SetSecurity
| SetBod (enable : bool)
| SetBor (enable : bool)
| SetBootFlash (enable : bool)
| SetEraseAuto (enable : bool)
| GetLockRegions
| GetSecurity
| GetBod
| GetBor
| EraseAll (offset : Z)
| WriteOptions
| WritePage (page : Z)
| ReadPage (page : Z) (buf : list Z)
| WriteBuffer (dst_addr size_ : Z)
| LoadBuffer (data : list Z) (offset bufferSize : Z).

Definition run_op {Dev} `{SerialPort Dev} (f : Family) (g : Geometry) (fuel : nat) (op : Op)
  : M Dev unit :=
  match op with
  | SetLockRegions rs => Flash.setLockRegions g rs
  | SetSecurity => Flash.setSecurity
  | SetBod enable => Flash.setBod enable
  | SetBor enable => Flash.setBor enable
  | SetBootFlash enable => Flash.setBootFlash enable
  | SetEraseAuto enable => Flash.setEraseAuto enable
  | GetLockRegions =>
      match f with D2xFamily => D2x.getLockRegions g | D5xFamily => D5x.getLockRegions g end ;;
      ret tt
  | GetSecurity =>
      match f with D2xFamily => D2x.getSecurity | D5xFamily => D5x.getSecurity end ;; ret tt
  | GetBod => match f with D2xFamily => D2x.getBod | D5xFamily => D5x.getBod end ;; ret tt
  | GetBor => match f with D2xFamily => D2x.getBor | D5xFamily => D5x.getBor end ;; ret tt
  | EraseAll offset =>
      match f with
      | D2xFamily => D2x.eraseAll g fuel offset
      | D5xFamily => D5x.eraseAll g fuel offset
      end
  | WriteOptions =>
      match f with D2xFamily => D2x.writeOptions g fuel | D5xFamily => D5x.writeOptions g fuel end
  | WritePage page =>
      match f with
      | D2xFamily => D2x.writePage g fuel page
      | D5xFamily => D5x.writePage g fuel page
      end
  | ReadPage page buf =>
      match f with D2xFamily => D2x.readPage g page buf | D5xFamily => D5x.readPage g page buf end ;;
      ret tt
  | WriteBuffer dst_addr size_ =>
      match f with
      | D2xFamily => D2x.writeBuffer g fuel dst_addr size_
      | D5xFamily => D5x.writeBuffer g fuel dst_addr size_
      end
  | LoadBuffer data offset bufferSize => Flash.loadBuffer g data offset bufferSize
  end.

(** A session: the operations run one after the other, each from the
    state the one before left, whether it returned or threw. *)
Fixpoint session {Dev} `{SerialPort Dev} (f : Family) (g : Geometry) (fuel : nat)
         (ops : list Op) (w : World Dev) : World Dev :=
  match ops with
  | [] => w
  | op :: ops' => session f g fuel ops' (snd (fst (run_op f g fuel op w)))
  end.

(** The five options unchanged, value and dirty flag. *)
Definition same_options {Dev} (w w' : World Dev) (t : list Event) : Prop :=
  bootFlash (flash w') = bootFlash (flash w) /\
  bod (flash w') = bod (flash w) /\
  bor (flash w') = bor (flash w) /\
  security (flash w') = security (flash w) /\
  regions (flash w') = regions (flash w).

(** ** A mock board

    It answers every byte read with [0x01] and every word read with
    [1, 0, 0, 0] (the controller is ready and reports no error) once
    the polls it was set up to refuse have been spent; before that it
    answers with zeros.  The byte at [0x804000] reads as [0xfe], any
    block read returns bytes [0xff].  The state counts the refusals
    that are left. *)

Module Mock.

Definition respond (busy : nat) (cmd : string) (data : option (list Z)) : list Z * nat :=
  let c := first_char cmd in
  if Ascii.eqb c "o" then
    if String.eqb cmd "o00804000,4" then ([0xfe], busy)
    else match busy with
         | O => ([0x01], busy)
         | S n => ([0x00], n)
         end
  else if Ascii.eqb c "w" then
    match busy with
    | O => ([0x01; 0x00; 0x00; 0x00], busy)
    | S n => ([0x00; 0x00; 0x00; 0x00], n)
    end
  else if Ascii.eqb c "R" then (repeat 0xff 600, busy)
  else if Ascii.eqb c "N" then ([0x0a; 0x0d], busy)
  else if Ascii.eqb c "V" then
    (map (fun a => Z.of_N (N_of_ascii a))
         (list_ascii_of_string "v1.1 [Arduino:XYZ] Mar 19 2018 09:45:14") ++ [0x0a; 0x0d], busy)
  else ([], busy).

#[global] Instance port : SerialPort nat := {| exchange := respond |}.

Definition world (busy : nat) (f : FlashState) : World nat :=
  mkWorld busy SamBA.new false f.

Definition fresh : FlashState :=
  mkFlash true false true
          (FlashOption.new true) (FlashOption.new true) (FlashOption.new true)
          (FlashOption.new true) (FlashOption.new []).

(** ATSAMD21x18 and ATSAMD51x19 as [device.ts] builds them. *)
Definition samd21 : Geometry := D2x.geometry 4096 64 0x20004000 0x20008000.
Definition samd51 : Geometry := D5x.geometry 1024 512 0x20004000 0x20008000.

(** The commands of a log, without payloads and replies. *)
Definition commands (t : list Event) : list string :=
  flat_map (fun e => match e with Sent cmd _ _ => [cmd] | Flip _ => [] end) t.

End Mock.


(** Runs on the mock board, evaluated once. *)
Definition connect_run : Res unit * World nat * list Event :=
  Eval vm_compute in SamBA._connect (Mock.world 0 Mock.fresh).






Definition d2x_writePage_run : Res unit * World nat * list Event :=
  Eval vm_compute in D2x.writePage Mock.samd21 1 1 (Mock.world 0 Mock.fresh).

Definition d5x_writePage_run : Res unit * World nat * list Event :=
  Eval vm_compute in D5x.writePage Mock.samd51 1 1 (Mock.world 0 Mock.fresh).

Definition d2x_erase_run : Res unit * World nat * list Event :=
  Eval vm_compute in D2x.erase Mock.samd21 1 0 256 (Mock.world 0 Mock.fresh).

Definition d5x_erase_run : Res unit * World nat * list Event :=
  Eval vm_compute in D5x.erase Mock.samd51 1 0 8192 (Mock.world 0 Mock.fresh).

Definition d5x_writeOptions_run : Res unit * World nat * list Event :=
  Eval vm_compute in
    (Flash.setBod false ;; D5x.writeOptions Mock.samd51 1) (Mock.world 0 Mock.fresh).

Definition d2x_writePages_run : Res unit * World nat * list Event :=
  Eval vm_compute in
    writePages (D2x.writePage Mock.samd21 1) [1; 2; 3] (Mock.world 0 Mock.fresh).

(** ** util.ts *)

(** [Uint8Buffer]: a byte queue over a typed array that grows.  The
    operations that can raise a [RangeError] (an [ArrayBuffer] of
    negative length, a [set] or a view past the end of the storage)
    return [None] when they do. *)
Module Uint8Buffer.

Record t : Type := mk
  { readOffset : Z;
    writeOffset : Z;
    size : Z;
    view_ : list Z }.

(** [new Uint8Buffer(size)]. *)
Definition new (size_ : Z) : option t :=
  if size_ <? 0 then None else Some (mk 0 0 size_ (repeat 0 (Z.to_nat size_))).

Definition length (b : t) : Z := writeOffset b - readOffset b.

(** [a[i]] on a typed array, [None] for [undefined]. *)
Definition at_ (a : list Z) (i : Z) : option Z :=
  if (0 <=? i) && (i <? JS.len a) then Some (nth (Z.to_nat i) a 0) else None.

Definition shift (b : t) : option Z * t :=
  if length b <=? 0 then (None, b)
  else (at_ (view_ b) (readOffset b),
        mk (readOffset b + 1) (writeOffset b) (size b) (view_ b)).

(** [grow(newSize)]: the old bytes are copied one by one into the new
    array; a store past its end is dropped. *)
Definition grow (b : t) (newSize : Z) : option t :=
  if newSize <? 0 then None
  else
    let n := Z.to_nat newSize in
    Some (mk (readOffset b) (writeOffset b) newSize
             (firstn n (view_ b) ++ repeat 0 (n - List.length (view_ b)))).

Definition ensure (b : t) (length_ : Z) : option t :=
  if size b - writeOffset b <? length_ then grow b (size b + Z.max length_ (size b))
  else Some b.

(** A relative index of [fill]: a negative one counts from the end. *)
Definition clamp (a : list Z) (i : Z) : Z :=
  if i <? 0 then Z.max (JS.len a + i) 0 else Z.min i (JS.len a).

(** [a.fill(element, start, end)]. *)
Definition fill_range (a : list Z) (element start end_ : Z) : list Z :=
  let k := clamp a start in
  let final := clamp a end_ in
  if k <? final then
    firstn (Z.to_nat k) a ++ repeat (element mod 256) (Z.to_nat (final - k))
           ++ skipn (Z.to_nat final) a
  else a.

Definition fill (b : t) (element length_ : Z) : option t :=
  match ensure b length_ with
  | None => None
  | Some b =>
      Some (mk (readOffset b) (writeOffset b + length_) (size b)
               (fill_range (view_ b) element (writeOffset b) (writeOffset b + length_)))
  end.

(** [a.set(bytes, offset)]. *)
Definition set_at (a bytes : list Z) (offset : Z) : option (list Z) :=
  if (offset <? 0) || (JS.len a <? offset + JS.len bytes) then None
  else Some (firstn (Z.to_nat offset) a ++ map (fun v => v mod 256) bytes
                    ++ skipn (Z.to_nat (offset + JS.len bytes)) a).

Definition reset (b : t) : t := mk 0 0 (size b) (view_ b).

Definition push (b : t) (bytes : list Z) : option t :=
  match ensure b (JS.len bytes) with
  | None => None
  | Some b =>
      match set_at (view_ b) bytes (writeOffset b) with
      | None => None
      | Some v => Some (mk (readOffset b) (writeOffset b + JS.len bytes) (size b) v)
      end
  end.

Definition copy (b : t) (bytes : list Z) : option t :=
  match ensure b (JS.len bytes) with
  | None => None
  | Some b =>
      match set_at (view_ b) bytes (writeOffset b) with
      | None => None
      | Some v => Some (mk (readOffset b) (writeOffset b + JS.len bytes) (size b) v)
      end
  end.

(** [view()]: [new Uint8Array(this._buffer, this.readOffset,
    this.writeOffset)], a view of [writeOffset] bytes that starts at
    [readOffset]. *)
Definition view (b : t) : option (list Z) :=
  if (readOffset b <? 0) || (writeOffset b <? 0)
     || (JS.len (view_ b) <? readOffset b + writeOffset b)
  then None
  else Some (firstn (Z.to_nat (writeOffset b)) (skipn (Z.to_nat (readOffset b)) (view_ b))).

End Uint8Buffer.

(** [toByteArray(str)]. *)
Definition toByteArray (str : string) : list Z :=
  map (fun c => JS.and (Z.of_N (N_of_ascii c)) 0xff) (list_ascii_of_string str).

(** The first lines of [sendCommand]: the packet written for [cmd],
    built in the buffer [packet] that the client keeps. *)
Definition packet_of (packet : Uint8Buffer.t) (cmd : string) : option (list Z * Uint8Buffer.t) :=
  let packet := Uint8Buffer.reset packet in
  match Uint8Buffer.copy packet (toByteArray cmd) with
  | None => None
  | Some packet =>
      match Uint8Buffer.push packet [0x23] with
      | None => None
      | Some packet =>
          match Uint8Buffer.view packet with
          | None => None
          | Some res => Some (res, packet)
          end
      end
  end.

(** ** samba.ts: checksumBuffer *)

Module Checksum.

(** The white space that [parseInt] skips, among the characters of one
    byte. *)
Definition is_space (c : ascii) : bool :=
  let n := Z.of_N (N_of_ascii c) in
  ((9 <=? n) && (n <=? 13)) || (n =? 32) || (n =? 160).

(** The value of a digit in base 16. *)
Definition digit_value (c : ascii) : option Z :=
  let n := Z.of_N (N_of_ascii c) in
  if (48 <=? n) && (n <=? 57) then Some (n - 48)
  else if (97 <=? n) && (n <=? 102) then Some (n - 87)
  else if (65 <=? n) && (n <=? 70) then Some (n - 55)
  else None.

Fixpoint trim (s : string) : string :=
  match s with
  | String c s' => if is_space c then trim s' else s
  | EmptyString => s
  end.

(** The digits at the head of [s], read from the left; [None] when
    there is none. *)
Fixpoint digits (s : string) (acc : option Z) : option Z :=
  match s with
  | EmptyString => acc
  | String c s' =>
      match digit_value c with
      | Some d => digits s' (Some (match acc with Some a => a * 16 + d | None => d end))
      | None => acc
      end
  end.

(** [parseInt(s, 16)], [None] for [NaN]: white space, a sign, the
    prefix [0x] or [0X], then digits.  (The number is exact below
    2^53; [checksumBuffer] passes at most eight characters.) *)
Definition parseInt16 (s : string) : option Z :=
  let s := trim s in
  let '(sign, s) :=
    match s with
    | String c s' =>
        if Ascii.eqb c "-" then (-1, s')
        else if Ascii.eqb c "+" then (1, s')
        else (1, s)
    | EmptyString => (1, s)
    end in
  let s :=
    match s with
    | String c (String x s') =>
        if Ascii.eqb c "0" && (Ascii.eqb x "x" || Ascii.eqb x "X") then s' else s
    | _ => s
    end in
  match digits s None with
  | Some v => Some (sign * v)
  | None => None
  end.

Section Port.
Context {Dev : Type} `{SerialPort Dev}.

(** [checksumBuffer(start_addr, size)].  The test [num == NaN] of the
    source is false for every number, so the number is returned as it
    is, [None] when it is not a number. *)
Definition checksumBuffer (start_addr size_ : Z) : M Dev (option Z) :=
  can <- gets (fun w => canWriteBuffer (samba w)) ;;
  if negb can then throw (SamBAError "Cannot write buffer") else
  if SamBA.checksumBufferSize <? size_ then throw (SamBAError "Size too large for checksum buffer") else
  result <- SamBA.sendCommand ("Z" ++ SamBA.hex start_addr 8 ++ "," ++ SamBA.hex size_ 8)%string
                              12 None ;;
  match result with
  | Some result =>
      if JS.get result 0 =? 0x5A then
        let value := SamBA.decodeResponse result in
        let value := substring 1 8 value in
        ret (parseInt16 value)
      else throw (SamBAError "Board response for 'Z' command wrong")
  | None => throw (SamBAError "Board response for 'Z' command wrong")
  end.

End Port.

End Checksum.

(** ** device.ts *)

(** The two driver classes. *)
Definition Driver : Type := Family.

Module Device.

Inductive Family : Type :=
| FAMILY_NONE
| FAMILY_SAM7S
| FAMILY_SAM7SE
| FAMILY_SAM7X
| FAMILY_SAM7XC
| FAMILY_SAM7L
| FAMILY_SAM3N
| FAMILY_SAM3S
| FAMILY_SAM3U
| FAMILY_SAM3X
| FAMILY_SAM3A
| FAMILY_SAM4S
| FAMILY_SAM4E
| FAMILY_SAM9XE
| FAMILY_SAMD21
| FAMILY_SAMR21
| FAMILY_SAML21
| FAMILY_SAMD51
| FAMILY_SAME51
| FAMILY_SAME53
| FAMILY_SAME54
| FAMILY_SAME70
| FAMILY_SAMS70
| FAMILY_SAMV70
| FAMILY_SAMV71.

(** A group of [case] labels of the [switch] on the chip identifier,
    with the family its body assigns; [flashPtr] is [null] in all of
    them. *)
Definition chip_cases : list (list Z * Family) :=
  [ ([0x272a0a40], FAMILY_SAM7SE);
    ([0x272a0940], FAMILY_SAM7SE);
    ([0x272a0340], FAMILY_SAM7SE);
    ([0x270b0a40], FAMILY_SAM7S);
    ([0x270d0940; 0x270b0940], FAMILY_SAM7S);
    ([0x270c0740; 0x270a0740], FAMILY_SAM7S);
    ([0x27090540], FAMILY_SAM7S);
    ([0x27080340], FAMILY_SAM7S);
    ([0x27050240], FAMILY_SAM7S);
    ([0x271c0a40], FAMILY_SAM7XC);
    ([0x271b0940], FAMILY_SAM7XC);
    ([0x271a0740], FAMILY_SAM7XC);
    ([0x275c0a40], FAMILY_SAM7X);
    ([0x275b0940], FAMILY_SAM7X);
    ([0x275a0740], FAMILY_SAM7X);
    ([0x29870ee0; 0x29970ee0; 0x29a70ee0], FAMILY_SAM4S);
    ([0x29870c30; 0x29970c30; 0x29a70c30], FAMILY_SAM4S);
    ([0x28870ce0; 0x28970ce0; 0x28a70ce0], FAMILY_SAM4S);
    ([0x288c0ce0; 0x289c0ce0; 0x28ac0ce0], FAMILY_SAM4S);
    ([0x288c0ae0; 0x289c0ae0; 0x28ac0ae0], FAMILY_SAM4S);
    ([0x288b09e0; 0x289b09e0; 0x28ab09e0], FAMILY_SAM4S);
    ([0x288b07e0; 0x289b07e0; 0x28ab07e0], FAMILY_SAM4S);
    ([0x29340960; 0x29440960; 0x29540960], FAMILY_SAM3N);
    ([0x29390760; 0x29490760; 0x29590760], FAMILY_SAM3N);
    ([0x29380560; 0x29480560; 0x29580560], FAMILY_SAM3N);
    ([0x29380360; 0x29480360; 0x29580360], FAMILY_SAM3N);
    ([0x299b0a60; 0x29ab0a60], FAMILY_SAM3S);
    ([0x289b0a60; 0x28ab0a60], FAMILY_SAM3S);
    ([0x28800960; 0x28900960; 0x28a00960], FAMILY_SAM3S);
    ([0x288a0760; 0x289a0760; 0x28aa0760], FAMILY_SAM3S);
    ([0x28890560; 0x28990560; 0x28a90560], FAMILY_SAM3S);
    ([0x28000960; 0x28100960], FAMILY_SAM3U);
    ([0x280a0760; 0x281a0760], FAMILY_SAM3U);
    ([0x28090560; 0x28190560], FAMILY_SAM3U);
    ([0x286e0a60; 0x285e0a60; 0x284e0a60], FAMILY_SAM3X);
    ([0x285b0960; 0x284b0960], FAMILY_SAM3X);
    ([0x283e0a60], FAMILY_SAM3A);
    ([0x283b0960], FAMILY_SAM3A);
    ([0x27330740], FAMILY_SAM7L);
    ([0x27330540], FAMILY_SAM7L);
    ([0x329aa3a0], FAMILY_SAM9XE);
    ([0x329a93a0], FAMILY_SAM9XE);
    ([0x329973a0], FAMILY_SAM9XE);
    ([0x210d0a00], FAMILY_SAME70);
    ([0x21020c00], FAMILY_SAME70);
    ([0x21020e00], FAMILY_SAME70);
    ([0x211d0a00], FAMILY_SAMS70);
    ([0x21120c00], FAMILY_SAMS70);
    ([0x21120e00], FAMILY_SAMS70);
    ([0x213d0a00], FAMILY_SAMV70);
    ([0x21320c00], FAMILY_SAMV70);
    ([0x212d0a00], FAMILY_SAMV71);
    ([0x21220c00], FAMILY_SAMV71);
    ([0x21220e00], FAMILY_SAMV71) ].

(** The labels of the [switch] on the extended chip identifier, under
    the label [0x23cc0ce0]. *)
Definition ext_cases : list (list Z * Family) :=
  [ ([0x00120200; 0x00120201], FAMILY_SAM4E);
    ([0x00120208; 0x00120209], FAMILY_SAM4E) ].

(** A group of labels of the [switch] on the device identifier: the
    labels that read the unique identifier of the chip on their way,
    the other labels, the family, and the driver that is built with its
    name, its number of pages, its page size and the addresses of the
    applet and of its stack.  [flashPtr] is the driver when it is a
    [D2xNvmFlash]; a [D5xNvmFlash] is built and dropped, and [flashPtr]
    is [null]. *)
Record Row : Type := mkRow
  { with_id : list Z;
    without_id : list Z;
    row_family : Family;
    driver : Driver;
    name : string;
    row_pages : Z;
    row_size : Z;
    row_user : Z;
    row_stack : Z }.

Definition device_cases : list Row :=
  [ mkRow []
          [0x10010003; 0x10010008; 0x1001000d; 0x10010021; 0x10010024; 0x10010027; 0x10010056; 0x10010063]
          FAMILY_SAMD21 D2xFamily "ATSAMD21x15" 512 64 0x20000800 0x20001000;
    mkRow []
          [0x10010002; 0x10010007; 0x1001000c; 0x10010020; 0x10010023; 0x10010026; 0x10010055; 0x10010062]
          FAMILY_SAMD21 D2xFamily "ATSAMD21x16" 1024 64 0x20001000 0x20002000;
    mkRow []
          [0x10010001; 0x10010006; 0x1001000b; 0x10010010]
          FAMILY_SAMD21 D2xFamily "ATSAMD21x17" 2048 64 0x20002000 0x20004000;
    mkRow [0x10010000]
          [0x10010005; 0x1001000a; 0x1001000f]
          FAMILY_SAMD21 D2xFamily "ATSAMD21x18" 4096 64 0x20004000 0x20008000;
    mkRow []
          [0x1001001e; 0x1001001b]
          FAMILY_SAMR21 D2xFamily "ATSAMR21x16" 1024 64 0x20001000 0x20002000;
    mkRow [0x1001001d]
          [0x1001001a]
          FAMILY_SAMR21 D2xFamily "ATSAMR21x17" 2048 64 0x20002000 0x20004000;
    mkRow [0x1001001c; 0x10010019]
          []
          FAMILY_SAMR21 D2xFamily "ATSAMR21x18" 4096 64 0x20004000 0x20008000;
    mkRow []
          [0x10010018]
          FAMILY_SAMR21 D2xFamily "ATSAMR21x19" 4096 64 0x20004000 0x20008000;
    mkRow []
          [0x1081000d; 0x1081001c]
          FAMILY_SAMD21 D2xFamily "ATSAML21x15" 512 64 0x20000800 0x20001000;
    mkRow []
          [0x10810002; 0x10810007; 0x1081000c; 0x10810011; 0x10810016; 0x1081001b]
          FAMILY_SAML21 D2xFamily "ATSAML21x16" 1024 64 0x20001000 0x20002000;
    mkRow []
          [0x10810001; 0x10810006; 0x1081000b; 0x10810010; 0x10810015; 0x1081001a]
          FAMILY_SAML21 D2xFamily "ATSAML21x17" 2048 64 0x20002000 0x20004000;
    mkRow []
          [0x10810000; 0x10810005; 0x1081000a; 0x1081000f; 0x10810014; 0x10810019]
          FAMILY_SAML21 D2xFamily "ATSAML21x18" 4096 64 0x20004000 0x20008000;
    mkRow []
          [0x60060006; 0x60060008]
          FAMILY_SAMD51 D5xFamily "ATSAMD51x18" 512 512 0x20004000 0x20008000;
    mkRow []
          [0x60060001; 0x60060003; 0x60060005; 0x60060007]
          FAMILY_SAMD51 D5xFamily "ATSAMD51x19" 1024 512 0x20004000 0x20008000;
    mkRow []
          [0x60060000; 0x60060002; 0x60060004]
          FAMILY_SAMD51 D5xFamily "ATSAMD51x20" 2048 512 0x20004000 0x20008000;
    mkRow []
          [0x61810003]
          FAMILY_SAME51 D5xFamily "ATSAME51x18" 512 512 0x20004000 0x20008000;
    mkRow []
          [0x61810002; 0x61810001]
          FAMILY_SAME51 D5xFamily "ATSAME51x19" 1024 512 0x20004000 0x20008000;
    mkRow []
          [0x61810004; 0x61810000]
          FAMILY_SAME51 D5xFamily "ATSAME51x20" 2048 512 0x20004000 0x20008000;
    mkRow []
          [0x61830006]
          FAMILY_SAME53 D5xFamily "ATSAME53x18" 512 512 0x20004000 0x20008000;
    mkRow []
          [0x61830005; 0x61830003]
          FAMILY_SAME53 D5xFamily "ATSAME53x19" 1024 512 0x20004000 0x20008000;
    mkRow []
          [0x61830004; 0x61830002]
          FAMILY_SAME53 D5xFamily "ATSAME53x20" 2048 512 0x20004000 0x20008000;
    mkRow []
          [0x61840001; 0x61840003]
          FAMILY_SAME54 D5xFamily "ATSAME54x19" 1024 512 0x20004000 0x20008000;
    mkRow []
          [0x61840000; 0x61840002]
          FAMILY_SAME54 D5xFamily "ATSAME54x20" 2048 512 0x20004000 0x20008000 ].
(** The fields of a [Device] after [create()]: [create] throws
    [DeviceUnsupportedError] exactly when it leaves [flash] undefined,
    which is [None] here; [flash] holds the name, the class and the
    constructor arguments of the driver. *)
Record t : Type := mk
  { family : Family;
    flash : option (string * Driver * Geometry);
    uniqueId : option string }.

(** The [case] group that holds a label; no label occurs twice
    (lemma [device_labels_distinct]), so the first group is the only one. *)
Definition lookup (x : Z) (cases : list (list Z * Family)) : option Family :=
  match find (fun c => existsb (Z.eqb x) (fst c)) cases with
  | Some c => Some (snd c)
  | None => None
  end.

Definition lookup_row (x : Z) : option Row :=
  find (fun r => existsb (Z.eqb x) (with_id r ++ without_id r)) device_cases.

(** [c.toUpperCase()] on the characters that [toString(16)] gives. *)
Definition upper (c : ascii) : ascii :=
  let n := N_of_ascii c in
  if ((97 <=? n) && (n <=? 122))%N then ascii_of_N (n - 32) else c.

Fixpoint toUpperCase (s : string) : string :=
  match s with
  | EmptyString => EmptyString
  | String c s' => String (upper c) (toUpperCase s')
  end.

(** [word.toString(16).toUpperCase().padStart(8, "0")]. *)
Definition word_text (word : Z) : string :=
  let s := toUpperCase (JS.toString16 word) in
  JS.pad0 (8 - String.length s) s.

Definition geometry_of (r : Row) : Geometry :=
  match driver r with
  | D2xFamily => D2x.geometry (row_pages r) (row_size r) (row_user r) (row_stack r)
  | D5xFamily => D5x.geometry (row_pages r) (row_size r) (row_user r) (row_stack r)
  end.

Section Port.
Context {Dev : Type} `{SerialPort Dev}.

Definition readChipUniqueId : M Dev string :=
  w0 <- SamBA.readWord 0x0080A00C ;;
  w1 <- SamBA.readWord 0x0080A040 ;;
  w2 <- SamBA.readWord 0x0080A044 ;;
  w3 <- SamBA.readWord 0x0080A048 ;;
  ret (word_text w0 ++ word_text w1 ++ word_text w2 ++ word_text w3)%string.

(** [readChipId()].  In its first branch the extended identifier is
    read into a variable of the block, and the one that is returned
    stays 0. *)
Definition readChipId : M Dev (Z * Z) :=
  chipId <- SamBA.readWord 0x400e0740 ;;
  if negb (chipId =? 0) then
    SamBA.readWord 0x400e0744 ;;
    ret (chipId, 0)
  else
    chipId <- SamBA.readWord 0x400e0940 ;;
    if negb (chipId =? 0) then
      extChipId <- SamBA.readWord 0x400e0944 ;;
      ret (chipId, extChipId)
    else ret (chipId, 0).

(** The first half of [create()]: the identifiers [chipId],
    [extChipId] and [deviceId]. *)
Definition identify : M Dev (Z * Z * Z) :=
  vector <- SamBA.readWord 0x0 ;;
  if JS.and vector 0xff000000 =? 0xea000000 then
    chipId <- SamBA.readWord 0xfffff240 ;;
    ret (chipId, 0, 0)
  else
    v <- SamBA.readWord 0xe000ed00 ;;
    let cpuId := JS.and v 0x0000fff0 in
    if cpuId =? 0xC600 then
      deviceId <- SamBA.readWord 0x41002018 ;;
      ret (0, 0, deviceId)
    else if cpuId =? 0xC240 then
      v4 <- SamBA.readWord 0x4 ;;
      if JS.and v4 0xfff00000 =? 0x800000 then
        id <- readChipId ;;
        ret (fst id, snd id, 0)
      else
        deviceId <- SamBA.readWord 0x41002018 ;;
        ret (0, 0, deviceId)
    else
      id <- readChipId ;;
      ret (fst id, snd id, 0).

(** The body of a group of the [switch] on the device identifier.
    Building a driver builds its applet: the state of the flash and
    of the applet start afresh. *)
Definition build (r : Row) (key : Z) : M Dev t :=
  uid <- (if existsb (Z.eqb key) (with_id r)
          then u <- readChipUniqueId ;; ret (Some u)
          else ret None) ;;
  match Flash.new (geometry_of r) with
  | inl e => throw e
  | inr f =>
      match driver r with
      | D2xFamily =>
          modify (fun w => mkWorld (port w) (samba w) false f) ;;
          ret (mk (row_family r) (Some (name r, D2xFamily, geometry_of r)) uid)
      | D5xFamily => ret (mk (row_family r) None uid)
      end
  end.

Definition create : M Dev t :=
  ids <- identify ;;
  let chipId := fst (fst ids) in
  let extChipId := snd (fst ids) in
  let deviceId := snd ids in
  let key := JS.and chipId 0x7fffffe0 in
  match lookup key chip_cases with
  | Some fam => ret (mk fam None None)
  | None =>
      if key =? 0x23cc0ce0 then
        match lookup extChipId ext_cases with
        | Some fam => ret (mk fam None None)
        | None => ret (mk FAMILY_NONE None None)
        end
      else if key =? 0 then
        match lookup_row (JS.and deviceId 0xffff00ff) with
        | Some r => build r (JS.and deviceId 0xffff00ff)
        | None => ret (mk FAMILY_NONE None None)
        end
      else ret (mk FAMILY_NONE None None)
  end.

(** [try { ... } catch (expected) { }]. *)
Definition try_ (m : M Dev unit) : M Dev unit :=
  fun w =>
    match m w with
    | (Throw _, w', t) => (Ok tt, w', t)
    | r => r
    end.

Definition reset (fam : Family) : M Dev unit :=
  try_
    match fam with
    | FAMILY_SAMD21 | FAMILY_SAMR21 | FAMILY_SAML21
    | FAMILY_SAMD51 | FAMILY_SAME51 | FAMILY_SAME53 | FAMILY_SAME54
    | FAMILY_SAME70 | FAMILY_SAMS70 | FAMILY_SAMV70 | FAMILY_SAMV71 =>
        SamBA.writeWord 0xE000ED0C 0x05FA0004
    | FAMILY_SAM3X | FAMILY_SAM3S | FAMILY_SAM3A =>
        SamBA.writeWord 0x400E1A00 0xA500000D
    | FAMILY_SAM3U =>
        SamBA.writeWord 0x400E1200 0xA500000D
    | FAMILY_SAM3N | FAMILY_SAM4S =>
        SamBA.writeWord 0x400E1400 0xA500000D
    | FAMILY_SAM4E =>
        SamBA.writeWord 0x400E1800 0xA500000D
    | FAMILY_SAM7S | FAMILY_SAM7SE | FAMILY_SAM7X | FAMILY_SAM7XC | FAMILY_SAM7L
    | FAMILY_SAM9XE =>
        SamBA.writeWord 0xFFFFFD00 0xA500000D
    | FAMILY_NONE => ret tt
    end.

End Port.

End Device.

(** ** flasher.ts *)

(** The two errors of [Flasher.write]; both are thrown before anything
    is done, and are returned here in place of [undefined]. *)
Inductive FlasherError : Type := FlashOffsetError | FileSizeError.

(** The observer that a [Flasher] reports to: two callbacks, which may
    do what any code of the caller does. *)
Record FlasherObserver (Dev : Type) : Type := mkObserver
  { onStatus : string -> M Dev unit;
    onProgress : Q -> Z -> M Dev unit }.
Arguments onStatus {Dev} _ _.
Arguments onProgress {Dev} _ _ _.

Module Flasher.

(** A number in a string concatenation. *)
Definition decimal (n : Z) : string := NilZero.string_of_int (Z.to_int n).

Definition newline : string := String (ascii_of_nat 10) EmptyString.

(** [a.slice(start, end)] on a typed array. *)
Definition slice (a : list Z) (start end_ : Z) : list Z :=
  let k := Uint8Buffer.clamp a start in
  let final := Uint8Buffer.clamp a end_ in
  firstn (Z.to_nat (final - k)) (skipn (Z.to_nat k) a).

Section Port.
Context {Dev : Type} `{SerialPort Dev}.
Variable observer : FlasherObserver Dev.
Variable driver : Family.
Variable g : Geometry.
Variable fuel : nat.

(** The methods of the driver behind [this._flash]. *)
Definition eraseAll (offset : Z) : M Dev unit :=
  match driver with
  | D2xFamily => D2x.eraseAll g fuel offset
  | D5xFamily => D5x.eraseAll g fuel offset
  end.

Definition writePage (page : Z) : M Dev unit :=
  match driver with
  | D2xFamily => D2x.writePage g fuel page
  | D5xFamily => D5x.writePage g fuel page
  end.

Definition writeBuffer (dst_addr size_ : Z) : M Dev unit :=
  match driver with
  | D2xFamily => D2x.writeBuffer g fuel dst_addr size_
  | D5xFamily => D5x.writeBuffer g fuel dst_addr size_
  end.

(** A method of [Uint8Buffer] that may raise a [RangeError]. *)
Definition ranged {A} (o : option A) : M Dev A :=
  match o with
  | Some a => ret a
  | None => throw (JsError "RangeError")
  end.

Definition erase (foffset : Z) : M Dev unit :=
  onStatus observer ("Erase flash" ++ newline) ;;
  eraseAll foffset ;;
  Flash.setEraseAuto false.

(** The loop of [write] on a board that can write a buffer; every
    turn takes at least one byte of the file, so [n] turns are enough
    as soon as [remaining <= n]. *)
Fixpoint write_buffers (n : nat) (data : list Z) (buffer : Uint8Buffer.t)
         (remaining dataOffset offset numPages foffset : Z) : M Dev unit :=
  match n with
  | O => ret tt
  | S n' =>
      if 0 <? remaining then
        let pageSize := size g in
        let bufferSize := 4096 in
        let fbytes := if remaining <? bufferSize then remaining else bufferSize in
        let buffer := Uint8Buffer.reset buffer in
        buffer <- ranged (Uint8Buffer.copy buffer (slice data dataOffset (dataOffset + fbytes))) ;;
        onProgress observer (inject_Z offset / inject_Z pageSize)%Q numPages ;;
        let remaining := remaining - fbytes in
        let dataOffset := dataOffset + fbytes in
        p <- (if fbytes <? bufferSize then
                buffer <- ranged (Uint8Buffer.fill buffer 0 (bufferSize - fbytes)) ;;
                ret (buffer, Z.quot (fbytes + pageSize - 1) pageSize * pageSize)
              else ret (buffer, fbytes)) ;;
        let buffer := fst p in
        let fbytes := snd p in
        v <- ranged (Uint8Buffer.view buffer) ;;
        Flash.loadBuffer g v 0 fbytes ;;
        writeBuffer (foffset + offset) fbytes ;;
        write_buffers n' data buffer remaining dataOffset (offset + fbytes) numPages foffset
      else ret tt
  end.

(** The loop of [write] that writes page by page. *)
Fixpoint write_pages (n : nat) (data : list Z) (buffer : Uint8Buffer.t)
         (remaining dataOffset pageNum numPages pageOffset : Z) : M Dev unit :=
  match n with
  | O => ret tt
  | S n' =>
      if 0 <? remaining then
        let pageSize := size g in
        let fbytes := if remaining <? pageSize then remaining else pageSize in
        let buffer := Uint8Buffer.reset buffer in
        buffer <- ranged (Uint8Buffer.copy buffer (slice data dataOffset (dataOffset + fbytes))) ;;
        onProgress observer (inject_Z pageNum) numPages ;;
        let remaining := remaining - fbytes in
        let dataOffset := dataOffset + fbytes in
        p <- (if fbytes <? pageSize then
                buffer <- ranged (Uint8Buffer.fill buffer 0 (pageSize - fbytes)) ;;
                ret (buffer, Z.quot (fbytes + pageSize - 1) pageSize * pageSize)
              else ret (buffer, fbytes)) ;;
        let buffer := fst p in
        let fbytes := snd p in
        v <- ranged (Uint8Buffer.view buffer) ;;
        Flash.loadBuffer g v 0 fbytes ;;
        writePage (pageOffset + pageNum) ;;
        let pageNum := pageNum + 1 in
        if (pageNum =? numPages) || negb (fbytes =? pageSize) then ret tt
        else write_pages n' data buffer remaining dataOffset pageNum numPages pageOffset
      else ret tt
  end.

(** [write(data, foffset)].  [foffset % pageSize] is not a number
    when the page size is 0, and then differs from 0. *)
Definition write (data : list Z) (foffset : Z) : M Dev (option FlasherError) :=
  let pageSize := size g in
  let fsize := JS.len data in
  if (pageSize =? 0) || negb (Z.rem foffset pageSize =? 0) || (Flash.totalSize g <=? foffset)
  then ret (Some FlashOffsetError) else
  let numPages := Z.quot (fsize + pageSize - 1) pageSize in
  if pages g <? numPages then ret (Some FileSizeError) else
  onStatus observer ("Write " ++ decimal fsize ++ " bytes to flash (" ++ decimal numPages
                              ++ " pages)" ++ newline) ;;
  can <- gets (fun w => canWriteBuffer (samba w)) ;;
  (if can then
     buffer <- ranged (Uint8Buffer.new 4096) ;;
     write_buffers (Z.to_nat fsize) data buffer fsize 0 0 numPages foffset
   else
     buffer <- ranged (Uint8Buffer.new pageSize) ;;
     write_pages (Z.to_nat fsize) data buffer fsize 0 0 numPages (Z.quot foffset pageSize)) ;;
  onProgress observer (inject_Z numPages) numPages ;;
  ret None.

End Port.

End Flasher.

(** ** The words of the further properties *)

(** The state of a buffer that its methods keep: the offsets in order,
    within the storage, whose length is [size]. *)
Definition buffer_ok (b : Uint8Buffer.t) : Prop :=
  0 <= Uint8Buffer.readOffset b <= Uint8Buffer.writeOffset b
  /\ Uint8Buffer.writeOffset b <= Uint8Buffer.size b
  /\ JS.len (Uint8Buffer.view_ b) = Uint8Buffer.size b
  /\ Forall (fun v => 0 <= v < 256) (Uint8Buffer.view_ b).

(** The bytes queued in a buffer, oldest first. *)
Definition queued (b : Uint8Buffer.t) : list Z :=
  firstn (Z.to_nat (Uint8Buffer.length b))
         (skipn (Z.to_nat (Uint8Buffer.readOffset b)) (Uint8Buffer.view_ b)).

(** The characters of a string as bytes. *)
Definition bytes_of (s : string) : list Z :=
  map (fun c => Z.of_N (N_of_ascii c)) (list_ascii_of_string s).

(** The end of a reply: line feed, carriage return. *)
Definition line_end : string := String (ascii_of_nat 10) (String (ascii_of_nat 13) EmptyString).

(** The pages of a file: blocks of [pageSize] bytes in order, the last
    one filled up with zeros. *)
Fixpoint pages_from (n : nat) (pageSize : nat) (data : list Z) : list (list Z) :=
  match n with
  | O => []
  | S n' =>
      match data with
      | [] => []
      | _ => (firstn pageSize data ++ repeat 0 (pageSize - List.length data))
               :: pages_from n' pageSize (skipn pageSize data)
      end
  end.

Definition pages_of (pageSize : Z) (data : list Z) : list (list Z) :=
  pages_from (List.length data) (Z.to_nat pageSize) data.

(** The pages [ps] sent one after the other, the first one to the page
    [first] of the flash: progress report, load of the page buffer,
    [writePage]. *)
Fixpoint send_pages {Dev} `{SerialPort Dev} (observer : FlasherObserver Dev) (driver : Family)
         (g : Geometry) (fuel : nat) (ps : list (list Z)) (first pageNum numPages : Z)
  : M Dev unit :=
  match ps with
  | [] => ret tt
  | p :: ps' =>
      onProgress observer (inject_Z pageNum) numPages ;;
      Flash.loadBuffer g p 0 (size g) ;;
      Flasher.writePage driver g fuel (first + pageNum) ;;
      send_pages observer driver g fuel ps' first (pageNum + 1) numPages
  end.

(** A power of two, or zero: what the test [n & (n - 1)] of the
    constructor lets through. *)
Definition pow2_or_zero (n : Z) : Prop := n = 0 \/ exists k, 0 <= k /\ n = 2 ^ k.

(** No option of the user row is waiting to be written. *)
Definition nothing_to_write (f : FlashState) : Prop :=
  dirty (bor f) = false /\ dirty (bod f) = false /\ dirty (regions f) = false.

(** The first byte of every reply of a log. *)
Definition byte_replies (t : list Event) : list Z :=
  flat_map (fun e => match e with Sent _ _ (Some reply) => [JS.get reply 0] | _ => [] end) t.

(** The bit of region [i] in the lock bytes [bytes], the first of which
    holds the region [8 * first]. *)
Definition region_bit (bytes : list Z) (first i : Z) : bool :=
  negb (Z.testbit (nth (Z.to_nat (i / 8 - first)) bytes 0) (i mod 8)).

(** The applet stays installed and prepared. *)
Definition setup_kept {Dev} (w w' : World Dev) (t : list Event) : Prop :=
  (installed w = true -> installed w' = true)
  /\ (prepared (flash w) = true -> prepared (flash w') = true).

(** The characters that [toString(16)] writes. *)
Definition hex_char (c : ascii) : Prop :=
  exists d, 0 <= d < 16 /\ c = JS.digit16 d.

Fixpoint all_hex (s : string) : Prop :=
  match s with
  | EmptyString => True
  | String c s' => hex_char c /\ all_hex s'
  end.

(** No digit read so far, or only zeros. *)
Definition zero_acc (a : option Z) : Prop := a = None \/ a = Some 0.

(** The reply [Z], eight digits, [#], line feed, carriage return. *)
Definition checksum_reply (crc : Z) : list Z :=
  bytes_of ("Z" ++ SamBA.hex crc 8 ++ "#" ++ line_end).

(** What [create] can leave in [flash]. *)
Definition d2x_families : list Device.Family :=
  [Device.FAMILY_SAMD21; Device.FAMILY_SAMR21; Device.FAMILY_SAML21].
Definition d5x_families : list Device.Family :=
  [Device.FAMILY_SAMD51; Device.FAMILY_SAME51; Device.FAMILY_SAME53; Device.FAMILY_SAME54].

(** A group of the [switch] on the device identifier whose driver can
    be built. *)
Definition row_ok (r : Device.Row) : Prop :=
  Flash.new (Device.geometry_of r) = inr Mock.fresh
  /\ match Device.driver r with
     | D2xFamily =>
         Device.row_size r = 64 /\ In (Device.row_pages r) [512; 1024; 2048; 4096]
         /\ In (Device.row_family r) d2x_families
     | D5xFamily =>
         Device.row_size r = 512 /\ In (Device.row_family r) d5x_families
     end.

(** All the labels of the three [switch] statements. *)
Definition chip_labels : list Z :=
  flat_map fst Device.chip_cases ++ [0x23cc0ce0; 0].
Definition device_labels : list Z :=
  flat_map (fun r => Device.with_id r ++ Device.without_id r) Device.device_cases.

(** No number occurs twice. *)
Fixpoint distinct (l : list Z) : bool :=
  match l with
  | [] => true
  | x :: l' => negb (existsb (Z.eqb x) l') && distinct l'
  end.

(** A word read at one of the addresses [addrs]. *)
Definition reads_among (addrs : list Z) (e : Event) : Prop :=
  exists a reply, e = Sent (SamBA.cmd_w a) None reply /\ In a addrs.

(** The addresses of the identification registers: the ARM CPUID, the
    device identifier of the DSU, and the two pairs of CHIPID
    registers. *)
Definition CPUID : Z := 0xe000ed00.
Definition DSU_DID : Z := 0x41002018.
Definition CHIPID : list Z := [0x400e0740; 0x400e0744; 0x400e0940; 0x400e0944].
Definition ARM7_CHIPID : Z := 0xfffff240.
Definition SERIAL : list Z := [0x0080A00C; 0x0080A040; 0x0080A044; 0x0080A048].

(** Runs whose log holds only events of one kind. *)
Definition only {Dev} (P : Event -> Prop) (w w' : World Dev) (t : list Event) : Prop :=
  Forall P t.

(** The registers that [create] may read. *)
Definition probes : list Z := [0; CPUID; DSU_DID; 4] ++ CHIPID ++ SERIAL.

(** The elements of a [Uint8Array]. *)
Definition bytes (l : list Z) : Prop := Forall (fun v => 0 <= v < 256) l.

(** [numPages] and the status line of [write]. *)
Definition page_count (g : Geometry) (data : list Z) : Z :=
  Z.quot (JS.len data + size g - 1) (size g).

(** The line that [write] hands to [onStatus]. *)
Definition write_status (g : Geometry) (data : list Z) : string :=
  "Write " ++ Flasher.decimal (JS.len data) ++ " bytes to flash ("
           ++ Flasher.decimal (page_count g data) ++ " pages)" ++ Flasher.newline.

(** An observer that leaves the capabilities of the client alone when
    it is told the status. *)
Definition status_keeps_client {Dev} (observer : FlasherObserver Dev) : Prop :=
  forall message (w : World Dev) r w' t,
    onStatus observer message w = (r, w', t) -> samba w' = samba w.

(** An observer that does nothing. *)
Definition silent {Dev} : FlasherObserver Dev :=
  mkObserver Dev (fun _ => ret tt) (fun _ _ => ret tt).

(** The blocks of a file for a board that writes buffers: blocks of
    4096 bytes in order, the last one as long as what is left. *)
Fixpoint blocks_from (n : nat) (data : list Z) : list (list Z) :=
  match n with
  | O => []
  | S n' =>
      match data with
      | [] => []
      | _ => firstn 4096 data :: blocks_from n' (skipn 4096 data)
      end
  end.

(** The blocks of a whole file. *)
Definition blocks_of (data : list Z) : list (list Z) := blocks_from (List.length data) data.

(** The size that [write] announces for a block: the length of a
    short block goes up to the next page boundary. *)
Definition announced (g : Geometry) (block : list Z) : Z :=
  if JS.len block <? 4096
  then Z.quot (JS.len block + size g - 1) (size g) * size g
  else JS.len block.

(** The blocks [bs] sent one after the other: progress report, load of
    the page buffer with the block filled up to 4096 bytes, then
    [writeBuffer] at the place of the block. *)
Fixpoint send_blocks {Dev} `{SerialPort Dev} (observer : FlasherObserver Dev) (driver : Family)
         (g : Geometry) (fuel : nat) (bs : list (list Z)) (foffset offset numPages : Z)
  : M Dev unit :=
  match bs with
  | [] => ret tt
  | b :: bs' =>
      onProgress observer (inject_Z offset / inject_Z (size g))%Q numPages ;;
      Flash.loadBuffer g (b ++ repeat 0 (4096 - List.length b)) 0 (announced g b) ;;
      Flasher.writeBuffer driver g fuel (foffset + offset) (announced g b) ;;
      send_blocks observer driver g fuel bs' foffset (offset + announced g b) numPages
  end.

(** The capabilities of the client and the auto-erase switch are
    unchanged. *)
Definition settings_kept {Dev} (w w' : World Dev) (t : list Event) : Prop :=
  samba w' = samba w /\ eraseAuto (flash w') = eraseAuto (flash w).

(** The operations of a driver that run the applet, and the one that
    sets the auto-erase switch. *)
Definition runs_applet (op : Op) : bool :=
  match op with
  | WritePage _ | WriteOptions => true
  | _ => false
  end.

Definition sets_eraseAuto (op : Op) : bool :=
  match op with
  | SetEraseAuto _ => true
  | _ => false
  end.

(** A reply that starts with the byte [c]. *)
Definition answers (c : Z) (reply : option (list Z)) : Prop :=
  exists result, reply = Some result /\ JS.get result 0 = c.

(** ** A board that follows a script

    It answers a command with the bytes that the script gives for the
    text of the command, and with nothing when the script does not
    know it. *)

Module Scripted.

Definition Script : Type := list (string * list Z).

Fixpoint answer (script : Script) (cmd : string) : list Z :=
  match script with
  | [] => []
  | (c, reply) :: script' => if String.eqb c cmd then reply else answer script' cmd
  end.

Definition port : SerialPort Script :=
  {| exchange := fun script cmd _ => (answer script cmd, script) |}.

Definition world (script : Script) (s : SamBAState) : World Script :=
  mkWorld script s false Mock.fresh.

(** An ATSAMD21J18A, revision B: the initial stack pointer, the CPUID
    of a Cortex-M0+, the device identifier [0x10010100] and the four
    words of the serial number, each with the least significant byte
    first. *)
Definition samd21j18 : Script :=
  [ (SamBA.cmd_w 0x0, [0xfc; 0x7f; 0x00; 0x20]);
    (SamBA.cmd_w 0xe000ed00, [0x01; 0xc6; 0x0c; 0x41]);
    (SamBA.cmd_w 0x41002018, [0x00; 0x01; 0x01; 0x10]);
    (SamBA.cmd_w 0x0080A00C, [0x11; 0x22; 0x33; 0x44]);
    (SamBA.cmd_w 0x0080A040, [0x55; 0x66; 0x77; 0x88]);
    (SamBA.cmd_w 0x0080A044, [0x99; 0xaa; 0xbb; 0xcc]);
    (SamBA.cmd_w 0x0080A048, [0xdd; 0xee; 0xff; 0x12]) ].

(** The same chip in revision A: its device identifier is
    [0x10010000]. *)
Definition samd21j18_rev_a : Script :=
  [ (SamBA.cmd_w 0x0, [0xfc; 0x7f; 0x00; 0x20]);
    (SamBA.cmd_w 0xe000ed00, [0x01; 0xc6; 0x0c; 0x41]);
    (SamBA.cmd_w 0x41002018, [0x00; 0x00; 0x01; 0x10]) ].

End Scripted.

(** The mock board with a loader that writes buffers: it answers the
    command [Y] with [Y], line feed, carriage return. *)
Module Loader.

Definition respond (busy : nat) (cmd : string) (data : option (list Z)) : list Z * nat :=
  if Ascii.eqb (first_char cmd) "Y" then ([0x59; 0x0a; 0x0d], busy)
  else Mock.respond busy cmd data.

Definition port : SerialPort nat := {| exchange := respond |}.

End Loader.

(** The mock board after [connect]. *)
Definition connected : World nat := snd (fst connect_run).

(** Further runs on the mock boards, evaluated once. *)
Definition read128_run : Res (list Z) * World nat * list Event :=
  Eval vm_compute in SamBA.read 0x2000 (repeat 0 128%nat) 128 connected.

Definition eraseAll_run : Res unit * World nat * list Event :=
  Eval vm_compute in run_op D2xFamily Mock.samd21 1 (EraseAll 0x2000) connected.

Definition d2x_clean_options_run : Res unit * World nat * list Event :=
  Eval vm_compute in D2x.writeOptions Mock.samd21 1 (Mock.world 0 Mock.fresh).

Definition d2x_lock_regions_run : Res (list bool) * World nat * list Event :=
  Eval vm_compute in D2x.getLockRegions Mock.samd21 (Mock.world 0 Mock.fresh).

Definition create_run : Res Device.t * World Scripted.Script * list Event :=
  Eval vm_compute in
    Device.create (H := Scripted.port) (Scripted.world Scripted.samd21j18 SamBA.new).

Definition write_pages_run : Res (option FlasherError) * World nat * list Event :=
  Eval vm_compute in
    Flasher.write silent D2xFamily Mock.samd21 1 (repeat 7 70) 0x2000 (Mock.world 0 Mock.fresh).

Definition write_blocks_run : Res (option FlasherError) * World nat * list Event :=
  Eval vm_compute in
    Flasher.write (H := Loader.port) silent D2xFamily Mock.samd21 1 (repeat 7 70) 0x2000
                  connected.

Definition writeBuffer_run : Res unit * World nat * list Event :=
  Eval vm_compute in Flash.writeBuffer (H := Loader.port) Mock.samd21 0x2000 128 connected.

(** * Theorems *)

(** The text of a command is never unfolded by simplification. *)
Arguments SamBA.hex : simpl never.
Arguments SamBA.cmd_O : simpl never.
Arguments SamBA.cmd_o : simpl never.
Arguments SamBA.cmd_W : simpl never.
Arguments SamBA.cmd_w : simpl never.
Arguments SamBA.cmd_S : simpl never.
Arguments SamBA.cmd_R : simpl never.
Arguments SamBA.cmd_G : simpl never.

(** ** Runs of the monad *)

Lemma bind_inv {Dev A B} (m : M Dev A) (f : A -> M Dev B) w r w' t :
  bind m f w = (r, w', t) ->
  (exists a w1 t1 t2, m w = (Ok a, w1, t1) /\ f a w1 = (r, w', t2) /\ t = t1 ++ t2)
  \/ (exists e, m w = (Throw e, w', t) /\ r = Throw e)
  \/ (m w = (OutOfFuel, w', t) /\ r = OutOfFuel).
Proof.
  unfold bind. destruct (m w) as [[[a | e |] w1] t1].
  - destruct (f a w1) as [[r2 w2] t2] eqn:E. intros [= <- <- <-].
    left. exists a, w1, t1, t2. auto.
  - intros [= <- <- <-]. right. left. exists e. auto.
  - intros [= <- <- <-]. right. right. auto.
Qed.

Lemma bind_ok {Dev A B} (m : M Dev A) (f : A -> M Dev B) w b w' t :
  bind m f w = (Ok b, w', t) ->
  exists a w1 t1 t2, m w = (Ok a, w1, t1) /\ f a w1 = (Ok b, w', t2) /\ t = t1 ++ t2.
Proof.
  intros E. apply bind_inv in E. destruct E as [E | [[e [_ E]] | [_ E]]]; try discriminate.
  exact E.
Qed.

Lemma bind_ext {Dev A B} (m : M Dev A) (f f' : A -> M Dev B) (w : World Dev) :
  (forall a w1, f a w1 = f' a w1) -> bind m f w = bind m f' w.
Proof.
  intros Hf. unfold bind. destruct (m w) as [[[a | e |] w1] t1]; try reflexivity.
  now rewrite Hf.
Qed.

Lemma sendCommand_inv {Dev} `{SerialPort Dev} cmd responseSize data (w : World Dev) r w' t :
  SamBA.sendCommand cmd responseSize data w = (r, w', t) ->
  exists reply, Ok reply = r /\ t = [Sent cmd data reply] /\
                samba w' = samba w /\ installed w' = installed w /\ flash w' = flash w.
Proof.
  unfold SamBA.sendCommand. destruct (exchange (port w) cmd data) as [avail d].
  intros [= <- <- <-]. eexists. repeat split.
Qed.

(** Inversion of a run, one step: a [bind] is split into its two
    parts, the elementary computations are solved. *)
Ltac subst_rhs :=
  repeat match goal with
         | H : _ = ?y |- _ => is_var y; subst y
         end.

Ltac units := repeat match goal with u : unit |- _ => destruct u end.

Ltac subst_lhs H :=
  try match type of H with
      | ?x = _ => is_var x; subst x
      end.

Ltac run_elim E :=
  first [ discriminate E | injection E; clear E; intros; subst_rhs ].

Ltac run_inv_as E E1 :=
  lazymatch type of E with
  | bind _ _ _ = _ =>
      let a := fresh "a" in let w1 := fresh "w" in
      let t1 := fresh "t" in let t2 := fresh "t" in
      let e := fresh "e" in
      let Et := fresh "Et" in let Er := fresh "Er" in
      apply bind_inv in E;
      destruct E as [(a & w1 & t1 & t2 & E1 & E & Et) | [(e & E & Er) | (E & Er)]];
      [ subst_lhs Et | first [discriminate Er | subst_lhs Er] | first [discriminate Er | subst_lhs Er] ]
  | gets _ _ = _ => unfold gets in E; run_elim E
  | ret _ _ = _ => unfold ret in E; run_elim E
  | throw _ _ = _ => unfold throw in E; run_elim E
  | out_of_fuel _ = _ => unfold out_of_fuel in E; run_elim E
  | modify _ _ = _ => unfold modify in E; run_elim E
  | emit _ _ = _ => unfold emit in E; run_elim E
  | SamBA.sendCommand _ _ _ _ = _ =>
      let reply := fresh "reply" in
      let Hs := fresh "Hsamba" in let Hi := fresh "Hinst" in let Hf := fresh "Hflash" in
      let Er := fresh "Er" in
      apply sendCommand_inv in E; destruct E as (reply & Er & -> & Hs & Hi & Hf);
      first [ discriminate Er | injection Er; clear Er; intros; subst_rhs | subst_rhs ]
  end.

Tactic Notation "run_inv" hyp(E) "as" ident(E1) := run_inv_as E E1.
Tactic Notation "run_inv" hyp(E) := let E1 := fresh "E" in run_inv_as E E1.

(** A [bind] whose first part cannot fail. *)
Ltac run_never E :=
  exfalso;
  solve [ unfold gets, ret, modify, emit in E; discriminate E
        | apply sendCommand_inv in E; destruct E as (? & ? & _); discriminate ].

Tactic Notation "run_step" hyp(E) "as" ident(E1) :=
  run_inv E as E1; [run_inv E1 | run_never E ..].

(** ** decodeResponse *)

Lemma firstn_set_nth (a : list Z) (n i : nat) (v : Z) :
  (n <= i)%nat -> firstn n (JS.set_nth i a v) = firstn n a.
Proof.
  revert n i. induction a as [| x a IH]; intros n i Hle.
  - destruct i; reflexivity.
  - destruct i as [| i].
    + assert (n = 0%nat) by lia. subst n. reflexivity.
    + destruct n as [| n]; [reflexivity |].
      simpl. f_equal. apply IH. lia.
Qed.

Lemma firstn_set (a : list Z) (n : nat) (i v : Z) :
  Z.of_nat n <= i -> firstn n (JS.set a i v) = firstn n a.
Proof.
  intros Hle. unfold JS.set.
  destruct ((0 <=? i) && (i <? JS.len a)); [| reflexivity].
  apply firstn_set_nth. lia.
Qed.

Lemma len_set (a : list Z) (i v : Z) : JS.len (JS.set a i v) = JS.len a.
Proof.
  unfold JS.set. destruct ((0 <=? i) && (i <? JS.len a)); [| reflexivity].
  unfold JS.len. f_equal. generalize (Z.to_nat i) as n.
  induction a as [| x a IH]; intros [| n]; simpl; auto.
Qed.

(** C9.  [decodeResponse] does not compare the last two bytes with
    0x0A, 0x0C: on every buffer longer than two bytes it drops the last
    two bytes, whatever they are, and decodes the rest. *)
Theorem decodeResponse_always_strips (buffer : list Z) :
  2 < JS.len buffer ->
  SamBA.decodeResponse buffer = SamBA.decode (firstn (List.length buffer - 2) buffer).
Proof.
  intros Hlen. unfold SamBA.decodeResponse.
  replace (2 <? JS.len buffer) with true by (symmetry; apply Z.ltb_lt; exact Hlen).
  change (JS.truthy 12) with true. change (JS.truthy 10) with true. cbv iota.
  f_equal. unfold JS.subarray_to.
  replace (Z.to_nat (JS.len buffer - 2)) with (List.length buffer - 2)%nat
    by (unfold JS.len; lia).
  rewrite !firstn_set; [reflexivity | unfold JS.len in *; lia ..].
Qed.

(** On the three bytes of [ABC], which do not end in 0x0A, 0x0C, the
    result is [A]. *)
Lemma decodeResponse_always_strips_witness :
  2 < JS.len [65; 66; 67] /\ SamBA.decodeResponse [65; 66; 67] = "A"%string.
Proof.
  split; [reflexivity |].
  rewrite (decodeResponse_always_strips [65; 66; 67]); reflexivity.
Defined.

(** ** The version banner *)

Lemma drop_all (v : string) (i : nat) :
  (String.length v <= i)%nat -> Banner.drop i v = EmptyString.
Proof.
  revert i. induction v as [| c v IH]; intros [| i] Hle; simpl in *; try reflexivity; try lia.
  apply IH. lia.
Qed.

Lemma get_drop (v : string) (i : nat) :
  match String.get i v with
  | Some c => Banner.drop i v = String c (Banner.drop (S i) v)
  | None => Banner.drop i v = EmptyString
  end.
Proof.
  revert i. induction v as [| c v IH]; intros [| i]; simpl; try reflexivity.
  apply IH.
Qed.

Lemma scan_fold (n : nat) (v : string) (i : nat) (s : SamBAState) :
  (String.length v - i <= n)%nat ->
  SamBA.scan n v i s =
  fold_left (fun s c => SamBA.extension c s) (Banner.until_bracket (Banner.drop i v)) s.
Proof.
  revert i s. induction n as [| n IH]; intros i s Hle.
  - rewrite drop_all by lia. reflexivity.
  - simpl. pose proof (get_drop v i) as G. destruct (String.get i v) as [c |].
    + rewrite G. simpl. destruct (Ascii.eqb c "]"); [reflexivity |].
      simpl. apply IH.
      assert (i < String.length v)%nat; [| lia].
      destruct (Nat.lt_ge_cases i (String.length v)) as [L | L]; [exact L |].
      rewrite drop_all in G by exact L. discriminate.
    + rewrite G. reflexivity.
Qed.

Lemma fold_extension (inside : list ascii) (s : SamBAState) :
  fold_left (fun s c => SamBA.extension c s) inside s =
  mkSamBA (canChipErase s || Banner.has "X" inside)
          (canWriteBuffer s || Banner.has "Y" inside)
          (canChecksumBuffer s || Banner.has "Z" inside)
          (canProtect s || Banner.has "P" inside)
          (readBufferSize s).
Proof.
  revert s. induction inside as [| c l IH]; intros s.
  - destruct s; simpl. now rewrite !orb_false_r.
  - simpl. rewrite IH. unfold SamBA.extension.
    destruct (Ascii.eqb c "X") eqn:EX;
      [apply Ascii.eqb_eq in EX; subst c; destruct s; simpl; now rewrite ?orb_true_r |].
    destruct (Ascii.eqb c "Y") eqn:EY;
      [apply Ascii.eqb_eq in EY; subst c; destruct s; simpl; now rewrite ?orb_true_r |].
    destruct (Ascii.eqb c "Z") eqn:EZ;
      [apply Ascii.eqb_eq in EZ; subst c; destruct s; simpl; now rewrite ?orb_true_r |].
    destruct (Ascii.eqb c "P") eqn:EP;
      [apply Ascii.eqb_eq in EP; subst c; destruct s; simpl; now rewrite ?orb_true_r |].
    reflexivity.
Qed.

Lemma extensions_bracket (version : string) (s : SamBAState) :
  SamBA.extensions version s =
  match Banner.bracket version with
  | Some inside =>
      mkSamBA (canChipErase s || Banner.has "X" inside)
              (canWriteBuffer s || Banner.has "Y" inside)
              (canChecksumBuffer s || Banner.has "Z" inside)
              (canProtect s || Banner.has "P" inside)
              63
  | None => s
  end.
Proof.
  unfold SamBA.extensions, Banner.bracket.
  destruct (String.index 0 "[Arduino:" version) as [i |]; [| reflexivity].
  rewrite scan_fold by lia. rewrite fold_extension. reflexivity.
Qed.

(** C6.  When [_connect] completes, the capability flags and the read
    limit of the client are set from the version string the board sent:
    if it has a [[Arduino:] bracket, each of X, Y, Z and P inside it
    sets [canChipErase], [canWriteBuffer], [canChecksumBuffer] and
    [canProtect], no flag is cleared, and [readBufferSize] becomes 63;
    if it has none, the five fields keep their values (all false and 0
    on a new client). *)
Theorem connect_capabilities {Dev} `{SerialPort Dev} (w w' : World Dev) (t : list Event) :
  SamBA._connect w = (Ok tt, w', t) ->
  exists n reply,
    t = [Sent "N" None n; Sent "V" None (Some reply)] /\
    samba w' =
    match Banner.bracket (SamBA.decodeResponse reply) with
    | Some inside =>
        mkSamBA (canChipErase (samba w) || Banner.has "X" inside)
                (canWriteBuffer (samba w) || Banner.has "Y" inside)
                (canChecksumBuffer (samba w) || Banner.has "Z" inside)
                (canProtect (samba w) || Banner.has "P" inside)
                63
    | None => samba w
    end.
Proof.
  intros E. unfold SamBA._connect in E.
  apply bind_ok in E. destruct E as (n & w1 & t1 & t2 & E1 & E & ->).
  apply bind_ok in E. destruct E as (version & w2 & t3 & t4 & E2 & E & ->).
  unfold SamBA.setBinaryMode, SamBA.sendCommand in E1.
  destruct (exchange (port w) "N" None) as [avail1 d1]. injection E1 as <- <- <-.
  unfold SamBA.readVersion in E2.
  apply bind_ok in E2. destruct E2 as (buffer & w3 & t5 & t6 & E2 & E3 & ->).
  unfold SamBA.sendCommand in E2. simpl in E2.
  destruct (exchange d1 "V" None) as [avail2 d2]. injection E2 as <- <- <-.
  destruct (SamBA.readBuffer avail2 256) as [reply |]; [| discriminate].
  injection E3 as <- <- <-. injection E as <- <-.
  exists (SamBA.readBuffer avail1 2), reply. split; [reflexivity |].
  simpl. apply extensions_bracket.
Qed.

(** The mock board sends [v1.1 [Arduino:XYZ] Mar 19 2018 09:45:14]. *)
Lemma connect_capabilities_witness :
  SamBA._connect (Mock.world 0 Mock.fresh) = connect_run /\
  samba (snd (fst connect_run)) = mkSamBA true true true false 63.
Proof.
  split; [vm_compute; reflexivity |].
  destruct (connect_capabilities (Mock.world 0 Mock.fresh) (snd (fst connect_run)) (snd connect_run))
    as (n & reply & Et & Es).
  - vm_compute; reflexivity.
  - rewrite Es. vm_compute in Et. injection Et as _ <-. vm_compute; reflexivity.
Defined.

(** ** SamBA.read *)

Lemma to_int32_small (z : Z) : - 2 ^ 31 <= z < 2 ^ 31 -> JS.to_int32 z = z.
Proof.
  intros Hz. unfold JS.to_int32. rewrite Z.mod_small; lia.
Qed.

Lemma land_pow2_pred (k : Z) : 0 <= k -> Z.land (2 ^ k) (2 ^ k - 1) = 0.
Proof.
  intros Hk. replace (2 ^ k - 1) with (Z.ones k) by (rewrite Z.ones_equiv; lia).
  rewrite Z.land_ones by exact Hk. apply Z.mod_same. apply Z.pow_nonzero; lia.
Qed.

(** The test of [read] accepts every power of two. *)
Lemma and_pow2_pred (k : Z) : 0 <= k -> JS.and (2 ^ k) (2 ^ k - 1) = 0.
Proof.
  intros Hk. unfold JS.and.
  destruct (Z.lt_ge_cases k 31) as [L | L].
  - assert (0 < 2 ^ k) by (apply Z.pow_pos_nonneg; lia).
    assert (2 ^ k < 2 ^ 31) by (apply Z.pow_lt_mono_r; lia).
    rewrite !to_int32_small by lia. apply land_pow2_pred; exact Hk.
  - destruct (Z.eq_dec k 31) as [-> | N].
    + reflexivity.
    + assert (E : JS.to_int32 (2 ^ k) = 0).
      { unfold JS.to_int32. replace (2 ^ k) with (2 ^ (k - 32) * 2 ^ 32)
          by (rewrite <- Z.pow_add_r by lia; f_equal; lia).
        rewrite Z.add_comm, Z_mod_plus_full. reflexivity. }
      rewrite E. apply Z.land_0_l.
Qed.

Lemma land_pred_pow2 (n : Z) : 0 < n -> Z.land n (n - 1) = 0 -> exists k, 0 <= k /\ n = 2 ^ k.
Proof.
  intros Hn Hland. exists (Z.log2 n). split; [apply Z.log2_nonneg |].
  destruct (Z.log2_spec n Hn) as [Hlo Hhi].
  destruct (Z.eq_dec n (2 ^ Z.log2 n)) as [E | N]; [exact E | exfalso].
  assert (Hk : Z.log2 (n - 1) = Z.log2 n).
  { apply Z.log2_unique; [apply Z.log2_nonneg | rewrite <- Z.add_1_r in Hhi; lia]. }
  assert (B1 : Z.testbit n (Z.log2 n) = true) by (apply Z.bit_log2; exact Hn).
  assert (B2 : Z.testbit (n - 1) (Z.log2 n) = true).
  { rewrite <- Hk. apply Z.bit_log2.
    assert (0 < 2 ^ Z.log2 n) by (apply Z.pow_pos_nonneg; [lia | apply Z.log2_nonneg]). lia. }
  assert (B : Z.testbit (Z.land n (n - 1)) (Z.log2 n) = true)
    by (rewrite Z.land_spec, B1, B2; reflexivity).
  rewrite Hland, Z.bits_0 in B. discriminate.
Qed.

Section ReadFacts.
Context {Dev : Type} `{SerialPort Dev}.

Lemma read_chunks_done (n : nat) (a size_ start : Z) (buffer : list Z) (w : World Dev) :
  size_ <= 0 -> SamBA.read_chunks n a size_ start buffer w = (Ok buffer, w, []).
Proof.
  intros Hs. destruct n; simpl; [reflexivity |].
  replace (0 <? size_) with false by (symmetry; apply Z.ltb_ge; exact Hs). reflexivity.
Qed.



End ReadFacts.



(** ** The primitives of the client, run by run *)

Section Primitives.
Context {Dev : Type} `{SerialPort Dev}.

Lemma readWord_inv (a : Z) (w : World Dev) r w' t :
  SamBA.readWord a w = (r, w', t) ->
  exists reply,
    t = [Sent (SamBA.cmd_w a) None reply] /\
    r = match reply with
        | Some result => Ok (SamBA.word_of result)
        | None => Throw (SamBAError "Reading")
        end.
Proof.
  intros E. unfold SamBA.readWord in E. run_inv E as E0.
  - run_inv E0. exists reply. destruct reply; run_inv E; auto.
  - run_never E.
  - run_never E.
Qed.

Lemma readByte_inv (a : Z) (w : World Dev) r w' t :
  SamBA.readByte a w = (r, w', t) ->
  exists reply,
    t = [Sent (SamBA.cmd_o a) None reply] /\
    r = match reply with
        | Some result => Ok (JS.get result 0)
        | None => Throw (SamBAError "Reading")
        end.
Proof.
  intros E. unfold SamBA.readByte in E. run_inv E as E0.
  - run_inv E0. exists reply. destruct reply; run_inv E; auto.
  - run_never E.
  - run_never E.
Qed.

Lemma writeWord_inv (a v : Z) (w : World Dev) r w' t :
  SamBA.writeWord a v w = (r, w', t) ->
  t = [Sent (SamBA.cmd_W a v) None None] /\ r = Ok tt.
Proof.
  unfold SamBA.writeWord, bind, SamBA.sendCommand, ret.
  destruct (exchange (port w) (SamBA.cmd_W a v) None) as [avail d].
  intros [= <- <- <-]. auto.
Qed.

Lemma writeByte_inv (a v : Z) (w : World Dev) r w' t :
  SamBA.writeByte a v w = (r, w', t) ->
  t = [Sent (SamBA.cmd_O a v) None None] /\ r = Ok tt.
Proof.
  unfold SamBA.writeByte, bind, SamBA.sendCommand, ret.
  destruct (exchange (port w) (SamBA.cmd_O a v) None) as [avail d].
  intros [= <- <- <-]. auto.
Qed.

Lemma go_inv (a : Z) (w : World Dev) r w' t :
  SamBA.go a w = (r, w', t) ->
  t = [Sent (SamBA.cmd_G a) None None] /\ r = Ok tt.
Proof.
  unfold SamBA.go, bind, SamBA.sendCommand, ret.
  destruct (exchange (port w) (SamBA.cmd_G a) None) as [avail d].
  intros [= <- <- <-]. auto.
Qed.

End Primitives.

(** ** command, in the two drivers *)

Section CommandLogs.
Context {Dev : Type} `{SerialPort Dev}.
Variable g : Geometry.

Lemma d2x_waitReady_log (fuel : nat) (w : World Dev) r w' t :
  D2x.waitReady fuel w = (r, w', t) -> D2xLog.wait r t.
Proof.
  revert w r w' t. induction fuel as [| fuel IH]; intros w r w' t E; cbn [D2x.waitReady] in E.
  - run_inv E. constructor.
  - run_inv E as E0.
    + apply readWord_inv in E0. destruct E0 as (reply & -> & Er).
      destruct reply as [result |]; [| discriminate]. injection Er as ->.
      destruct (JS.and (SamBA.word_of result) 1 =? 0) eqn:Eb.
      * apply IH in E. apply D2xLog.wait_busy; [| exact E].
        unfold D2xLog.ready. now rewrite Eb.
      * run_inv E. apply D2xLog.wait_ready. unfold D2xLog.ready. now rewrite Eb.
    + apply readWord_inv in E. destruct E as (reply & -> & Er).
      destruct reply; [discriminate |]. injection Er as ->. apply D2xLog.wait_silent.
    + apply readWord_inv in E. destruct E as (reply & -> & Er). destruct reply; discriminate.
Qed.

Lemma d2x_command_log (fuel : nat) (cmd : Z) (w : World Dev) r w' t :
  D2x.command fuel cmd w = (r, w', t) -> D2xLog.command_log cmd r t.
Proof.
  intros E. unfold D2x.command in E.
  run_inv E as W1; [| apply d2x_waitReady_log in E; apply D2xLog.stops_in_first_wait;
                      [exact E | discriminate] ..].
  apply d2x_waitReady_log in W1. units.
  run_inv E as D; [| apply writeWord_inv in E; destruct E as [_ E]; discriminate ..].
  apply writeWord_inv in D. destruct D as [-> _].
  run_inv E as W2; [| apply d2x_waitReady_log in E; apply D2xLog.stops_in_second_wait;
                      [exact W1 | exact E | discriminate] ..].
  apply d2x_waitReady_log in W2. units.
  run_inv E as C.
  - apply readWord_inv in C. destruct C as (reply & -> & Er).
    destruct reply as [result |]; [| discriminate]. injection Er as ->.
    destruct (JS.truthy (JS.and (SamBA.word_of result) 2)) eqn:Ee.
    + run_inv E as Cl; [run_inv E | apply writeWord_inv in E; destruct E as [_ E]; discriminate ..].
      apply writeWord_inv in Cl. destruct Cl as [-> _].
      rewrite app_nil_r. apply D2xLog.check_fails; assumption.
    + run_inv E. rewrite app_nil_r. apply D2xLog.check_passes; assumption.
  - apply readWord_inv in E. destruct E as (reply & -> & Er).
    destruct reply; [discriminate |]. injection Er as ->.
    apply D2xLog.check_unanswered; assumption.
  - apply readWord_inv in E. destruct E as (reply & -> & Er). destruct reply; discriminate.
Qed.

Lemma d5x_readRegU16_log (reg : Z) (w : World Dev) r w' t :
  D5x.readRegU16 reg w = (r, w', t) -> D5xLog.read16 reg r t.
Proof.
  intros E. unfold D5x.readRegU16 in E.
  run_inv E as L.
  - apply readByte_inv in L. destruct L as (lo & -> & Er).
    destruct lo as [lo |]; [| discriminate]. injection Er as ->.
    run_inv E as Hi.
    + apply readByte_inv in Hi. destruct Hi as (hi & -> & Er).
      destruct hi as [hi |]; [| discriminate]. injection Er as ->.
      run_inv E. rewrite <- Z.add_assoc. apply D5xLog.read16_both.
    + apply readByte_inv in E. destruct E as (hi & -> & Er).
      destruct hi; [discriminate |]. injection Er as ->.
      rewrite <- Z.add_assoc. apply D5xLog.read16_high_unanswered.
    + apply readByte_inv in E. destruct E as (hi & -> & Er). destruct hi; discriminate.
  - apply readByte_inv in E. destruct E as (lo & -> & Er).
    destruct lo; [discriminate |]. injection Er as ->. apply D5xLog.read16_low_unanswered.
  - apply readByte_inv in E. destruct E as (lo & -> & Er). destruct lo; discriminate.
Qed.

Lemma d5x_read16_not_fuel (reg : Z) (t : list Event) : ~ D5xLog.read16 reg OutOfFuel t.
Proof. intros X. inversion X. Qed.

Lemma d5x_waitReady_log (fuel : nat) (w : World Dev) r w' t :
  D5x.waitReady fuel w = (r, w', t) -> D5xLog.wait r t.
Proof.
  revert w r w' t. induction fuel as [| fuel IH]; intros w r w' t E; cbn [D5x.waitReady] in E.
  - run_inv E. constructor.
  - run_inv E as R.
    + apply d5x_readRegU16_log in R.
      match type of R with
      | D5xLog.read16 _ (Ok ?v) _ => destruct (JS.and v 1 =? 0) eqn:Eb
      end.
      * apply IH in E. apply Z.eqb_eq in Eb. eapply D5xLog.wait_busy; eassumption.
      * run_inv E. rewrite app_nil_r. apply Z.eqb_neq in Eb.
        eapply D5xLog.wait_ready; eassumption.
    + apply d5x_readRegU16_log in E. apply D5xLog.wait_silent. exact E.
    + apply d5x_readRegU16_log in E. now apply d5x_read16_not_fuel in E.
Qed.

Lemma d5x_writeRegU16_log (reg v : Z) (w : World Dev) r w' t :
  D5x.writeRegU16 reg v w = (r, w', t) ->
  r = Ok tt /\
  t = [ Sent (SamBA.cmd_O (D5x.NVM_REG_BASE + reg) (JS.and v 0xff)) None None;
        Sent (SamBA.cmd_O (D5x.NVM_REG_BASE + reg) (JS.and (JS.shr v 8) 0xff)) None None ].
Proof.
  intros E. unfold D5x.writeRegU16 in E.
  run_inv E as L; [| apply writeByte_inv in E; destruct E as [_ E]; discriminate ..].
  apply writeByte_inv in L. destruct L as [-> _].
  apply writeByte_inv in E. destruct E as [-> ->]. auto.
Qed.

Lemma d5x_command_log (fuel : nat) (cmd : Z) (w : World Dev) r w' t :
  D5x.command fuel cmd w = (r, w', t) -> D5xLog.command_log cmd r t.
Proof.
  intros E. unfold D5x.command in E.
  run_inv E as W1; [| apply d5x_waitReady_log in E; apply D5xLog.stops_in_first_wait;
                      [exact E | discriminate] ..].
  apply d5x_waitReady_log in W1. units.
  run_inv E as D; [| apply writeWord_inv in E; destruct E as [_ E]; discriminate ..].
  apply writeWord_inv in D. destruct D as [-> _].
  run_inv E as W2; [| apply d5x_waitReady_log in E; apply D5xLog.stops_in_second_wait;
                      [exact W1 | exact E | discriminate] ..].
  apply d5x_waitReady_log in W2. units.
  run_inv E as C.
  - apply d5x_readRegU16_log in C.
    match type of C with
    | D5xLog.read16 _ (Ok ?v) _ => destruct (JS.truthy (JS.and v 206)) eqn:Ee
    end.
    + run_inv E as Cl; [run_inv E | apply d5x_writeRegU16_log in E; destruct E as [E _]; discriminate ..].
      apply d5x_writeRegU16_log in Cl. destruct Cl as [_ ->].
      rewrite app_nil_r. cbn [app]. eapply D5xLog.check_fails; try eassumption.
      unfold JS.truthy in Ee. apply negb_true_iff, Z.eqb_neq in Ee. exact Ee.
    + run_inv E. rewrite app_nil_r. cbn [app]. eapply D5xLog.check_passes; try eassumption.
      unfold JS.truthy in Ee. apply negb_false_iff, Z.eqb_eq in Ee. exact Ee.
  - apply d5x_readRegU16_log in E. cbn [app]. eapply D5xLog.check_unanswered; eassumption.
  - apply d5x_readRegU16_log in E. now apply d5x_read16_not_fuel in E.
Qed.

End CommandLogs.

(** ** What every run respects *)

Section RespectsBase.
Context {Dev : Type} `{SerialPort Dev}.
Context (P : World Dev -> World Dev -> list Event -> Prop) `{!Stable P}.

Lemma respects_ret {A} (a : A) : respects P (ret a).
Proof. intros w r w' t E. run_inv E. apply st_nil. Qed.

Lemma respects_throw {A} (e : Error) : respects P (@throw Dev A e).
Proof. intros w r w' t E. run_inv E. apply st_nil. Qed.

Lemma respects_gets {A} (f : World Dev -> A) : respects P (gets f).
Proof. intros w r w' t E. run_inv E. apply st_nil. Qed.

Lemma respects_out_of_fuel {A} : respects P (@out_of_fuel Dev A).
Proof. intros w r w' t E. run_inv E. apply st_nil. Qed.

Lemma respects_bind {A B} (m : M Dev A) (f : A -> M Dev B) :
  respects P m -> (forall a, respects P (f a)) -> respects P (bind m f).
Proof.
  intros Hm Hf w r w' t E. run_inv E as E1.
  - eapply st_app; [eapply Hm | eapply Hf]; eassumption.
  - eapply Hm; eassumption.
  - eapply Hm; eassumption.
Qed.

Lemma respects_when (b : bool) (m : M Dev unit) :
  respects P m -> respects P (when b m).
Proof. intros Hm. destruct b; [exact Hm | apply respects_ret]. Qed.

End RespectsBase.

Create HintDb respects discriminated.

Ltac respects_step :=
  lazymatch goal with
  | |- Stable _ => exact _
  | |- respects _ (bind _ _) => apply respects_bind; [exact _ | | intros]
  | |- respects _ (ret _) => apply respects_ret; exact _
  | |- respects _ (throw _) => apply respects_throw; exact _
  | |- respects _ (gets _) => apply respects_gets; exact _
  | |- respects _ out_of_fuel => apply respects_out_of_fuel; exact _
  | |- respects _ (when _ _) => apply respects_when; [exact _ |]
  | |- respects _ (SamBA.sendCommand _ _ _) =>
      apply st_io;
      unfold SamBA.cmd_O, SamBA.cmd_o, SamBA.cmd_W, SamBA.cmd_w, SamBA.cmd_S, SamBA.cmd_R;
      cbn [first_char String.append]; discriminate
  | |- respects _ (if ?b then _ else _) => destruct b
  | |- respects _ (match ?x with _ => _ end) => destruct x
  | |- respects _ (let _ := _ in _) => cbv zeta
  end.

Ltac respects_auto :=
  repeat first [ respects_step | solve [eauto with respects] ].

Section Respects.
Context {Dev : Type} `{SerialPort Dev}.
Context (P : World Dev -> World Dev -> list Event -> Prop) `{!Stable P}.
Variable g : Geometry.

(** The client. *)

Lemma respects_readByte a : respects P (SamBA.readByte a).
Proof. unfold SamBA.readByte. respects_auto. Qed.

Lemma respects_writeByte a v : respects P (SamBA.writeByte a v).
Proof. unfold SamBA.writeByte. respects_auto. Qed.

Lemma respects_readWord a : respects P (SamBA.readWord a).
Proof. unfold SamBA.readWord. respects_auto. Qed.

Lemma respects_writeWord a v : respects P (SamBA.writeWord a v).
Proof. unfold SamBA.writeWord. respects_auto. Qed.

Lemma respects_write a buffer n : respects P (SamBA.write a buffer n).
Proof. unfold SamBA.write. respects_auto. Qed.

Lemma respects_read_chunks n a size_ start buffer :
  respects P (SamBA.read_chunks n a size_ start buffer).
Proof.
  revert a size_ start buffer. induction n as [| n IH]; intros; cbn [SamBA.read_chunks];
    respects_auto.
Qed.

Hint Resolve respects_readByte respects_writeByte respects_readWord respects_writeWord
     respects_write respects_read_chunks : respects.

Lemma respects_read a buffer size_ : respects P (SamBA.read a buffer size_).
Proof. unfold SamBA.read. respects_auto. Qed.

Lemma respects_chipErase a : respects P (SamBA.chipErase a).
Proof. unfold SamBA.chipErase. respects_auto. Qed.

Lemma respects_samba_writeBuffer a b n : respects P (SamBA.writeBuffer a b n).
Proof. unfold SamBA.writeBuffer. respects_auto. Qed.

Hint Resolve respects_read respects_chipErase respects_samba_writeBuffer : respects.

(** The applet, but for its run. *)

Lemma respects_checkInstall a : respects P (WordCopyApplet.checkInstall a).
Proof.
  unfold WordCopyApplet.checkInstall. respects_auto.
  intros w r w' t E. run_inv E. apply st_installed.
Qed.

Hint Resolve respects_checkInstall : respects.

Lemma respects_setStack a v : respects P (WordCopyApplet.setStack a v).
Proof. unfold WordCopyApplet.setStack. respects_auto. Qed.

Lemma respects_setDstAddr a v : respects P (WordCopyApplet.setDstAddr a v).
Proof. unfold WordCopyApplet.setDstAddr. respects_auto. Qed.

Lemma respects_setSrcAddr a v : respects P (WordCopyApplet.setSrcAddr a v).
Proof. unfold WordCopyApplet.setSrcAddr. respects_auto. Qed.

Lemma respects_setWords a v : respects P (WordCopyApplet.setWords a v).
Proof. unfold WordCopyApplet.setWords. respects_auto. Qed.

Hint Resolve respects_setStack respects_setDstAddr respects_setSrcAddr respects_setWords
  : respects.

(** The shared part of the drivers. *)

Lemma respects_prepareApplet : respects P (Flash.prepareApplet g).
Proof.
  unfold Flash.prepareApplet. respects_auto.
  intros w r w' t E. run_inv E. apply st_prepared.
Qed.

Lemma respects_loadBuffer data offset n : respects P (Flash.loadBuffer g data offset n).
Proof. unfold Flash.loadBuffer. respects_auto. Qed.

Lemma respects_flash_writeBuffer a n : respects P (Flash.writeBuffer g a n).
Proof. unfold Flash.writeBuffer. respects_auto. Qed.

Lemma respects_lock_regions n region a bits acc :
  respects P (Flash.lock_regions g n region a bits acc).
Proof.
  revert region a bits acc. induction n as [| n IH]; intros; cbn [Flash.lock_regions];
    respects_auto.
Qed.

Lemma respects_for_offsets n offset limit step body :
  (forall o, respects P (body o)) -> respects P (Flash.for_offsets n offset limit step body).
Proof.
  intros Hb. revert offset. induction n as [| n IH]; intros; cbn [Flash.for_offsets];
    respects_auto.
Qed.

Hint Resolve respects_prepareApplet respects_loadBuffer respects_flash_writeBuffer
     respects_lock_regions : respects.

(** The D2x driver, but for what flips the buffer or runs the applet. *)

Lemma respects_d2x_readReg reg : respects P (D2x.readReg reg).
Proof. unfold D2x.readReg. respects_auto. Qed.

Lemma respects_d2x_writeReg reg v : respects P (D2x.writeReg reg v).
Proof. unfold D2x.writeReg. respects_auto. Qed.

Hint Resolve respects_d2x_readReg respects_d2x_writeReg : respects.

Lemma respects_d2x_waitReady fuel : respects P (D2x.waitReady fuel).
Proof. induction fuel as [| fuel IH]; cbn [D2x.waitReady]; respects_auto. Qed.

Hint Resolve respects_d2x_waitReady : respects.

Lemma respects_d2x_command fuel cmd : respects P (D2x.command fuel cmd).
Proof. unfold D2x.command. respects_auto. Qed.

Hint Resolve respects_d2x_command : respects.

Lemma respects_d2x_erase_rows n fuel eraseNum eraseEnd eraseSize :
  respects P (D2x.erase_rows n fuel eraseNum eraseEnd eraseSize).
Proof.
  revert eraseNum. induction n as [| n IH]; intros; cbn [D2x.erase_rows]; respects_auto.
Qed.

Hint Resolve respects_d2x_erase_rows : respects.

Lemma respects_d2x_erase fuel offset size_ : respects P (D2x.erase g fuel offset size_).
Proof. unfold D2x.erase. respects_auto. Qed.

Hint Resolve respects_d2x_erase : respects.

Lemma respects_d2x_eraseAll fuel offset : respects P (D2x.eraseAll g fuel offset).
Proof. unfold D2x.eraseAll. respects_auto. Qed.

Lemma respects_d2x_getLockRegions : respects P (D2x.getLockRegions g).
Proof. unfold D2x.getLockRegions. respects_auto. Qed.

Lemma respects_d2x_getSecurity : respects P D2x.getSecurity.
Proof. unfold D2x.getSecurity. respects_auto. Qed.

Lemma respects_d2x_getBod : respects P D2x.getBod.
Proof. unfold D2x.getBod. respects_auto. Qed.

Lemma respects_d2x_getBor : respects P D2x.getBor.
Proof. unfold D2x.getBor. respects_auto. Qed.

Lemma respects_d2x_readUserRow userRow : respects P (D2x.readUserRow g userRow).
Proof. unfold D2x.readUserRow. respects_auto. Qed.

Lemma respects_d2x_readPage page buf : respects P (D2x.readPage g page buf).
Proof. unfold D2x.readPage. respects_auto. Qed.

Lemma respects_d2x_writeBuffer fuel a n : respects P (D2x.writeBuffer g fuel a n).
Proof. unfold D2x.writeBuffer. respects_auto. Qed.

Hint Resolve respects_d2x_eraseAll respects_d2x_getLockRegions respects_d2x_getSecurity
     respects_d2x_getBod respects_d2x_getBor respects_d2x_readUserRow : respects.

(** The D5x driver, likewise. *)

Lemma respects_d5x_readRegU16 reg : respects P (D5x.readRegU16 reg).
Proof. unfold D5x.readRegU16. respects_auto. Qed.

Lemma respects_d5x_writeRegU16 reg v : respects P (D5x.writeRegU16 reg v).
Proof. unfold D5x.writeRegU16. respects_auto. Qed.

Lemma respects_d5x_writeRegU32 reg v : respects P (D5x.writeRegU32 reg v).
Proof. unfold D5x.writeRegU32. respects_auto. Qed.

Hint Resolve respects_d5x_readRegU16 respects_d5x_writeRegU16 respects_d5x_writeRegU32
  : respects.

Lemma respects_d5x_waitReady fuel : respects P (D5x.waitReady fuel).
Proof. induction fuel as [| fuel IH]; cbn [D5x.waitReady]; respects_auto. Qed.

Hint Resolve respects_d5x_waitReady : respects.

Lemma respects_d5x_command fuel cmd : respects P (D5x.command fuel cmd).
Proof. unfold D5x.command. respects_auto. Qed.

Hint Resolve respects_d5x_command : respects.

Lemma respects_d5x_erase_blocks n fuel eraseNum eraseEnd eraseSize :
  respects P (D5x.erase_blocks n fuel eraseNum eraseEnd eraseSize).
Proof.
  revert eraseNum. induction n as [| n IH]; intros; cbn [D5x.erase_blocks]; respects_auto.
Qed.

Hint Resolve respects_d5x_erase_blocks : respects.

Lemma respects_d5x_erase fuel offset size_ : respects P (D5x.erase g fuel offset size_).
Proof. unfold D5x.erase. respects_auto. Qed.

Hint Resolve respects_d5x_erase : respects.

Lemma respects_d5x_eraseAll fuel offset : respects P (D5x.eraseAll g fuel offset).
Proof. unfold D5x.eraseAll. respects_auto. Qed.

Lemma respects_d5x_getLockRegions : respects P (D5x.getLockRegions g).
Proof. unfold D5x.getLockRegions. respects_auto. Qed.

Lemma respects_d5x_getSecurity : respects P D5x.getSecurity.
Proof. unfold D5x.getSecurity. respects_auto. Qed.

Lemma respects_d5x_getBod : respects P D5x.getBod.
Proof. unfold D5x.getBod. respects_auto. Qed.

Lemma respects_d5x_getBor : respects P D5x.getBor.
Proof. unfold D5x.getBor. respects_auto. Qed.

Lemma respects_d5x_readUserPage userPage : respects P (D5x.readUserPage g userPage).
Proof. unfold D5x.readUserPage. respects_auto. Qed.

Lemma respects_d5x_readPage page buf : respects P (D5x.readPage g page buf).
Proof. unfold D5x.readPage. respects_auto. Qed.

Lemma respects_d5x_writeBuffer fuel a n : respects P (D5x.writeBuffer g fuel a n).
Proof. unfold D5x.writeBuffer. respects_auto. Qed.

Hint Resolve respects_d5x_eraseAll respects_d5x_getLockRegions respects_d5x_getSecurity
     respects_d5x_getBod respects_d5x_getBor respects_d5x_readUserPage : respects.

(** Running the applet and flipping the buffer, where [P] allows them. *)

Hypothesis P_go : forall a, respects P (SamBA.go a).
Hypothesis P_flip : respects P (@Flash.flipBuffer Dev).

Lemma respects_runv a : respects P (WordCopyApplet.runv a).
Proof. unfold WordCopyApplet.runv. respects_auto. Qed.

Hint Resolve respects_runv : respects.

Lemma respects_d2x_write_row_page fuel userRow offset :
  respects P (D2x.write_row_page g fuel userRow offset).
Proof. unfold D2x.write_row_page. respects_auto. Qed.

Lemma respects_d2x_writeOptions fuel : respects P (D2x.writeOptions g fuel).
Proof.
  unfold D2x.writeOptions. respects_auto.
  apply respects_for_offsets. intros. apply respects_d2x_write_row_page.
Qed.

Lemma respects_d2x_writePage fuel page : respects P (D2x.writePage g fuel page).
Proof. unfold D2x.writePage. respects_auto. Qed.

Lemma respects_d5x_write_quad_word fuel userPage offset :
  respects P (D5x.write_quad_word g fuel userPage offset).
Proof. unfold D5x.write_quad_word. respects_auto. Qed.

Lemma respects_d5x_writeOptions fuel : respects P (D5x.writeOptions g fuel).
Proof.
  unfold D5x.writeOptions. respects_auto.
  apply respects_for_offsets. intros. apply respects_d5x_write_quad_word.
Qed.

Lemma respects_d5x_writePage fuel page : respects P (D5x.writePage g fuel page).
Proof. unfold D5x.writePage. respects_auto. Qed.

End Respects.

#[global] Hint Resolve respects_readByte respects_writeByte respects_readWord respects_writeWord
  respects_write respects_read_chunks respects_read respects_chipErase
  respects_samba_writeBuffer respects_checkInstall respects_setStack respects_setDstAddr
  respects_setSrcAddr respects_setWords respects_prepareApplet respects_loadBuffer
  respects_flash_writeBuffer respects_lock_regions
  respects_d2x_readReg respects_d2x_writeReg respects_d2x_waitReady respects_d2x_command
  respects_d2x_erase_rows respects_d2x_erase respects_d2x_eraseAll respects_d2x_getLockRegions
  respects_d2x_getSecurity respects_d2x_getBod respects_d2x_getBor respects_d2x_readUserRow
  respects_d2x_readPage respects_d2x_writeBuffer
  respects_d5x_readRegU16 respects_d5x_writeRegU16 respects_d5x_writeRegU32
  respects_d5x_waitReady respects_d5x_command respects_d5x_erase_blocks respects_d5x_erase
  respects_d5x_eraseAll respects_d5x_getLockRegions respects_d5x_getSecurity respects_d5x_getBod
  respects_d5x_getBor respects_d5x_readUserPage respects_d5x_readPage respects_d5x_writeBuffer
  respects_runv respects_when respects_ret
  : respects.

Section Relations.
Context {Dev : Type} `{SerialPort Dev}.

#[global] Instance quiet_stable : Stable (@quiet Dev).
Proof.
  split.
  - intros w. split; [constructor | reflexivity].
  - intros w1 w2 w3 t1 t2 [F1 E1] [F2 E2]. split; [apply Forall_app; auto | congruence].
  - intros cmd rs data _ w r w' t E. run_inv E. split; [repeat constructor | now rewrite Hflash].
  - intros w. split; [constructor | reflexivity].
  - intros w. split; [constructor | reflexivity].
Qed.

#[global] Instance no_go_stable : Stable (@no_go Dev).
Proof.
  split; unfold no_go.
  - constructor.
  - intros. apply Forall_app; auto.
  - intros cmd rs data Hc w r w' t E. run_inv E. repeat constructor. exact Hc.
  - constructor.
  - constructor.
Qed.

Lemma stays_dirty_refl {T} (o : FlashOption T) : stays_dirty o o.
Proof. intros D. exact D. Qed.

Lemma stays_dirty_trans {T} (o1 o2 o3 : FlashOption T) :
  stays_dirty o1 o2 -> stays_dirty o2 o3 -> stays_dirty o1 o3.
Proof. unfold stays_dirty. auto. Qed.

Lemma keeps_dirty_same (w w' : World Dev) (t : list Event) :
  bootFlash (flash w') = bootFlash (flash w) ->
  bod (flash w') = bod (flash w) ->
  bor (flash w') = bor (flash w) ->
  security (flash w') = security (flash w) ->
  regions (flash w') = regions (flash w) ->
  keeps_dirty w w' t.
Proof.
  intros E1 E2 E3 E4 E5. unfold keeps_dirty. rewrite E1, E2, E3, E4, E5.
  repeat split; apply stays_dirty_refl.
Qed.

#[global] Instance keeps_dirty_stable : Stable (@keeps_dirty Dev).
Proof.
  split.
  - intros w. apply keeps_dirty_same; reflexivity.
  - intros w1 w2 w3 t1 t2 (A1 & A2 & A3 & A4 & A5) (B1 & B2 & B3 & B4 & B5).
    repeat split; eapply stays_dirty_trans; eassumption.
  - intros cmd rs data _ w r w' t E. run_inv E.
    apply keeps_dirty_same; now rewrite Hflash.
  - intros w. apply keeps_dirty_same; reflexivity.
  - intros w. apply keeps_dirty_same; reflexivity.
Qed.

Lemma quiet_go (a : Z) : respects (@quiet Dev) (SamBA.go a).
Proof.
  intros w r w' t E. unfold SamBA.go in E. run_inv E as G.
  - run_inv G. run_inv E. split; [repeat constructor | now rewrite Hflash].
  - run_never E.
  - run_never E.
Qed.

Lemma keeps_dirty_go (a : Z) : respects (@keeps_dirty Dev) (SamBA.go a).
Proof.
  intros w r w' t E. unfold SamBA.go in E. run_inv E as G.
  - run_inv G. run_inv E. apply keeps_dirty_same; now rewrite Hflash.
  - run_never E.
  - run_never E.
Qed.

Lemma flipBuffer_inv (w : World Dev) r w' t :
  Flash.flipBuffer w = (r, w', t) ->
  r = Ok tt /\ t = [Flip (negb (onBufferA (flash w)))] /\
  onBufferA (flash w') = negb (onBufferA (flash w)) /\
  keeps_dirty w w' t.
Proof.
  unfold Flash.flipBuffer, bind, gets, modify, emit. intros [= <- <- <-].
  repeat split; try apply stays_dirty_refl.
Qed.

Lemma no_go_flip : respects (@no_go Dev) Flash.flipBuffer.
Proof.
  intros w r w' t E. apply flipBuffer_inv in E. destruct E as (_ & -> & _).
  repeat constructor.
Qed.

Lemma keeps_dirty_flip : respects (@keeps_dirty Dev) Flash.flipBuffer.
Proof. intros w r w' t E. apply flipBuffer_inv in E. tauto. Qed.

Lemma flips_app (t1 t2 : list Event) : flips (t1 ++ t2) = (flips t1 + flips t2)%nat.
Proof.
  induction t1 as [| [cmd data reply | b] t1 IH]; simpl; auto.
Qed.

Lemma flips_sent (t : list Event) : Forall is_sent t -> flips t = 0%nat.
Proof.
  induction 1 as [| [cmd data reply | b] t Hs _ IH]; simpl; auto. contradiction.
Qed.

End Relations.

#[global] Hint Resolve quiet_go keeps_dirty_go no_go_flip keeps_dirty_flip : respects.
#[global] Hint Extern 1 (Stable _) => exact _ : respects.





(** On the mock board a first poll answered busy is followed by one
    answered ready; the command then runs to its end.  ([readBuffer]
    stops at a zero byte once two bytes are in: the four bytes the
    board sends come back as two.) *)
Example d2x_command_on_mock :
  D2x.command 2 D2x.NVM_CMD_PBC (Mock.world 1 Mock.fresh) =
  (Ok tt, Mock.world 0 Mock.fresh,
   [ D2xLog.poll (Some [0; 0]); D2xLog.poll (Some [1; 0]);
     D2xLog.dispatch D2x.NVM_CMD_PBC;
     D2xLog.poll (Some [1; 0]);
     D2xLog.poll (Some [1; 0]) ]).
Proof. vm_compute. reflexivity. Qed.



(** ** writePage *)

(** A [bind] in a run that completes: both parts complete. *)
Tactic Notation "run_ok" hyp(E) "as" ident(E1) :=
  let a := fresh "a" in let w1 := fresh "w" in
  let t1 := fresh "t" in let t2 := fresh "t" in
  let Et := fresh "Et" in
  apply bind_ok in E;
  destruct E as (a & w1 & t1 & t2 & E1 & E & Et);
  subst_lhs Et; cbv beta zeta in E.

Section WritePage.
Context {Dev : Type} `{SerialPort Dev}.
Variable g : Geometry.

Lemma d2x_writePage_tail (fuel : nat) (page : Z) (w w' : World Dev) (t : list Event) :
  D2x.writePage g fuel page w = (Ok tt, w', t) ->
  exists pre tc,
    t = pre ++ Sent (SamBA.cmd_W (D2x.NVM_REG_BASE + D2x.NVM_REG_ADDR)
                                 ((addr g + page * size g) / 2)) None None :: tc
    /\ D2xLog.command_log D2x.NVM_CMD_WP (Ok tt) tc.
Proof.
  intros E. unfold D2x.writePage in E.
  destruct (pages g <=? page); [discriminate E |].
  run_ok E as S1. run_ok E as S2. run_ok E as S3. run_ok E as S4. run_ok E as S5.
  run_ok E as S6. run_ok E as S7. run_ok E as S8. run_ok E as S9. run_ok E as S10.
  run_ok E as S11. run_ok E as S12. run_ok E as S13.
  apply writeWord_inv in S13. destruct S13 as [-> _].
  apply d2x_command_log in E.
  eexists. exists t13. split; [| exact E].
  rewrite !app_assoc. rewrite <- app_assoc. reflexivity.
Qed.

Lemma d5x_writePage_tail (fuel : nat) (page : Z) (w w' : World Dev) (t : list Event) :
  D5x.writePage g fuel page w = (Ok tt, w', t) ->
  exists pre tc,
    t = pre ++ Sent (SamBA.cmd_W (D5x.NVM_REG_BASE + D5x.NVM_REG_ADDR)
                                 ((addr g + page * size g) / 2)) None None :: tc
    /\ D5xLog.command_log D5x.NVM_CMD_WP (Ok tt) tc.
Proof.
  intros E. unfold D5x.writePage in E.
  destruct (pages g <=? page); [discriminate E |].
  run_ok E as S1. run_ok E as S2. run_ok E as S3. run_ok E as S4. run_ok E as S5.
  run_ok E as S6. run_ok E as S7. run_ok E as S8. run_ok E as S9. run_ok E as S9'.
  run_ok E as S10. run_ok E as S11. run_ok E as S12. run_ok E as S13.
  apply writeWord_inv in S13. destruct S13 as [-> _].
  apply d5x_command_log in E.
  eexists. exists t14. split; [| exact E].
  rewrite !app_assoc. rewrite <- app_assoc. reflexivity.
Qed.

End WritePage.

(** C1.  When [writePage(page)] completes, the last thing it does before
    the WP command (ready-wait, dispatch, ready-wait, check) is one
    word write to ADDR.  In the D2x driver the value written is the
    byte address of the page divided by 2.  In the D5x driver it is
    the byte address of the page divided by 2 as well, not the byte
    address. *)
Theorem writePage_addr_register {Dev} `{SerialPort Dev}
        (g : Geometry) (fuel : nat) (page : Z) (w w' : World Dev) (t : list Event) :
  word_aligned g ->
  (D2x.writePage g fuel page w = (Ok tt, w', t) ->
   exists pre tc,
     t = pre ++ Sent (SamBA.cmd_W (D2x.NVM_REG_BASE + D2x.NVM_REG_ADDR)
                                  ((addr g + page * size g) / 2)) None None :: tc
     /\ D2xLog.command_log D2x.NVM_CMD_WP (Ok tt) tc)
  /\ (D5x.writePage g fuel page w = (Ok tt, w', t) ->
      exists pre tc,
        t = pre ++ Sent (SamBA.cmd_W (D5x.NVM_REG_BASE + D5x.NVM_REG_ADDR)
                                     ((addr g + page * size g) / 2)) None None :: tc
        /\ D5xLog.command_log D5x.NVM_CMD_WP (Ok tt) tc).
Proof.
  intros _. split; [apply d2x_writePage_tail | apply d5x_writePage_tail].
Qed.

(** Page 1 on the mock board: the D2x driver (pages of 64 bytes) writes
    0x20 to ADDR for the byte address 0x40; the D5x driver (pages of
    512 bytes) writes 0x100 for the byte address 0x200. *)
Lemma writePage_addr_register_witness :
  (D2x.writePage Mock.samd21 1 1 (Mock.world 0 Mock.fresh) = d2x_writePage_run /\
   exists pre tc,
     snd d2x_writePage_run = pre ++ Sent "W4100401c,00000020" None None :: tc
     /\ D2xLog.command_log D2x.NVM_CMD_WP (Ok tt) tc)
  /\ (D5x.writePage Mock.samd51 1 1 (Mock.world 0 Mock.fresh) = d5x_writePage_run /\
      exists pre tc,
        snd d5x_writePage_run = pre ++ Sent "W41004014,00000100" None None :: tc
        /\ D5xLog.command_log D5x.NVM_CMD_WP (Ok tt) tc).
Proof.
  split; (split; [vm_compute; reflexivity |]).
  - apply (writePage_addr_register Mock.samd21 1 1 (Mock.world 0 Mock.fresh)
             (snd (fst d2x_writePage_run)) (snd d2x_writePage_run)).
    + split; [exists 0; reflexivity | exists 16; reflexivity].
    + vm_compute; reflexivity.
  - apply (writePage_addr_register Mock.samd51 1 1 (Mock.world 0 Mock.fresh)
             (snd (fst d5x_writePage_run)) (snd d5x_writePage_run)).
    + split; [exists 0; reflexivity | exists 128; reflexivity].
    + vm_compute; reflexivity.
Defined.

(** ** erase *)

Section EraseOutcome.
Context {Dev : Type} `{SerialPort Dev}.

Lemma d2x_wait_outcome (r : Res unit) (t : list Event) :
  D2xLog.wait r t -> erase_outcome r.
Proof. unfold erase_outcome. induction 1; auto. Qed.

Lemma d2x_command_outcome (cmd : Z) (r : Res unit) (t : list Event) :
  D2xLog.command_log cmd r t -> erase_outcome r.
Proof.
  destruct 1; try (eapply d2x_wait_outcome; eassumption); unfold erase_outcome; auto.
Qed.

Lemma d5x_wait_outcome (r : Res unit) (t : list Event) :
  D5xLog.wait r t -> erase_outcome r.
Proof.
  unfold erase_outcome. induction 1 as [v t R V | v t r t' R V W IH | e t R |]; auto.
  inversion R; auto.
Qed.

Lemma d5x_command_outcome (cmd : Z) (r : Res unit) (t : list Event) :
  D5xLog.command_log cmd r t -> erase_outcome r.
Proof.
  destruct 1 as [r t W N | t1 r t2 W1 W2 N | t1 t2 e t3 W1 W2 R | |];
    try (eapply d5x_wait_outcome; eassumption); unfold erase_outcome; auto.
  inversion R; auto.
Qed.

Lemma d2x_erase_rows_outcome (n fuel : nat) (eraseNum : Z) (eraseEnd : Q) (eraseSize : Z)
      (w : World Dev) r w' t :
  D2x.erase_rows n fuel eraseNum eraseEnd eraseSize w = (r, w', t) -> erase_outcome r.
Proof.
  revert eraseNum w r w' t. induction n as [| n IH]; intros eraseNum w r w' t E;
    cbn [D2x.erase_rows] in E.
  - run_inv E. left. reflexivity.
  - destruct (Qlt_bool (inject_Z eraseNum) eraseEnd); [| run_inv E; left; reflexivity].
    run_inv E as W; [| apply d2x_waitReady_log in E; eapply d2x_wait_outcome; eassumption ..].
    run_inv E as R;
      [| apply readWord_inv in E; destruct E as ([x |] & _ & Er); try discriminate Er;
         injection Er as ->; right; left; reflexivity
       | apply readWord_inv in E; destruct E as ([x |] & _ & Er); discriminate Er ].
    run_inv E as W1; [| apply writeWord_inv in E; destruct E as [_ E]; discriminate E ..].
    run_inv E as W2; [| apply writeWord_inv in E; destruct E as [_ E]; discriminate E ..].
    run_inv E as C;
      [| apply d2x_command_log in E; eapply d2x_command_outcome; eassumption ..].
    eapply IH; eassumption.
Qed.

Lemma d5x_erase_blocks_outcome (n fuel : nat) (eraseNum : Z) (eraseEnd : Q) (eraseSize : Z)
      (w : World Dev) r w' t :
  D5x.erase_blocks n fuel eraseNum eraseEnd eraseSize w = (r, w', t) -> erase_outcome r.
Proof.
  revert eraseNum w r w' t. induction n as [| n IH]; intros eraseNum w r w' t E;
    cbn [D5x.erase_blocks] in E.
  - run_inv E. left. reflexivity.
  - destruct (Qlt_bool (inject_Z eraseNum) eraseEnd); [| run_inv E; left; reflexivity].
    run_inv E as W1;
      [| unfold D5x.writeRegU32 in E; apply writeWord_inv in E; destruct E as [_ E];
         discriminate E ..].
    run_inv E as C;
      [| apply d5x_command_log in E; eapply d5x_command_outcome; eassumption ..].
    eapply IH; eassumption.
Qed.

End EraseOutcome.

(** The two tests of [erase].  An offset that is not a multiple of the
    granule, or a range that ends beyond the flash, throws
    [FlashEraseError] before anything is sent; otherwise the loop is
    entered, and [erase] ends as the loop does: never with
    [FlashEraseError]. *)
Lemma erase_guard {Dev} `{SerialPort Dev} (g : Geometry) (fuel : nat) (offset size_ : Z)
      (w : World Dev) :
  (size g * D2x.ERASE_ROW_PAGES <> 0 ->
   (Z.rem offset (size g * D2x.ERASE_ROW_PAGES) <> 0 \/ Flash.totalSize g < offset + size_ ->
    D2x.erase g fuel offset size_ w = (Throw FlashEraseError, w, []))
   /\ (Z.rem offset (size g * D2x.ERASE_ROW_PAGES) = 0 -> offset + size_ <= Flash.totalSize g ->
       erase_outcome (fst (fst (D2x.erase g fuel offset size_ w)))))
  /\ (size g * D5x.ERASE_BLOCK_PAGES <> 0 ->
      (Z.rem offset (size g * D5x.ERASE_BLOCK_PAGES) <> 0 \/ Flash.totalSize g < offset + size_ ->
       D5x.erase g fuel offset size_ w = (Throw FlashEraseError, w, []))
      /\ (Z.rem offset (size g * D5x.ERASE_BLOCK_PAGES) = 0 -> offset + size_ <= Flash.totalSize g ->
          erase_outcome (fst (fst (D5x.erase g fuel offset size_ w))))).
Proof.
  split; intros Hs; split.
  - intros Hbad. unfold D2x.erase, JS.truthy.
    destruct (size g * D2x.ERASE_ROW_PAGES =? 0) eqn:E0; [apply Z.eqb_eq in E0; contradiction |].
    destruct (Z.rem offset (size g * D2x.ERASE_ROW_PAGES) =? 0) eqn:E1; [| reflexivity].
    apply Z.eqb_eq in E1. destruct Hbad as [Hbad | Hbad]; [contradiction |].
    apply Z.ltb_lt in Hbad. cbn [negb andb]. rewrite Hbad. reflexivity.
  - intros Ha Hr. unfold D2x.erase, JS.truthy. rewrite Ha. cbn [Z.eqb negb andb].
    rewrite andb_false_r.
    replace (Flash.totalSize g <? offset + size_) with false by (symmetry; apply Z.ltb_ge; exact Hr).
    match goal with |- erase_outcome (fst (fst ?x)) => destruct x as [[r w'] t] eqn:E end.
    cbn [fst]. eapply d2x_erase_rows_outcome; eassumption.
  - intros Hbad. unfold D5x.erase, JS.truthy.
    destruct (size g * D5x.ERASE_BLOCK_PAGES =? 0) eqn:E0; [apply Z.eqb_eq in E0; contradiction |].
    destruct (Z.rem offset (size g * D5x.ERASE_BLOCK_PAGES) =? 0) eqn:E1; [| reflexivity].
    apply Z.eqb_eq in E1. destruct Hbad as [Hbad | Hbad]; [contradiction |].
    apply Z.ltb_lt in Hbad. cbn [negb andb]. rewrite Hbad. reflexivity.
  - intros Ha Hr. unfold D5x.erase, JS.truthy. rewrite Ha. cbn [Z.eqb negb andb].
    rewrite andb_false_r.
    replace (Flash.totalSize g <? offset + size_) with false by (symmetry; apply Z.ltb_ge; exact Hr).
    match goal with |- erase_outcome (fst (fst ?x)) => destruct x as [[r w'] t] eqn:E end.
    cbn [fst]. eapply d5x_erase_blocks_outcome; eassumption.
Qed.

(** C4.  The erase of one granule erases two.  On the mock board, with
    pages of 64 bytes, the D2x [erase(0, 256)] covers the one row at 0:
    it sends ER for the row at 0 and again for the row at 256 (ADDR
    0x80).  With pages of 512 bytes the D5x [erase(0, 8192)] sends EB
    for the block at 0 and for the block at 0x2000.  The bound of the
    loop, [(offset + size + eraseSize - 1) / eraseSize], is a real
    quotient: here 511 / 256 and 16383 / 8192, both above 1. *)
Theorem erase_one_granule_erases_two :
  (D2x.erase Mock.samd21 1 0 256 (Mock.world 0 Mock.fresh) = d2x_erase_run /\
   fst (fst d2x_erase_run) = Ok tt /\
   Mock.commands (snd d2x_erase_run) =
   [ "w41004014,4"; "w41004018,4"; "W41004018,0000ffeb";
     "W4100401c,00000000"; "w41004014,4"; "W41004000,0000a502"; "w41004014,4"; "w41004014,4";
     "w41004014,4"; "w41004018,4"; "W41004018,0000ffeb";
     "W4100401c,00000080"; "w41004014,4"; "W41004000,0000a502"; "w41004014,4"; "w41004014,4" ]%string)
  /\ (D5x.erase Mock.samd51 1 0 8192 (Mock.world 0 Mock.fresh) = d5x_erase_run /\
      fst (fst d5x_erase_run) = Ok tt /\
      Mock.commands (snd d5x_erase_run) =
      [ "W41004014,00000000"; "o41004012,4"; "o41004013,4"; "W41004004,0000a501";
        "o41004012,4"; "o41004013,4"; "o41004010,4"; "o41004011,4";
        "W41004014,00002000"; "o41004012,4"; "o41004013,4"; "W41004004,0000a501";
        "o41004012,4"; "o41004013,4"; "o41004010,4"; "o41004011,4" ]%string).
Proof.
  repeat split; vm_compute; reflexivity.
Qed.

(** ** writeOptions of the D5x driver *)

(** The write loop of the D5x [writeOptions] runs from 0 to the page
    size in steps of the page size: whatever the page size, it makes
    one turn. *)
Lemma d5x_user_page_loop_one_turn {Dev} `{SerialPort Dev} (g : Geometry) (n : nat)
      (body : Z -> M Dev unit) (w : World Dev) :
  0 < size g ->
  Flash.for_offsets (S n) 0 (D5x.NVM_UP_SIZE g) (size g) body w = (body 0 ;; ret tt) w.
Proof.
  intros Hs. cbn [Flash.for_offsets]. unfold D5x.NVM_UP_SIZE.
  replace (0 <? size g) with true by (symmetry; apply Z.ltb_lt; exact Hs).
  apply bind_ext. intros [] w1. destruct n; cbn [Flash.for_offsets]; [reflexivity |].
  rewrite Z.add_0_l, Z.ltb_irrefl. reflexivity.
Qed.

(** The state of the mock driver is the one the constructor builds. *)
Example mock_fresh_is_new :
  Flash.new Mock.samd21 = inr Mock.fresh /\ Flash.new Mock.samd51 = inr Mock.fresh.
Proof. split; reflexivity. Qed.

(** C7.  On the mock board (pages of 512 bytes, brown-out detection
    enabled in the user page) [setBod(false)] then [writeOptions()]
    completes with this log: the read of byte 0 by [getBod], the read of
    the user page, the control register, EP at 0x804000, and then one
    load of the buffer (announced as 16 bytes, followed by the 512
    bytes of the page), one PBC, the applet set up for 4 words and
    run, ADDR and one WQW (0xa504).  The loop over the user page steps
    by the page size, so it makes one turn where 32 quad words were to
    be written. *)
Theorem d5x_writeOptions_one_quad_word :
  (Flash.setBod false ;; D5x.writeOptions Mock.samd51 1) (Mock.world 0 Mock.fresh)
  = d5x_writeOptions_run /\
  fst (fst d5x_writeOptions_run) = Ok tt /\
  Mock.commands (snd d5x_writeOptions_run) =
  [ "o00804000,4";
    "o00804000,4"; "R00804001,000001ff";
    "o41004000,4"; "o41004001,4"; "O41004000,01"; "O41004000,c1";
    "W41004014,00804000";
    "o41004012,4"; "o41004013,4"; "W41004004,0000a500"; "o41004012,4"; "o41004013,4";
    "o41004010,4"; "o41004011,4";
    "S20004034,00000010";
    "o41004012,4"; "o41004013,4"; "W41004004,0000a515"; "o41004012,4"; "o41004013,4";
    "o41004010,4"; "o41004011,4";
    "S20004000,00000034"; "W20004030,00000080"; "W20004020,20008000";
    "W20004028,00804000"; "W2000402c,20004034"; "W20004030,00000004";
    "o41004012,4"; "o41004013,4";
    "W20004024,20004001"; "G20004020";
    "W41004014,00804000";
    "o41004012,4"; "o41004013,4"; "W41004004,0000a504"; "o41004012,4"; "o41004013,4";
    "o41004010,4"; "o41004011,4" ]%string /\
  List.length (filter (String.eqb "W41004004,0000a504") (Mock.commands (snd d5x_writeOptions_run)))
  = 1%nat /\
  In (Sent "S20004034,00000010" (Some (repeat 0xff 512)) None) (snd d5x_writeOptions_run).
Proof.
  repeat split; try (vm_compute; reflexivity).
  vm_compute. do 15 right. left. reflexivity.
Qed.

(** ** The two page buffers *)

Ltac learn R S Q :=
  lazymatch type of S with
  | ?m ?w = _ =>
      let Hr := fresh "Hr" in
      assert (Hr : respects R m) by (eauto 8 with respects);
      pose proof (Hr _ _ _ _ S) as Q; clear Hr
  end.

Section Buffers.
Context {Dev : Type} `{SerialPort Dev}.
Variable g : Geometry.

Lemma setSrcAddr_log (a v : Z) (w w' : World Dev) (t : list Event) :
  WordCopyApplet.setSrcAddr a v w = (Ok tt, w', t) ->
  In (Sent (SamBA.cmd_W (a + WordCopyApplet.src_addr) v) None None) t.
Proof.
  intros E. unfold WordCopyApplet.setSrcAddr in E. run_ok E as S1.
  apply writeWord_inv in E. destruct E as [-> _]. apply in_or_app. right. left. reflexivity.
Qed.

Lemma runv_log (a : Z) (w w' : World Dev) (t : list Event) :
  WordCopyApplet.runv a w = (Ok tt, w', t) ->
  In (Sent (SamBA.cmd_G (a + WordCopyApplet.stack)) None None) t.
Proof.
  intros E. unfold WordCopyApplet.runv in E. run_ok E as S1. run_ok E as S2.
  apply go_inv in E. destruct E as [-> _].
  apply in_or_app. right. apply in_or_app. right. left. reflexivity.
Qed.

Lemma loadBuffer_log (data : list Z) (offset n : Z) (w : World Dev) :
  exists payload,
    snd (Flash.loadBuffer g data offset n w)
    = [Sent (SamBA.cmd_S (Flash.pageBuffer g (onBufferA (flash w))) n) (Some payload) None].
Proof.
  unfold Flash.loadBuffer, bind, gets, SamBA.write, bind, SamBA.sendCommand, ret.
  destruct (exchange _ _ _) as [avail d]. eexists. reflexivity.
Qed.

Lemma split_here (x : Event) (post : list Event) : x :: post = [] ++ x :: post.
Proof. reflexivity. Qed.

Lemma split_step (a rest pre : list Event) (x : Event) (post : list Event) :
  rest = pre ++ x :: post -> a ++ rest = (a ++ pre) ++ x :: post.
Proof. intros ->. now rewrite app_assoc. Qed.

Ltac split_at_flip :=
  cbn [app]; repeat first [apply split_here | eapply split_step].

Lemma d2x_flips_before_run (fuel : nat) : flips_before_run g (D2x.writePage g fuel).
Proof.
  intros page w w' t E. unfold D2x.writePage in E.
  destruct (pages g <=? page); [discriminate E |].
  run_ok E as S1. run_ok E as S2. run_ok E as S3. run_inv S3.
  run_ok E as S4. run_ok E as S5. run_ok E as S6. run_ok E as S7.
  run_ok E as S8. run_inv S8. run_ok E as S9. run_ok E as S10.
  run_ok E as S11. run_ok E as S12. run_ok E as S13. units.
  learn (@quiet Dev) S1 Q1. learn (@quiet Dev) S2 Q2. learn (@quiet Dev) S4 Q4.
  learn (@quiet Dev) S5 Q5. learn (@quiet Dev) S6 Q6. learn (@quiet Dev) S7 Q7.
  learn (@quiet Dev) S9 Q9. learn (@quiet Dev) S11 Q11. learn (@quiet Dev) S12 Q12.
  learn (@quiet Dev) S13 Q13. learn (@quiet Dev) E Q14.
  learn (@no_go Dev) S1 N1. learn (@no_go Dev) S2 N2. learn (@no_go Dev) S4 N4.
  learn (@no_go Dev) S5 N5. learn (@no_go Dev) S6 N6. learn (@no_go Dev) S7 N7.
  learn (@no_go Dev) S9 N9.
  apply flipBuffer_inv in S10. destruct S10 as (_ & -> & F & _).
  apply setSrcAddr_log in S9. apply runv_log in S12.
  unfold quiet in *. unfold no_go in *.
  destruct Q1 as [A1 B1], Q2 as [A2 B2], Q4 as [A4 B4], Q5 as [A5 B5], Q6 as [A6 B6],
           Q7 as [A7 B7], Q9 as [A9 B9], Q11 as [A11 B11], Q12 as [A12 B12],
           Q13 as [A13 B13], Q14 as [A14 B14].
  assert (E5 : onBufferA (flash w5) = onBufferA (flash w)) by congruence.
  assert (E6 : onBufferA (flash w6) = onBufferA (flash w)) by congruence.
  rewrite E5 in S9. rewrite E6 in *.
  split; [congruence |].
  eexists. eexists. split; [split_at_flip |].
  rewrite ?app_nil_r. repeat split; rewrite ?Forall_app, ?in_app_iff; tauto.
Qed.

Lemma d5x_flips_before_run (fuel : nat) : flips_before_run g (D5x.writePage g fuel).
Proof.
  intros page w w' t E. unfold D5x.writePage in E.
  destruct (pages g <=? page); [discriminate E |].
  run_ok E as S1. run_ok E as S2. run_ok E as S3. run_inv S3.
  run_ok E as S4. run_ok E as S5. run_ok E as S6. run_ok E as S7.
  run_ok E as S8. run_inv S8. run_ok E as S9. run_ok E as S9'. run_ok E as S10.
  run_ok E as S11. run_ok E as S12. run_ok E as S13. units.
  learn (@quiet Dev) S1 Q1. learn (@quiet Dev) S2 Q2. learn (@quiet Dev) S4 Q4.
  learn (@quiet Dev) S5 Q5. learn (@quiet Dev) S6 Q6. learn (@quiet Dev) S7 Q7.
  learn (@quiet Dev) S9 Q9. learn (@quiet Dev) S9' Q9'. learn (@quiet Dev) S11 Q11.
  learn (@quiet Dev) S12 Q12. learn (@quiet Dev) S13 Q13. learn (@quiet Dev) E Q14.
  learn (@no_go Dev) S1 N1. learn (@no_go Dev) S2 N2. learn (@no_go Dev) S4 N4.
  learn (@no_go Dev) S5 N5. learn (@no_go Dev) S6 N6. learn (@no_go Dev) S7 N7.
  learn (@no_go Dev) S9 N9. learn (@no_go Dev) S9' N9'.
  apply flipBuffer_inv in S10. destruct S10 as (_ & -> & F & _).
  apply setSrcAddr_log in S9. apply runv_log in S12.
  unfold quiet in *. unfold no_go in *.
  destruct Q1 as [A1 B1], Q2 as [A2 B2], Q4 as [A4 B4], Q5 as [A5 B5], Q6 as [A6 B6],
           Q7 as [A7 B7], Q9 as [A9 B9], Q9' as [A9' B9'], Q11 as [A11 B11],
           Q12 as [A12 B12], Q13 as [A13 B13], Q14 as [A14 B14].
  assert (E5 : onBufferA (flash w5) = onBufferA (flash w)) by congruence.
  assert (E7 : onBufferA (flash w7) = onBufferA (flash w)) by congruence.
  rewrite E5 in S9. rewrite E7 in *.
  split; [congruence |].
  eexists. eexists. split; [split_at_flip |].
  rewrite ?app_nil_r. repeat split; rewrite ?Forall_app, ?in_app_iff; tauto.
Qed.

End Buffers.

Lemma writePages_flips {Dev} (g : Geometry) (writePage : Z -> M Dev unit) :
  flips_before_run g writePage ->
  forall ps (w w' : World Dev) t,
    writePages writePage ps w = (Ok tt, w', t) ->
    flips t = List.length ps /\
    onBufferA (flash w') = Nat.iter (List.length ps) negb (onBufferA (flash w)).
Proof.
  intros Hwp. induction ps as [| page ps IH]; intros w w' t E; cbn [writePages] in E.
  - run_inv E. split; reflexivity.
  - run_ok E as S1. units.
    apply Hwp in S1. destruct S1 as (Eon & pre & post & -> & Fpre & _ & Fpost & _).
    apply IH in E. destruct E as [Ef Ew].
    split.
    + rewrite !flips_app. cbn [flips]. rewrite Ef.
      rewrite (flips_sent pre Fpre), (flips_sent post Fpost). reflexivity.
    + cbn [List.length]. rewrite Nat.iter_succ_r, <- Eon. exact Ew.
Qed.

(** C5.  In both drivers: a [writePage] that completes assigns
    [_onBufferA] once, negating it, after it has given the applet the
    buffer that was active as its source and before the [G] command of
    [runv]; so N calls in a row that complete leave N assignments in
    the log and the flag negated N times; and the [loadBuffer] that
    follows a call writes to the other buffer than the one that call
    gave to the applet. *)
Theorem buffer_toggle {Dev} `{SerialPort Dev} (g : Geometry) (fuel : nat)
        (writePage : Z -> M Dev unit) :
  word_aligned g ->
  writePage = D2x.writePage g fuel \/ writePage = D5x.writePage g fuel ->
  flips_before_run g writePage
  /\ (forall ps (w w' : World Dev) t,
         writePages writePage ps w = (Ok tt, w', t) ->
         flips t = List.length ps /\
         onBufferA (flash w') = Nat.iter (List.length ps) negb (onBufferA (flash w)))
  /\ (forall page (w w' : World Dev) t,
         writePage page w = (Ok tt, w', t) ->
         forall data offset n,
         exists payload,
           snd (Flash.loadBuffer g data offset n w')
           = [Sent (SamBA.cmd_S (Flash.pageBuffer g (negb (onBufferA (flash w)))) n)
                   (Some payload) None]).
Proof.
  intros _ Hwp.
  assert (F : flips_before_run g writePage)
    by (destruct Hwp as [-> | ->]; [apply d2x_flips_before_run | apply d5x_flips_before_run]).
  split; [exact F |]. split.
  - apply (writePages_flips g writePage F).
  - intros page w w' t E data offset n. apply F in E. destruct E as [<- _].
    apply loadBuffer_log.
Qed.

(** Pages 1, 2 and 3 written on the mock board by the D2x driver:
    three assignments, and the flag, true at first, ends false. *)
Lemma buffer_toggle_witness :
  word_aligned Mock.samd21 /\
  writePages (D2x.writePage Mock.samd21 1) [1; 2; 3] (Mock.world 0 Mock.fresh)
  = d2x_writePages_run /\
  fst (fst d2x_writePages_run) = Ok tt /\
  flips (snd d2x_writePages_run) = 3%nat /\
  onBufferA (flash (snd (fst d2x_writePages_run))) = false.
Proof.
  assert (A : word_aligned Mock.samd21)
    by (split; [exists 0; reflexivity | exists 16; reflexivity]).
  split; [exact A |].
  split; [vm_compute; reflexivity |]. split; [reflexivity |].
  destruct (buffer_toggle Mock.samd21 1 (D2x.writePage Mock.samd21 1) A (or_introl eq_refl))
    as (_ & N & _).
  destruct (N [1; 2; 3] (Mock.world 0 Mock.fresh)
              (snd (fst d2x_writePages_run)) (snd d2x_writePages_run)) as [Nf Nw].
  - vm_compute; reflexivity.
  - split; [exact Nf | exact Nw].
Defined.

(** ** The dirty flags of the options *)

#[global] Hint Resolve respects_d2x_writeOptions respects_d2x_writePage
  respects_d5x_writeOptions respects_d5x_writePage : respects.

Section Options.
Context {Dev : Type} `{SerialPort Dev}.

#[global] Instance same_options_stable : Stable (@same_options Dev).
Proof.
  split; unfold same_options.
  - intros w. repeat split.
  - intros w1 w2 w3 t1 t2 (A1 & A2 & A3 & A4 & A5) (B1 & B2 & B3 & B4 & B5).
    repeat split; congruence.
  - intros cmd rs data _ w r w' t E. run_inv E. rewrite Hflash. repeat split.
  - intros w. repeat split.
  - intros w. repeat split.
Qed.

Lemma same_options_go (a : Z) : respects (@same_options Dev) (SamBA.go a).
Proof.
  intros w r w' t E. unfold SamBA.go in E. run_inv E as G.
  - run_inv G. run_inv E. unfold same_options. rewrite Hflash. repeat split.
  - run_never E.
  - run_never E.
Qed.

Lemma same_options_flip : respects (@same_options Dev) Flash.flipBuffer.
Proof.
  intros w r w' t. unfold Flash.flipBuffer, bind, gets, modify, emit.
  intros [= <- <- <-]. repeat split.
Qed.

Lemma keeps_dirty_setters (g : Geometry) :
  (forall rs, respects (@keeps_dirty Dev) (Flash.setLockRegions g rs))
  /\ respects (@keeps_dirty Dev) Flash.setSecurity
  /\ (forall b, respects (@keeps_dirty Dev) (Flash.setBod b))
  /\ (forall b, respects (@keeps_dirty Dev) (Flash.setBor b))
  /\ (forall b, respects (@keeps_dirty Dev) (Flash.setBootFlash b))
  /\ (forall b, respects (@keeps_dirty Dev) (Flash.setEraseAuto b)).
Proof.
  repeat split; unfold respects; intros;
    match goal with
    | E : _ = (_, _, _) |- _ =>
        unfold Flash.setLockRegions, Flash.setSecurity, Flash.setBod, Flash.setBor,
          Flash.setBootFlash, Flash.setEraseAuto, when, Flash.canBod, Flash.canBor,
          Flash.canBootFlash in E;
        try match type of E with (if ?c then _ else _) _ = _ => destruct c end;
        run_inv E
    end;
    repeat split; cbn; unfold stays_dirty; auto.
Qed.

Lemma run_op_keeps_dirty (f : Family) (g : Geometry) (fuel : nat) (op : Op) :
  respects (@keeps_dirty Dev) (run_op f g fuel op).
Proof.
  destruct (keeps_dirty_setters g) as (L & S & Bd & Br & Bf & Ea).
  destruct op; cbn [run_op]; auto; destruct f; respects_auto.
Qed.

Lemma writeOptions_same_options (f : Family) (g : Geometry) (fuel : nat) :
  respects (@same_options Dev) (run_op f g fuel WriteOptions).
Proof.
  pose proof same_options_go. pose proof same_options_flip.
  destruct f; cbn [run_op]; eauto with respects.
Qed.

Lemma session_keeps_dirty (f : Family) (g : Geometry) (fuel : nat) (ops : list Op) (w : World Dev) :
  keeps_dirty w (session f g fuel ops w) [].
Proof.
  revert w. induction ops as [| op ops IH]; intros w; cbn [session].
  - apply st_nil.
  - destruct (run_op f g fuel op w) as [[r w1] t] eqn:E. cbn [fst snd].
    apply run_op_keeps_dirty in E.
    change (@nil Event) with (@nil Event ++ @nil Event).
    eapply st_app; [| apply IH].
    destruct E as (A1 & A2 & A3 & A4 & A5). repeat split; assumption.
Qed.

End Options.

(** C10.  In both drivers, whatever operations a session runs and
    however each of them ends, an option that is dirty stays dirty;
    [writeOptions] in particular leaves the five options as they are,
    value and dirty flag, so the next call finds them dirty again; and
    [setBod], [setBor], [setSecurity] and an accepted [setLockRegions]
    leave their option dirty. *)
Theorem dirty_never_reset {Dev} `{SerialPort Dev} (f : Family) (g : Geometry) (fuel : nat) :
  word_aligned g ->
  (forall (ops : list Op) (w : World Dev),
      let w' := session f g fuel ops w in
      stays_dirty (bod (flash w)) (bod (flash w')) /\
      stays_dirty (bor (flash w)) (bor (flash w')) /\
      stays_dirty (security (flash w)) (security (flash w')) /\
      stays_dirty (regions (flash w)) (regions (flash w')))
  /\ (forall w : World Dev,
         let w' := snd (fst (run_op f g fuel WriteOptions w)) in
         bod (flash w') = bod (flash w) /\
         bor (flash w') = bor (flash w) /\
         security (flash w') = security (flash w) /\
         regions (flash w') = regions (flash w))
  /\ (forall (w : World Dev) (b : bool),
         dirty (bod (flash (snd (fst (run_op f g fuel (SetBod b) w))))) = true /\
         dirty (bor (flash (snd (fst (run_op f g fuel (SetBor b) w))))) = true /\
         dirty (security (flash (snd (fst (run_op f g fuel SetSecurity w))))) = true)
  /\ (forall (w : World Dev) (rs : list bool),
         JS.len rs <= lockRegions g ->
         dirty (regions (flash (snd (fst (run_op f g fuel (SetLockRegions rs) w))))) = true).
Proof.
  intros _. split; [| split; [| split]].
  - intros ops w. destruct (session_keeps_dirty f g fuel ops w) as (_ & A2 & A3 & A4 & A5).
    repeat split; assumption.
  - intros w. destruct (run_op f g fuel WriteOptions w) as [[r w1] t] eqn:E. cbn [fst snd].
    apply writeOptions_same_options in E. destruct E as (_ & A2 & A3 & A4 & A5).
    repeat split; assumption.
  - intros w b. repeat split; reflexivity.
  - intros w rs Hlen. cbn [run_op]. unfold Flash.setLockRegions.
    replace (lockRegions g <? JS.len rs) with false by (symmetry; apply Z.ltb_ge; exact Hlen).
    reflexivity.
Qed.

(** Sixteen regions set on the D2x driver of the mock board. *)
Lemma dirty_never_reset_witness :
  word_aligned Mock.samd21 /\
  JS.len (repeat true 16) <= lockRegions Mock.samd21 /\
  dirty (regions (flash (snd (fst (run_op D2xFamily Mock.samd21 1
                                          (SetLockRegions (repeat true 16))
                                          (Mock.world 0 Mock.fresh)))))) = true.
Proof.
  assert (L : JS.len (repeat true 16) <= lockRegions Mock.samd21) by (vm_compute; discriminate).
  assert (A : word_aligned Mock.samd21)
    by (split; [exists 0; reflexivity | exists 16; reflexivity]).
  split; [exact A |]. split; [exact L |].
  destruct (dirty_never_reset D2xFamily Mock.samd21 1 A) as (_ & _ & _ & R).
  exact (R (Mock.world 0 Mock.fresh) (repeat true 16) L).
Defined.

(** ** The bounds of the loops are never reached *)

Lemma Qlt_bool_ceiling (z : Z) (q : Q) :
  Qceiling q <= z -> Qlt_bool (inject_Z z) q = false.
Proof.
  intros Hc. unfold Qlt_bool. apply negb_false_iff, Qle_bool_iff.
  eapply Qle_trans; [apply Qle_ceiling |]. rewrite <- Zle_Qle. exact Hc.
Qed.

Section Bounds.
Context {Dev : Type} `{SerialPort Dev}.

Lemma d2x_erase_rows_enough (n m fuel : nat) (eraseNum : Z) (eraseEnd : Q) (eraseSize : Z)
      (w : World Dev) :
  Qceiling eraseEnd - eraseNum <= Z.of_nat n ->
  D2x.erase_rows (n + m) fuel eraseNum eraseEnd eraseSize w
  = D2x.erase_rows n fuel eraseNum eraseEnd eraseSize w.
Proof.
  revert eraseNum w. induction n as [| n IH]; intros eraseNum w Hn.
  - destruct m; [reflexivity |]. cbn [Nat.add D2x.erase_rows].
    rewrite Qlt_bool_ceiling by lia. reflexivity.
  - cbn [Nat.add D2x.erase_rows]. destruct (Qlt_bool (inject_Z eraseNum) eraseEnd); [| reflexivity].
    repeat (apply bind_ext; intros). apply IH. lia.
Qed.

Lemma d5x_erase_blocks_enough (n m fuel : nat) (eraseNum : Z) (eraseEnd : Q) (eraseSize : Z)
      (w : World Dev) :
  Qceiling eraseEnd - eraseNum <= Z.of_nat n ->
  D5x.erase_blocks (n + m) fuel eraseNum eraseEnd eraseSize w
  = D5x.erase_blocks n fuel eraseNum eraseEnd eraseSize w.
Proof.
  revert eraseNum w. induction n as [| n IH]; intros eraseNum w Hn.
  - destruct m; [reflexivity |]. cbn [Nat.add D5x.erase_blocks].
    rewrite Qlt_bool_ceiling by lia. reflexivity.
  - cbn [Nat.add D5x.erase_blocks]. destruct (Qlt_bool (inject_Z eraseNum) eraseEnd); [| reflexivity].
    repeat (apply bind_ext; intros). apply IH. lia.
Qed.

Lemma read_chunks_enough (n m : nat) (a size_ start : Z) (buffer : list Z) (w : World Dev) :
  0 <= readBufferSize (samba w) -> size_ <= Z.of_nat n ->
  SamBA.read_chunks (n + m) a size_ start buffer w = SamBA.read_chunks n a size_ start buffer w.
Proof.
  revert a size_ start buffer w. induction n as [| n IH]; intros a size_ start buffer w Hr Hn.
  - rewrite !read_chunks_done by lia. reflexivity.
  - cbn [Nat.add SamBA.read_chunks]. destruct (0 <? size_) eqn:Hs; [| reflexivity].
    apply Z.ltb_lt in Hs.
    unfold bind at 1 3, gets.
    set (rbs := readBufferSize (samba w)) in *.
    set (chunk := if (0 <? rbs) && (rbs <? size_) then rbs else size_).
    assert (Hc : 1 <= chunk).
    { unfold chunk. destruct (0 <? rbs) eqn:E1; cbn [andb]; [| lia].
      apply Z.ltb_lt in E1. destruct (rbs <? size_); lia. }
    cbn [app]. unfold bind, SamBA.sendCommand.
    destruct (exchange (port w) (SamBA.cmd_R a chunk) None) as [avail d].
    destruct (if 0 <? chunk then SamBA.readBuffer avail chunk else None) as [result |];
      [| reflexivity].
    destruct (SamBA.copy_reply (Z.to_nat chunk) 0 start result buffer) as [start' buffer'].
    rewrite IH; [reflexivity | exact Hr | lia].
Qed.

End Bounds.

(** ** Laws of the monad *)

Lemma bind_ret_l {Dev A B} (a : A) (f : A -> M Dev B) (w : World Dev) :
  bind (ret a) f w = f a w.
Proof. unfold bind, ret. destruct (f a w) as [[r w2] t2]. reflexivity. Qed.

Lemma bind_assoc {Dev A B C} (m : M Dev A) (f : A -> M Dev B) (k : B -> M Dev C)
      (w : World Dev) :
  bind (bind m f) k w = bind m (fun a => bind (f a) k) w.
Proof.
  unfold bind. destruct (m w) as [[[a | e |] w1] t1]; try reflexivity.
  destruct (f a w1) as [[[b | e |] w2] t2]; try reflexivity.
  destruct (k b w2) as [[r w3] t3]. rewrite app_assoc. reflexivity.
Qed.

Lemma bind_ext_run {Dev A B} (m : M Dev A) (f f' : A -> M Dev B) (w : World Dev) :
  (forall a w1 t1, m w = (Ok a, w1, t1) -> f a w1 = f' a w1) -> bind m f w = bind m f' w.
Proof.
  intros Hf. unfold bind. destruct (m w) as [[[a | e |] w1] t1]; try reflexivity.
  rewrite (Hf a w1 t1 eq_refl). reflexivity.
Qed.

Lemma bind_gets {Dev A B} (f : World Dev -> A) (k : A -> M Dev B) (w : World Dev) :
  bind (gets f) k w = k (f w) w.
Proof. unfold bind, gets. destruct (k (f w) w) as [[r w2] t2]. reflexivity. Qed.

Lemma bind_cong_l {Dev A B} (m m' : M Dev A) (k : A -> M Dev B) (w : World Dev) :
  m w = m' w -> bind m k w = bind m' k w.
Proof. intros E. unfold bind. rewrite E. reflexivity. Qed.

(** ** The text of a number *)

Lemma pad0_length (n : nat) (s : string) :
  String.length (JS.pad0 n s) = (n + String.length s)%nat.
Proof. induction n as [| n IH]; simpl; [reflexivity | now rewrite IH]. Qed.

Lemma digits16_length (n : nat) (v : Z) (acc : string) (k : nat) :
  0 <= v < 16 ^ Z.of_nat k -> (1 <= k)%nat ->
  (String.length (JS.digits16 n v acc) <= String.length acc + k)%nat.
Proof.
  revert v acc k. induction n as [| n IH]; intros v acc k Hv Hk; cbn [JS.digits16].
  - lia.
  - destruct (v / 16 =? 0) eqn:E.
    + simpl. lia.
    + apply Z.eqb_neq in E.
      assert (Hq : 0 <= v / 16) by (apply Z.div_pos; lia).
      destruct k as [| [| k]]; [lia | |].
      * exfalso. apply E. apply Z.div_small. change (16 ^ Z.of_nat 1) with 16 in Hv. lia.
      * specialize (IH (v / 16) (String (JS.digit16 (v mod 16)) acc) (S k)).
        cbn [String.length] in IH.
        assert (v / 16 < 16 ^ Z.of_nat (S k)).
        { apply Z.div_lt_upper_bound; [lia |].
          replace (Z.of_nat (S (S k))) with (1 + Z.of_nat (S k)) in Hv by lia.
          rewrite Z.pow_add_r in Hv by lia. change (16 ^ 1) with 16 in Hv. lia. }
        specialize (IH ltac:(lia) ltac:(lia)). lia.
Qed.

Lemma digits16_grows (n : nat) (v : Z) (acc : string) :
  (String.length acc <= String.length (JS.digits16 n v acc))%nat.
Proof.
  revert v acc. induction n as [| n IH]; intros v acc; cbn [JS.digits16]; [lia |].
  destruct (v / 16 =? 0); [simpl; lia |].
  specialize (IH (v / 16) (String (JS.digit16 (v mod 16)) acc)). simpl in IH. lia.
Qed.

Lemma hex_length (v digits : Z) :
  0 <= v < 16 ^ digits -> 1 <= digits ->
  String.length (SamBA.hex v digits) = Z.to_nat digits.
Proof.
  intros Hv Hd. unfold SamBA.hex, JS.toString16.
  replace (v <? 0) with false by (symmetry; apply Z.ltb_ge; lia).
  rewrite Z.abs_eq by lia. rewrite pad0_length.
  pose proof (digits16_length (S (Z.to_nat (Z.log2 v))) v "" (Z.to_nat digits)) as L.
  rewrite Z2Nat.id in L by lia.
  assert (Hk : (1 <= Z.to_nat digits)%nat) by lia.
  specialize (L Hv Hk). cbn [String.length Nat.add] in L. lia.
Qed.

Lemma hex_fixed_width (a v : Z) :
  0 <= a < 2 ^ 32 -> 0 <= v < 2 ^ 32 ->
  String.length (SamBA.hex a 8) = 8%nat
  /\ String.length (SamBA.cmd_W a v) = 18%nat
  /\ String.length (SamBA.cmd_w a) = 11%nat
  /\ String.length (SamBA.cmd_S a v) = 18%nat.
Proof.
  intros Ha Hv.
  assert (La : String.length (SamBA.hex a 8) = 8%nat) by (apply hex_length; lia).
  assert (Lv : String.length (SamBA.hex v 8) = 8%nat) by (apply hex_length; lia).
  assert (App : forall s1 s2, String.length (s1 ++ s2)%string
                              = (String.length s1 + String.length s2)%nat).
  { induction s1; intros; simpl; [reflexivity | now rewrite IHs1]. }
  unfold SamBA.cmd_W, SamBA.cmd_w, SamBA.cmd_S.
  rewrite !App, La, Lv. repeat split; reflexivity.
Qed.

(** ** The word of a reply *)

Lemma lor_disjoint (hi lo n : Z) :
  0 <= n -> 0 <= lo < 2 ^ n -> Z.lor (hi * 2 ^ n) lo = hi * 2 ^ n + lo.
Proof.
  intros Hn Hlo.
  assert (D : Z.land (hi * 2 ^ n) lo = 0).
  { apply Z.bits_inj'. intros m Hm. rewrite Z.land_spec, Z.bits_0.
    destruct (Z.lt_ge_cases m n) as [L | L].
    - rewrite Z.mul_pow2_bits_low by lia. reflexivity.
    - destruct (Z.eq_dec lo 0) as [-> | N]; [rewrite Z.bits_0; apply andb_false_r |].
      rewrite (Z.bits_above_log2 lo m); [apply andb_false_r | lia |].
      apply Z.log2_lt_pow2; [lia |].
      apply Z.lt_le_trans with (2 ^ n); [lia |]. apply Z.pow_le_mono_r; lia. }
  rewrite <- Z.lxor_lor by exact D. symmetry. apply Z.add_nocarry_lxor. exact D.
Qed.

Lemma shl_byte (b n : Z) :
  0 <= b < 256 -> 0 <= n <= 16 -> JS.shl b n = b * 2 ^ n.
Proof.
  intros Hb Hn. unfold JS.shl.
  rewrite (to_int32_small b) by lia.
  rewrite Z.mod_small by lia. rewrite Z.shiftl_mul_pow2 by lia.
  assert (0 < 2 ^ n) by (apply Z.pow_pos_nonneg; lia).
  assert (2 ^ n <= 2 ^ 16) by (apply Z.pow_le_mono_r; lia).
  apply to_int32_small. nia.
Qed.

Lemma word_of_bytes (b0 b1 b2 b3 : Z) :
  0 <= b0 < 256 -> 0 <= b1 < 256 -> 0 <= b2 < 256 -> 0 <= b3 < 256 ->
  SamBA.word_of [b0; b1; b2; b3]
  = JS.to_int32 (b0 + 256 * b1 + 65536 * b2 + 16777216 * b3).
Proof.
  intros H0 H1 H2 H3. unfold SamBA.word_of.
  pose proof (eq_refl : 2 ^ 8 = 256) as P8.
  pose proof (eq_refl : 2 ^ 16 = 65536) as P16.
  pose proof (eq_refl : 2 ^ 24 = 16777216) as P24.
  pose proof (eq_refl : 2 ^ 31 = 2147483648) as P31.
  pose proof (eq_refl : 2 ^ 32 = 4294967296) as P32.
  change (JS.get [b0; b1; b2; b3] 3) with b3.
  change (JS.get [b0; b1; b2; b3] 2) with b2.
  change (JS.get [b0; b1; b2; b3] 1) with b1.
  change (JS.get [b0; b1; b2; b3] 0) with b0.
  rewrite (shl_byte b2 16), (shl_byte b1 8), (shl_byte b0 0) by lia.
  set (s := if b3 <? 128 then b3 else b3 - 256).
  assert (Hs : -128 <= s < 128) by (unfold s; destruct (b3 <? 128) eqn:E;
    [apply Z.ltb_lt in E | apply Z.ltb_ge in E]; lia).
  assert (E3 : JS.shl b3 24 = s * 2 ^ 24).
  { unfold JS.shl. rewrite (to_int32_small b3) by lia.
    change (24 mod 32) with 24. rewrite Z.shiftl_mul_pow2 by lia.
    unfold JS.to_int32, s. destruct (b3 <? 128) eqn:E;
      [apply Z.ltb_lt in E | apply Z.ltb_ge in E].
    - rewrite Z.mod_small by lia. lia.
    - replace (b3 * 2 ^ 24 + 2 ^ 31) with ((b3 * 2 ^ 24 - 2 ^ 31) + 1 * 2 ^ 32) by lia.
      rewrite Z_mod_plus_full, Z.mod_small by lia. lia. }
  rewrite E3. change (2 ^ 0) with 1. rewrite Z.mul_1_r.
  unfold JS.or.
  rewrite (to_int32_small (s * 2 ^ 24)), (to_int32_small (b2 * 2 ^ 16)) by lia.
  rewrite (lor_disjoint s (b2 * 2 ^ 16) 24) by lia.
  rewrite (to_int32_small (s * 2 ^ 24 + b2 * 2 ^ 16)), (to_int32_small (b1 * 2 ^ 8)) by lia.
  replace (s * 2 ^ 24 + b2 * 2 ^ 16) with ((s * 2 ^ 8 + b2) * 2 ^ 16) by lia.
  rewrite (lor_disjoint _ (b1 * 2 ^ 8) 16) by lia.
  rewrite (to_int32_small ((s * 2 ^ 8 + b2) * 2 ^ 16 + b1 * 2 ^ 8)), (to_int32_small b0) by lia.
  replace ((s * 2 ^ 8 + b2) * 2 ^ 16 + b1 * 2 ^ 8)
    with ((s * 2 ^ 16 + b2 * 2 ^ 8 + b1) * 2 ^ 8) by lia.
  rewrite (lor_disjoint _ b0 8) by lia.
  unfold JS.to_int32, s. destruct (b3 <? 128) eqn:E;
    [apply Z.ltb_lt in E | apply Z.ltb_ge in E].
  - rewrite Z.mod_small by lia. lia.
  - replace (b0 + 256 * b1 + 65536 * b2 + 16777216 * b3 + 2 ^ 31)
      with ((b0 + 256 * b1 + 65536 * b2 + 16777216 * b3 - 2 ^ 31) + 1 * 2 ^ 32) by lia.
    rewrite Z_mod_plus_full, Z.mod_small by lia. lia.
Qed.

(** ** readBuffer *)

Lemma collect_prefix (avail reply : list Z) (n : Z) :
  exists rest, reply ++ map (fun c => c mod 256) avail = SamBA.collect avail reply n ++ rest.
Proof.
  revert reply. induction avail as [| c avail IH]; intros reply; cbn [SamBA.collect map].
  - exists []. reflexivity.
  - destruct ((1 <? JS.len (reply ++ [c mod 256])) && (c mod 256 =? 0)).
    + exists (map (fun c => c mod 256) avail). now rewrite <- app_assoc.
    + destruct (JS.truthy n && (JS.len (reply ++ [c mod 256]) =? n)).
      * exists (map (fun c => c mod 256) avail). now rewrite <- app_assoc.
      * destruct (IH (reply ++ [c mod 256])) as [rest E]. exists rest.
        rewrite <- E, <- app_assoc. reflexivity.
Qed.

Lemma collect_bound (avail reply : list Z) (n : Z) :
  0 < n -> JS.len reply < n -> JS.len (SamBA.collect avail reply n) <= n.
Proof.
  intros Hn. revert reply. induction avail as [| c avail IH]; intros reply Hr; cbn [SamBA.collect].
  - lia.
  - assert (L : JS.len (reply ++ [c mod 256]) = JS.len reply + 1).
    { unfold JS.len. rewrite length_app. simpl. lia. }
    destruct ((1 <? JS.len (reply ++ [c mod 256])) && (c mod 256 =? 0)); [lia |].
    unfold JS.truthy. replace (n =? 0) with false by (symmetry; apply Z.eqb_neq; lia).
    cbn [negb andb].
    destruct (JS.len (reply ++ [c mod 256]) =? n) eqn:E; [lia |].
    apply Z.eqb_neq in E. apply IH. lia.
Qed.

Lemma collect_grows (avail reply : list Z) (n : Z) :
  JS.len reply <= JS.len (SamBA.collect avail reply n).
Proof.
  revert reply. induction avail as [| c avail IH]; intros reply; cbn [SamBA.collect]; [lia |].
  assert (L : JS.len (reply ++ [c mod 256]) = JS.len reply + 1).
  { unfold JS.len. rewrite length_app. simpl. lia. }
  destruct ((1 <? JS.len (reply ++ [c mod 256])) && (c mod 256 =? 0)); [lia |].
  destruct (JS.truthy n && (JS.len (reply ++ [c mod 256]) =? n)); [lia |].
  specialize (IH (reply ++ [c mod 256])). lia.
Qed.

(** X1. [readBuffer] returns nothing exactly when no
    byte has arrived.  A reply that it returns is not empty, is a
    prefix of the bytes that arrived, each taken modulo 256, and is no
    longer than the response size that was asked for. *)
Theorem readBuffer_reply (avail : list Z) (responseSize : Z) :
  (SamBA.readBuffer avail responseSize = None <-> avail = [])
  /\ (forall reply, SamBA.readBuffer avail responseSize = Some reply ->
        reply <> []
        /\ (exists rest, map (fun c => c mod 256) avail = reply ++ rest)
        /\ (0 < responseSize -> JS.len reply <= responseSize)).
Proof.
  unfold SamBA.readBuffer. split.
  - split.
    + destruct avail as [| c avail]; [reflexivity |].
      pose proof (collect_grows avail [c mod 256] responseSize) as G.
      cbn [SamBA.collect app].
      destruct ((1 <? JS.len [c mod 256]) && (c mod 256 =? 0)); [discriminate |].
      destruct (JS.truthy responseSize && (JS.len [c mod 256] =? responseSize)); [discriminate |].
      destruct (SamBA.collect avail [c mod 256] responseSize); [| discriminate].
      unfold JS.len in G. simpl in G. lia.
    + intros ->. reflexivity.
  - intros reply E.
    destruct (collect_prefix avail [] responseSize) as [rest P].
    pose proof (collect_bound avail [] responseSize) as B.
    destruct (SamBA.collect avail [] responseSize) as [| x l] eqn:C; [discriminate |].
    injection E as <-. split; [discriminate |]. split.
    + exists rest. exact P.
    + intros Hn. apply B; [exact Hn | unfold JS.len; simpl; lia].
Qed.

Lemma collect_zero_cut (pre rest reply : list Z) (n : Z) :
  (1 <= List.length reply + List.length pre)%nat ->
  SamBA.collect (pre ++ 0 :: rest) reply n = SamBA.collect (pre ++ [0]) reply n.
Proof.
  revert reply. induction pre as [| c pre IH]; intros reply Hl; cbn [app SamBA.collect].
  - assert (L : (1 <? JS.len (reply ++ [0 mod 256])) = true).
    { apply Z.ltb_lt. unfold JS.len. rewrite length_app. simpl in *. lia. }
    rewrite L. reflexivity.
  - destruct ((1 <? JS.len (reply ++ [c mod 256])) && (c mod 256 =? 0)); [reflexivity |].
    destruct (JS.truthy n && (JS.len (reply ++ [c mod 256]) =? n)); [reflexivity |].
    apply IH. rewrite length_app. simpl. lia.
Qed.

Lemma word_of_two (b0 : Z) : 0 <= b0 < 256 -> SamBA.word_of [b0; 0] = b0.
Proof.
  intros Hb. unfold SamBA.word_of.
  change (JS.get [b0; 0] 3) with 0. change (JS.get [b0; 0] 2) with 0.
  change (JS.get [b0; 0] 1) with 0. change (JS.get [b0; 0] 0) with b0.
  change (JS.shl 0 24) with 0. change (JS.shl 0 16) with 0. change (JS.shl 0 8) with 0.
  change (JS.or (JS.or 0 0) 0) with 0.
  unfold JS.shl, JS.or. rewrite (to_int32_small b0) by lia.
  change (0 mod 32) with 0. rewrite Z.shiftl_0_r, !(to_int32_small b0) by lia.
  reflexivity.
Qed.

(** X2. [readBuffer] stops at the first zero byte
    that is not the first byte of the reply: what arrives after it is
    not looked at.  So [readWord] on a reply whose second byte is zero
    returns the first byte alone, whatever the third and fourth bytes
    are. *)
Theorem readBuffer_zero_cut {Dev} `{SerialPort Dev} :
  (forall pre rest n, pre <> [] ->
     SamBA.readBuffer (pre ++ 0 :: rest) n = SamBA.readBuffer (pre ++ [0]) n)
  /\ (forall (w : World Dev) a b0 rest d,
        exchange (port w) (SamBA.cmd_w a) None = (b0 :: 0 :: rest, d) ->
        SamBA.readWord a w
        = (Ok (b0 mod 256), set_port w d, [Sent (SamBA.cmd_w a) None (Some [b0 mod 256; 0])])).
Proof.
  split.
  - intros pre rest n Hp. unfold SamBA.readBuffer. rewrite collect_zero_cut; [reflexivity |].
    destruct pre; [contradiction | simpl; lia].
  - intros w a b0 rest d E. unfold SamBA.readWord, bind, SamBA.sendCommand. rewrite E.
    cbn [Z.ltb Z.compare]. unfold SamBA.readBuffer.
    change (b0 :: 0 :: rest) with ([b0] ++ 0 :: rest).
    rewrite collect_zero_cut by (simpl; lia).
    assert (C : SamBA.collect ([b0] ++ [0]) [] 4 = [b0 mod 256; 0]) by reflexivity.
    rewrite C. unfold ret. cbn [app].
    rewrite word_of_two by (apply Z.mod_pos_bound; lia). reflexivity.
Qed.

Lemma readBuffer_zero_cut_witness :
  SamBA.readWord (H := Scripted.port) 0x41002018
                 (Scripted.world Scripted.samd21j18_rev_a SamBA.new)
  = (Ok 0, Scripted.world Scripted.samd21j18_rev_a SamBA.new,
     [Sent (SamBA.cmd_w 0x41002018) None (Some [0; 0])]).
Proof.
  destruct (@readBuffer_zero_cut Scripted.Script Scripted.port) as [_ Q].
  exact (Q (Scripted.world Scripted.samd21j18_rev_a SamBA.new) 0x41002018 0 [0x01; 0x10]
           Scripted.samd21j18_rev_a eq_refl).
Defined.

(** X3. [readWord] sends [w] with the address
    and puts the four bytes of the reply together with the first byte
    as the least significant one, as a signed number of 32 bits,
    provided the second and the third byte are not zero. *)
Theorem readWord_little_endian {Dev} `{SerialPort Dev}
        (w : World Dev) (a b0 b1 b2 b3 : Z) (rest : list Z) (d : Dev) :
  0 <= b0 < 256 -> 0 < b1 < 256 -> 0 < b2 < 256 -> 0 <= b3 < 256 ->
  exchange (port w) (SamBA.cmd_w a) None = (b0 :: b1 :: b2 :: b3 :: rest, d) ->
  SamBA.readWord a w
  = (Ok (JS.to_int32 (b0 + 256 * b1 + 65536 * b2 + 16777216 * b3)), set_port w d,
     [Sent (SamBA.cmd_w a) None (Some [b0; b1; b2; b3])]).
Proof.
  intros H0 H1 H2 H3 E. unfold SamBA.readWord, bind, SamBA.sendCommand. rewrite E.
  cbn [Z.ltb Z.compare]. unfold SamBA.readBuffer.
  assert (C : SamBA.collect (b0 :: b1 :: b2 :: b3 :: rest) [] 4 = [b0; b1; b2; b3]).
  { cbn [SamBA.collect app].
    rewrite !Z.mod_small by lia.
    change (JS.len [b0]) with 1. change (JS.len [b0; b1]) with 2.
    change (JS.len [b0; b1; b2]) with 3. change (JS.len [b0; b1; b2; b3]) with 4.
    replace (b1 =? 0) with false by (symmetry; apply Z.eqb_neq; lia).
    replace (b2 =? 0) with false by (symmetry; apply Z.eqb_neq; lia).
    cbn. destruct (b3 =? 0); reflexivity. }
  rewrite C. unfold ret. cbn [app].
  rewrite word_of_bytes by lia. reflexivity.
Qed.

Lemma readWord_little_endian_witness :
  SamBA.readWord (H := Scripted.port) 0xe000ed00 (Scripted.world Scripted.samd21j18 SamBA.new)
  = (Ok 0x410cc601, Scripted.world Scripted.samd21j18 SamBA.new,
     [Sent (SamBA.cmd_w 0xe000ed00) None (Some [0x01; 0xc6; 0x0c; 0x41])]).
Proof.
  apply (@readWord_little_endian Scripted.Script Scripted.port
           (Scripted.world Scripted.samd21j18 SamBA.new) 0xe000ed00 0x01 0xc6 0x0c 0x41 []
           Scripted.samd21j18); try lia.
  reflexivity.
Defined.

(** ** Where [read] stores what it reads *)

Lemma nth_set_nth_other (a : list Z) (i j : nat) (v : Z) :
  i <> j -> nth j (JS.set_nth i a v) 0 = nth j a 0.
Proof.
  revert i j. induction a as [| x a IH]; intros i j Hij.
  - destruct i; reflexivity.
  - destruct i as [| i], j as [| j]; simpl; try reflexivity; try lia.
    apply IH. lia.
Qed.

Lemma get_set_other (a : list Z) (i j v : Z) :
  i <> j -> JS.get (JS.set a i v) j = JS.get a j.
Proof.
  intros Hij. unfold JS.get. rewrite len_set. unfold JS.set.
  destruct ((0 <=? i) && (i <? JS.len a)) eqn:Ei; [| reflexivity].
  destruct ((0 <=? j) && (j <? JS.len a)) eqn:Ej; [| reflexivity].
  apply andb_true_iff in Ei, Ej. destruct Ei as [Ei _], Ej as [Ej _].
  apply Z.leb_le in Ei, Ej. apply nth_set_nth_other. lia.
Qed.

Lemma copy_reply_spec (n : nat) (i start : Z) (result buffer : list Z) :
  fst (SamBA.copy_reply n i start result buffer) = start + Z.of_nat n
  /\ JS.len (snd (SamBA.copy_reply n i start result buffer)) = JS.len buffer
  /\ forall j, j < start \/ start + Z.of_nat n <= j ->
               JS.get (snd (SamBA.copy_reply n i start result buffer)) j = JS.get buffer j.
Proof.
  revert i start buffer. induction n as [| n IH]; intros i start buffer; cbn [SamBA.copy_reply].
  - cbn [fst snd]. split; [lia |]. split; reflexivity.
  - destruct (IH (i + 1) (start + 1) (JS.set buffer start (JS.get result i))) as (A & B & C).
    rewrite A, B, len_set. split; [lia |]. split; [reflexivity |].
    intros j Hj. rewrite C by lia. apply get_set_other. lia.
Qed.

Section ReadStores.
Context {Dev : Type} `{SerialPort Dev}.

Lemma read_chunks_below (n : nat) (a size_ start : Z) (buffer : list Z) (w : World Dev)
      (b' : list Z) (w' : World Dev) (t : list Event) :
  0 <= readBufferSize (samba w) ->
  SamBA.read_chunks n a size_ start buffer w = (Ok b', w', t) ->
  JS.len b' = JS.len buffer /\ forall j, j < start -> JS.get b' j = JS.get buffer j.
Proof.
  revert a size_ start buffer w t.
  induction n as [| n IH]; intros a size_ start buffer w t Hr E; cbn [SamBA.read_chunks] in E.
  - run_inv E. auto.
  - destruct (0 <? size_) eqn:Hs; [| run_inv E; auto]. apply Z.ltb_lt in Hs.
    run_step E as E0.
    set (rbs := readBufferSize (samba w)) in *.
    set (chunk := if (0 <? rbs) && (rbs <? size_) then rbs else size_) in *.
    assert (Hc : 0 < chunk).
    { unfold chunk. destruct (0 <? rbs) eqn:E1; cbn [andb]; [| lia].
      apply Z.ltb_lt in E1. destruct (rbs <? size_); lia. }
    run_step E as E0.
    destruct reply as [result |]; [| run_inv E].
    pose proof (copy_reply_spec (Z.to_nat chunk) 0 start result buffer) as (A & B & C).
    destruct (SamBA.copy_reply (Z.to_nat chunk) 0 start result buffer) as [start' buffer'].
    cbn [fst snd] in A, B, C.
    apply IH in E; [| rewrite Hsamba; exact Hr].
    destruct E as [L G]. split; [congruence |].
    intros j Hj. rewrite G by lia. apply C. lia.
Qed.

End ReadStores.

(** X4. With a limit on the size of
    a read, [read] advances by two chunks after each chunk it stores:
    a read that completes returns a buffer as long as the one it was
    given, whose bytes from [readBufferSize] up to twice
    [readBufferSize] are the ones that were there before. *)
Theorem read_leaves_second_chunk_unwritten {Dev} `{SerialPort Dev}
        (w : World Dev) (a size_ : Z) (buffer b' : list Z) (w' : World Dev) (t : list Event) :
  0 < readBufferSize (samba w) ->
  SamBA.read a buffer size_ w = (Ok b', w', t) ->
  JS.len b' = JS.len buffer
  /\ forall j, readBufferSize (samba w) <= j < 2 * readBufferSize (samba w) ->
               JS.get b' j = JS.get buffer j.
Proof.
  intros Hr E. unfold SamBA.read in E. run_step E as E0.
  replace (readBufferSize (samba w) =? 0) with false in E by (symmetry; apply Z.eqb_neq; lia).
  cbn [andb] in E.
  destruct (Z.to_nat size_) as [| n] eqn:En; cbn [SamBA.read_chunks] in E.
  - run_inv E. auto.
  - destruct (0 <? size_) eqn:Hs; [| run_inv E; auto]. apply Z.ltb_lt in Hs.
    run_step E as E0.
    set (rbs := readBufferSize (samba w)) in *.
    run_step E as E0.
    destruct reply as [result |]; [| run_inv E].
    match type of E with
    | context [SamBA.copy_reply ?k 0 0 result buffer] =>
        pose proof (copy_reply_spec k 0 0 result buffer) as (A & B & C);
        destruct (SamBA.copy_reply k 0 0 result buffer) as [start' buffer']
    end.
    cbn [fst snd] in A, B, C.
    destruct (rbs <? size_) eqn:Hlt;
      replace (0 <? rbs) with true in * by (symmetry; apply Z.ltb_lt; exact Hr);
      cbn [andb] in *; [apply Z.ltb_lt in Hlt | apply Z.ltb_ge in Hlt].
    + apply read_chunks_below in E; [| rewrite Hsamba; fold rbs; lia].
      destruct E as [L G]. split; [congruence |].
      intros j Hj. rewrite G by lia. apply C. lia.
    + rewrite Z.sub_diag, read_chunks_done in E by lia. injection E as <- _ _.
      split; [exact B |]. intros j Hj. apply C. lia.
Qed.

Lemma read_leaves_second_chunk_unwritten_witness :
  SamBA.read 0x2000 (repeat 0 128%nat) 128 connected = read128_run
  /\ exists b', fst (fst read128_run) = Ok b'
                /\ JS.len b' = 128
                /\ forall j, 63 <= j < 126 -> JS.get b' j = JS.get (repeat 0 128%nat) j.
Proof.
  split; [vm_compute; reflexivity |].
  pose (b' := match fst (fst read128_run) with Ok b => b | _ => [] end).
  exists b'. split; [reflexivity |].
  apply (read_leaves_second_chunk_unwritten connected 0x2000 128 (repeat 0 128%nat) b'
           (snd (fst read128_run)) (snd read128_run)).
  - reflexivity.
  - vm_compute; reflexivity.
Defined.

(** ** eraseAll on a board that can erase the chip *)

(** X5. On a board that can erase the chip,
    [eraseAll] of either driver sends the one command [X] with the
    offset in eight digits and nothing else; it completes exactly when
    the reply starts with the byte [0x58], and throws the [SamBAError]
    of [chipErase] otherwise. *)
Theorem eraseAll_chip_erase {Dev} `{SerialPort Dev} (f : Family) (g : Geometry) (fuel : nat)
        (offset : Z) (w : World Dev) r w' t :
  canChipErase (samba w) = true ->
  run_op f g fuel (EraseAll offset) w = (r, w', t) ->
  exists reply,
    t = [Sent ("X" ++ SamBA.hex offset 8)%string None reply]
    /\ (r = Ok tt <-> exists result, reply = Some result /\ JS.get result 0 = 0x58)
    /\ (r <> Ok tt -> r = Throw (SamBAError "Board response for 'X' command wrong")).
Proof.
  intros Hc E.
  assert (E' : SamBA.chipErase offset w = (r, w', t)).
  { destruct f; cbn [run_op] in E; unfold D2x.eraseAll, D5x.eraseAll in E;
      unfold bind at 1 in E; unfold gets in E; rewrite Hc in E; cbn [app] in E;
      destruct (SamBA.chipErase offset w) as [[[] ?] ?]; exact E. }
  clear E. unfold SamBA.chipErase in E'. run_step E' as E0. rewrite Hc in E'. cbn [negb] in E'.
  run_step E' as E0. exists reply.
  destruct reply as [result |].
  - destruct (JS.get result 0 =? 88) eqn:Eq; run_inv E'.
    + apply Z.eqb_eq in Eq. split; [reflexivity |]. split; [| congruence].
      split; [intros _; exists result; auto | reflexivity].
    + apply Z.eqb_neq in Eq. split; [reflexivity |]. split; [| reflexivity].
      split; [discriminate | intros (result' & [= <-] & Q); contradiction].
  - run_inv E'. split; [reflexivity |]. split; [| reflexivity].
    split; [discriminate | intros (result' & Q & _); discriminate].
Qed.

Lemma eraseAll_chip_erase_witness :
  canChipErase (samba connected) = true
  /\ run_op D2xFamily Mock.samd21 1 (EraseAll 0x2000) connected = eraseAll_run
  /\ exists reply, snd eraseAll_run = [Sent "X00002000" None reply].
Proof.
  split; [reflexivity |]. split; [vm_compute; reflexivity |].
  destruct (eraseAll_chip_erase D2xFamily Mock.samd21 1 0x2000 connected
              (fst (fst eraseAll_run)) (snd (fst eraseAll_run)) (snd eraseAll_run))
    as (reply & Et & _).
  - reflexivity.
  - vm_compute; reflexivity.
  - exists reply. exact Et.
Defined.

(** ** writeBuffer *)

(** X6. [writeBuffer] of a flash asks the client
    to copy from the page buffer in use to the address of the flash
    plus [dst_addr].  Without the capability to write buffers, or for
    more than 4096 bytes, the client throws before anything is sent.
    Otherwise it sends [Y] with the source and [0], and only when the
    reply starts with [Y] a second [Y] with the destination and the
    size; the call completes exactly when both replies start with
    [Y]. *)
Theorem writeBuffer_protocol {Dev} `{SerialPort Dev} (g : Geometry) (dst_addr size_ : Z)
        (w : World Dev) r (w' : World Dev) (t : list Event) :
  Flash.writeBuffer g dst_addr size_ w = (r, w', t) ->
  (canWriteBuffer (samba w) = false ->
   r = Throw (SamBAError "Cannot write buffer") /\ t = [])
  /\ (canWriteBuffer (samba w) = true -> 4096 < size_ ->
      r = Throw (SamBAError "Size too large for checksum buffer") /\ t = [])
  /\ (canWriteBuffer (samba w) = true -> size_ <= 4096 ->
      exists reply1,
        let first := Sent ("Y" ++ SamBA.hex (Flash.pageBuffer g (onBufferA (flash w))) 8 ++ ",0")
                          None reply1 in
        (~ answers 0x59 reply1 /\ t = [first]
         /\ r = Throw (SamBAError "Board response for 'Y' command wrong"))
        \/ (answers 0x59 reply1
            /\ exists reply2,
                t = [first;
                     Sent ("Y" ++ SamBA.hex (dst_addr + addr g) 8 ++ "," ++ SamBA.hex size_ 8)
                          None reply2]
                /\ (answers 0x59 reply2 -> r = Ok tt)
                /\ (~ answers 0x59 reply2 ->
                    r = Throw (SamBAError "Board response for 'Y' command wrong")))).
Proof.
  intros E. unfold Flash.writeBuffer in E. run_step E as S0.
  unfold SamBA.writeBuffer in E. run_step E as S1.
  destruct (canWriteBuffer (samba w)) eqn:Hc; cbn [negb] in E.
  2:{ run_inv E. split; [auto |]. split; intros; discriminate. }
  unfold SamBA.checksumBufferSize in E.
  destruct (4096 <? size_) eqn:Hs.
  { run_inv E. apply Z.ltb_lt in Hs. split; [intros; discriminate |].
    split; [auto | intros; lia]. }
  apply Z.ltb_ge in Hs.
  split; [intros; discriminate |]. split; [intros; lia |]. intros _ _.
  run_inv E as S2; [| run_never E | run_never E].
  apply sendCommand_inv in S2. destruct S2 as (reply1 & [= <-] & -> & Hs1 & _ & Hf1).
  exists reply1. cbv zeta. destruct reply1 as [result1 |].
  2:{ run_inv E. left. split; [intros (x & Q & _); discriminate Q | auto]. }
  destruct (JS.get result1 0 =? 0x59) eqn:H1.
  2:{ run_inv E. left. apply Z.eqb_neq in H1.
      split; [intros (x & [= <-] & Q); contradiction | auto]. }
  apply Z.eqb_eq in H1. right. split; [exists result1; auto |].
  run_inv E as S3; [| run_never E | run_never E].
  apply sendCommand_inv in S3. destruct S3 as (reply2 & [= <-] & -> & _).
  exists reply2. destruct reply2 as [result2 |].
  2:{ run_inv E. split; [reflexivity |].
      split; [intros (x & Q & _); discriminate Q | auto]. }
  destruct (JS.get result2 0 =? 0x59) eqn:H2.
  - run_inv E. apply Z.eqb_eq in H2. split; [reflexivity |].
    split; [auto | intros N; exfalso; apply N; exists result2; auto].
  - run_inv E. apply Z.eqb_neq in H2. split; [reflexivity |].
    split; [intros (x & [= <-] & Q); contradiction | auto].
Qed.

Lemma writeBuffer_protocol_witness :
  Flash.writeBuffer (H := Loader.port) Mock.samd21 0x2000 128 connected = writeBuffer_run
  /\ fst (fst writeBuffer_run) = Ok tt
  /\ Mock.commands (snd writeBuffer_run) = ["Y20004034,0"; "Y00002000,00000080"].
Proof.
  split; [vm_compute; reflexivity |]. split; [reflexivity |].
  destruct (@writeBuffer_protocol nat Loader.port Mock.samd21 0x2000 128 connected
              (fst (fst writeBuffer_run)) (snd (fst writeBuffer_run)) (snd writeBuffer_run))
    as (_ & _ & P).
  - vm_compute; reflexivity.
  - destruct (P eq_refl ltac:(lia)) as (reply1 & [(_ & Et & _) | (_ & reply2 & Et & _)]).
    + apply (f_equal (@List.length Event)) in Et. vm_compute in Et. discriminate Et.
    + rewrite Et. reflexivity.
Defined.

(** X7. [writeBuffer] of a driver with the
    auto-erase switch off is [writeBuffer] of the flash.  With the
    switch on, the D2x driver erases first whatever the address, so
    that an address that is not a multiple of four pages ends the call
    with [FlashEraseError] before anything is sent; the D5x driver
    erases only at a multiple of sixteen pages and writes without
    erasing at every other address. *)
Theorem writeBuffer_auto_erase {Dev} `{SerialPort Dev} (g : Geometry) (fuel : nat)
        (dst_addr size_ : Z) (w : World Dev) :
  (eraseAuto (flash w) = false ->
   D2x.writeBuffer g fuel dst_addr size_ w = Flash.writeBuffer g dst_addr size_ w
   /\ D5x.writeBuffer g fuel dst_addr size_ w = Flash.writeBuffer g dst_addr size_ w)
  /\ (eraseAuto (flash w) = true -> size g <> 0 ->
      (Z.rem dst_addr (size g * 4) <> 0 ->
       D2x.writeBuffer g fuel dst_addr size_ w = (Throw FlashEraseError, w, []))
      /\ (Z.rem dst_addr (size g * 16) <> 0 ->
          D5x.writeBuffer g fuel dst_addr size_ w = Flash.writeBuffer g dst_addr size_ w)).
Proof.
  split.
  - intros Ha. unfold D2x.writeBuffer, D5x.writeBuffer.
    rewrite !bind_gets, Ha. cbn [andb]. unfold when. rewrite !bind_ret_l. split; reflexivity.
  - intros Ha Hs. split.
    + intros Hr. unfold D2x.writeBuffer. rewrite bind_gets, Ha. unfold when.
      destruct (erase_guard g fuel dst_addr size_ w) as [G _].
      destruct G as [G _]; [unfold D2x.ERASE_ROW_PAGES; lia |].
      unfold bind at 1. rewrite G; [reflexivity |]. left. exact Hr.
    + intros Hr. unfold D5x.writeBuffer. rewrite bind_gets, Ha.
      unfold D5x.ERASE_BLOCK_PAGES.
      replace (Z.rem dst_addr (size g * 16) =? 0) with false
        by (symmetry; apply Z.eqb_neq; exact Hr).
      rewrite andb_false_r. unfold when. rewrite bind_ret_l. reflexivity.
Qed.

Lemma writeBuffer_auto_erase_witness :
  D2x.writeBuffer Mock.samd21 1 0x40 64 connected = (Throw FlashEraseError, connected, []).
Proof.
  destruct (writeBuffer_auto_erase Mock.samd21 1 0x40 64 connected) as [_ A].
  destruct A as [A _]; [reflexivity | vm_compute; discriminate |].
  apply A. vm_compute. discriminate.
Defined.

(** ** The constructor of [Flash] *)

Lemma pow2_test_spec (n : Z) :
  0 <= n < 2 ^ 31 -> Flash.pow2_test n = true <-> pow2_or_zero n.
Proof.
  intros Hn. unfold Flash.pow2_test, pow2_or_zero. split.
  - intros E. apply Z.eqb_eq in E.
    destruct (Z.eq_dec n 0) as [-> | N]; [left; reflexivity | right].
    unfold JS.and in E. rewrite !to_int32_small in E by lia.
    apply land_pred_pow2; [lia | exact E].
  - intros [-> | (k & Hk & ->)]; [reflexivity |].
    apply Z.eqb_eq. apply and_pow2_pred. exact Hk.
Qed.

(** X8. The constructor of [Flash] either throws
    [FlashConfigError] or starts with the same state for every
    geometry.  For sizes below 2^31 it throws unless the page size, the
    number of pages and the number of lock regions are each a power of
    two or zero; zero passes the test. *)
Theorem flash_new_accepts (g : Geometry) :
  0 <= size g < 2 ^ 31 -> 0 <= pages g < 2 ^ 31 -> 0 <= lockRegions g < 2 ^ 31 ->
  (Flash.new g = inl FlashConfigError
   \/ Flash.new g = inr (mkFlash true false true
                                 (FlashOption.new true) (FlashOption.new true)
                                 (FlashOption.new true) (FlashOption.new true)
                                 (FlashOption.new [])))
  /\ (Flash.new g <> inl FlashConfigError
      <-> pow2_or_zero (size g) /\ pow2_or_zero (pages g) /\ pow2_or_zero (lockRegions g)).
Proof.
  intros Hs Hp Hl.
  pose proof (pow2_test_spec (size g) Hs) as Ts.
  pose proof (pow2_test_spec (pages g) Hp) as Tp.
  pose proof (pow2_test_spec (lockRegions g) Hl) as Tl.
  unfold Flash.new.
  destruct (Flash.pow2_test (size g)); cbn [negb].
  - destruct (Flash.pow2_test (pages g)); cbn [negb].
    + destruct (Flash.pow2_test (lockRegions g)); cbn [negb].
      * split; [right; reflexivity |]. split; [intros _ | discriminate].
        repeat split; [apply Ts | apply Tp | apply Tl]; reflexivity.
      * split; [left; reflexivity |]. split; [congruence |].
        intros (_ & _ & C). apply Tl in C. discriminate.
    + split; [left; reflexivity |]. split; [congruence |].
      intros (_ & C & _). apply Tp in C. discriminate.
  - split; [left; reflexivity |]. split; [congruence |].
    intros (C & _ & _). apply Ts in C. discriminate.
Qed.

Lemma flash_new_accepts_witness :
  Flash.new Mock.samd21 <> inl FlashConfigError
  /\ Flash.new (D2x.geometry 4096 0 0x20004000 0x20008000) <> inl FlashConfigError.
Proof.
  split.
  - apply (flash_new_accepts Mock.samd21); [vm_compute; split; [discriminate | reflexivity] ..|].
    split; [right; exists 6; split; [lia | reflexivity] |].
    split; right; [exists 12 | exists 4]; (split; [lia | reflexivity]).
  - apply (flash_new_accepts (D2x.geometry 4096 0 0x20004000 0x20008000));
      [vm_compute; split; [discriminate | reflexivity] ..|].
    split; [left; reflexivity |].
    split; right; [exists 12 | exists 4]; (split; [lia | reflexivity]).
Defined.

(** ** writeOptions with nothing to write *)

Lemma d2x_command_dispatched (cmd : Z) (t : list Event) :
  D2xLog.command_log cmd (Ok tt) t -> In (D2xLog.dispatch cmd) t.
Proof.
  intros C. inversion C; subst; try congruence; apply in_or_app; right; left; reflexivity.
Qed.

Lemma d5x_command_dispatched (cmd : Z) (t : list Event) :
  D5xLog.command_log cmd (Ok tt) t -> In (D5xLog.dispatch cmd) t.
Proof.
  intros C. inversion C; subst; try congruence; apply in_or_app; right; left; reflexivity.
Qed.

Section CleanOptions.
Context {Dev : Type} `{SerialPort Dev}.
Variable g : Geometry.

Lemma loadBuffer_whole (data : list Z) (n : Z) (w : World Dev) r w' t :
  Flash.loadBuffer g data 0 n w = (r, w', t) ->
  t = [Sent (SamBA.cmd_S (Flash.pageBuffer g (onBufferA (flash w))) n) (Some data) None].
Proof.
  unfold Flash.loadBuffer, bind, gets, SamBA.write, bind, SamBA.sendCommand, ret.
  cbn [Z.ltb Z.compare]. destruct (exchange _ _ _) as [avail d]. intros [= <- <- <-]. reflexivity.
Qed.

Lemma d2x_first_row_page (fuel n : nat) (row : list Z) (limit step : Z)
      (w w' : World Dev) (t : list Event) :
  0 < limit ->
  Flash.for_offsets (S n) 0 limit step (D2x.write_row_page g fuel row) w = (Ok tt, w', t) ->
  In (Sent (SamBA.cmd_S (Flash.pageBuffer g (onBufferA (flash w))) (size g)) (Some row) None) t.
Proof.
  intros Hl L. cbn [Flash.for_offsets] in L.
  replace (0 <? limit) with true in L by (symmetry; apply Z.ltb_lt; exact Hl).
  run_ok L as B1. unfold D2x.write_row_page in B1. run_ok B1 as B2.
  apply loadBuffer_whole in B2. subst.
  rewrite !in_app_iff. left. left. left. reflexivity.
Qed.

Lemma d2x_writeOptions_clean (fuel : nat) (w w' : World Dev) (t : list Event) :
  nothing_to_write (flash w) -> 0 < size g ->
  D2x.writeOptions g fuel w = (Ok tt, w', t) ->
  In (D2xLog.dispatch D2x.NVM_CMD_EAR) t
  /\ In (Sent (SamBA.cmd_S (Flash.pageBuffer g (onBufferA (flash w))) (size g))
              (Some (repeat 0 (Z.to_nat (D2x.NVM_UR_SIZE g)))) None) t.
Proof.
  intros (Hbor & Hbod & Hreg) Hs E. unfold D2x.writeOptions in E.
  run_ok E as S1. run_inv S1. unfold FlashOption.isDirty in E. rewrite Hbor in E.
  rewrite andb_false_r in E. run_ok E as S2. run_inv S2.
  run_ok E as S3. run_inv S3. rewrite Hbod in E.
  rewrite andb_false_r in E. run_ok E as S4. run_inv S4.
  run_ok E as S5. run_inv S5. rewrite Hreg in E. run_ok E as S6. run_inv S6.
  run_ok E as S7. run_ok E as S8. run_ok E as S9. run_ok E as S10. run_ok E as S11.
  units. learn (@quiet Dev) S7 Q7. learn (@quiet Dev) S8 Q8. learn (@quiet Dev) S9 Q9.
  learn (@quiet Dev) S10 Q10.
  apply d2x_command_log, d2x_command_dispatched in S10.
  assert (Hn : 0 < D2x.NVM_UR_SIZE g) by (unfold D2x.NVM_UR_SIZE, D2x.ERASE_ROW_PAGES; lia).
  destruct (Z.to_nat (D2x.NVM_UR_SIZE g)) as [| n] eqn:En; [lia |]. rewrite <- En in *.
  replace (Flash.for_offsets (Z.to_nat (D2x.NVM_UR_SIZE g))) with (@Flash.for_offsets Dev (S n))
    in S11 by (rewrite En; reflexivity).
  apply d2x_first_row_page in S11; [| exact Hn].
  destruct Q7 as [_ A7], Q8 as [_ A8], Q9 as [_ A9], Q10 as [_ A10].
  match type of S11 with
  | In (Sent (SamBA.cmd_S (Flash.pageBuffer g (onBufferA (flash ?x))) _) _ _) _ =>
      replace (onBufferA (flash x)) with (onBufferA (flash w)) in S11 by congruence
  end.
  rewrite !in_app_iff. cbn [In]. tauto.
Qed.

Lemma d5x_first_quad_word (fuel n : nat) (row : list Z) (limit step : Z)
      (w w' : World Dev) (t : list Event) :
  0 < limit ->
  Flash.for_offsets (S n) 0 limit step (D5x.write_quad_word g fuel row) w = (Ok tt, w', t) ->
  In (Sent (SamBA.cmd_S (Flash.pageBuffer g (onBufferA (flash w))) 16) (Some row) None) t.
Proof.
  intros Hl L. cbn [Flash.for_offsets] in L.
  replace (0 <? limit) with true in L by (symmetry; apply Z.ltb_lt; exact Hl).
  run_ok L as B1. unfold D5x.write_quad_word in B1. run_ok B1 as B2.
  apply loadBuffer_whole in B2. subst.
  rewrite !in_app_iff. left. left. left. reflexivity.
Qed.

Lemma d5x_writeOptions_clean (fuel : nat) (w w' : World Dev) (t : list Event) :
  nothing_to_write (flash w) -> 0 < size g ->
  D5x.writeOptions g fuel w = (Ok tt, w', t) ->
  In (D5xLog.dispatch D5x.NVM_CMD_EP) t
  /\ In (Sent (SamBA.cmd_S (Flash.pageBuffer g (onBufferA (flash w))) 16)
              (Some (repeat 0 (Z.to_nat (D5x.NVM_UP_SIZE g)))) None) t.
Proof.
  intros (Hbor & Hbod & Hreg) Hs E. unfold D5x.writeOptions in E.
  run_ok E as S1. run_inv S1. unfold FlashOption.isDirty in E. rewrite Hbor in E.
  rewrite andb_false_r in E. run_ok E as S2. run_inv S2.
  run_ok E as S3. run_inv S3. rewrite Hbod in E.
  rewrite andb_false_r in E. run_ok E as S4. run_inv S4.
  run_ok E as S5. run_inv S5. rewrite Hreg in E. run_ok E as S6. run_inv S6.
  run_ok E as S7. run_ok E as S8. run_ok E as S9. run_ok E as S10. run_ok E as S11.
  units. learn (@quiet Dev) S7 Q7. learn (@quiet Dev) S8 Q8. learn (@quiet Dev) S9 Q9.
  learn (@quiet Dev) S10 Q10.
  apply d5x_command_log, d5x_command_dispatched in S10.
  assert (Hn : 0 < D5x.NVM_UP_SIZE g) by (unfold D5x.NVM_UP_SIZE; lia).
  destruct (Z.to_nat (D5x.NVM_UP_SIZE g)) as [| n] eqn:En; [lia |]. rewrite <- En in *.
  replace (Flash.for_offsets (Z.to_nat (D5x.NVM_UP_SIZE g))) with (@Flash.for_offsets Dev (S n))
    in S11 by (rewrite En; reflexivity).
  apply d5x_first_quad_word in S11; [| exact Hn].
  destruct Q7 as [_ A7], Q8 as [_ A8], Q9 as [_ A9], Q10 as [_ A10].
  match type of S11 with
  | In (Sent (SamBA.cmd_S (Flash.pageBuffer g (onBufferA (flash ?x))) _) _ _) _ =>
      replace (onBufferA (flash x)) with (onBufferA (flash w)) in S11 by congruence
  end.
  rewrite !in_app_iff. cbn [In]. tauto.
Qed.

End CleanOptions.

(** X9. [writeOptions] does not look
    whether an option was changed before it erases: with no option
    waiting to be written, a [writeOptions] that completes has still
    erased the user row (the D2x driver dispatches the command [EAR],
    the D5x driver [EP]) and has loaded a row that holds only zeros
    into the page buffer to program it. *)
Theorem writeOptions_with_nothing_dirty {Dev} `{SerialPort Dev} (g : Geometry) (fuel : nat)
        (w w' : World Dev) (t : list Event) :
  nothing_to_write (flash w) -> 0 < size g ->
  (D2x.writeOptions g fuel w = (Ok tt, w', t) ->
   In (D2xLog.dispatch D2x.NVM_CMD_EAR) t
   /\ In (Sent (SamBA.cmd_S (Flash.pageBuffer g (onBufferA (flash w))) (size g))
               (Some (repeat 0 (Z.to_nat (D2x.NVM_UR_SIZE g)))) None) t)
  /\ (D5x.writeOptions g fuel w = (Ok tt, w', t) ->
      In (D5xLog.dispatch D5x.NVM_CMD_EP) t
      /\ In (Sent (SamBA.cmd_S (Flash.pageBuffer g (onBufferA (flash w))) 16)
                  (Some (repeat 0 (Z.to_nat (D5x.NVM_UP_SIZE g)))) None) t).
Proof.
  intros Hn Hs. split; intros E.
  - eapply d2x_writeOptions_clean; eassumption.
  - eapply d5x_writeOptions_clean; eassumption.
Qed.

Lemma writeOptions_with_nothing_dirty_witness :
  nothing_to_write Mock.fresh
  /\ D2x.writeOptions Mock.samd21 1 (Mock.world 0 Mock.fresh) = d2x_clean_options_run
  /\ fst (fst d2x_clean_options_run) = Ok tt
  /\ In (Sent "W41004000,0000a505" None None) (snd d2x_clean_options_run)
  /\ In (Sent "S20004034,00000040" (Some (repeat 0 256%nat)) None) (snd d2x_clean_options_run).
Proof.
  assert (N : nothing_to_write Mock.fresh) by (repeat split).
  split; [exact N |]. split; [vm_compute; reflexivity |]. split; [reflexivity |].
  destruct (writeOptions_with_nothing_dirty Mock.samd21 1 (Mock.world 0 Mock.fresh)
              (snd (fst d2x_clean_options_run)) (snd d2x_clean_options_run) N) as [Q _].
  - reflexivity.
  - apply Q. vm_compute; reflexivity.
Defined.

(** ** getLockRegions *)

Lemma land_pow2_testbit (x k : Z) :
  0 <= k -> Z.land x (2 ^ k) = if Z.testbit x k then 2 ^ k else 0.
Proof.
  intros Hk. apply Z.bits_inj'. intros m Hm. rewrite Z.land_spec, Z.pow2_bits_eqb by exact Hk.
  destruct (Z.eqb_spec k m) as [-> | N].
  - destruct (Z.testbit x m); [rewrite Z.pow2_bits_true by exact Hm | rewrite Z.bits_0]; reflexivity.
  - rewrite andb_false_r. destruct (Z.testbit x k); [| rewrite Z.bits_0; reflexivity].
    rewrite Z.pow2_bits_false by lia. reflexivity.
Qed.

Lemma testbit_to_int32 (x k : Z) :
  0 <= k < 32 -> Z.testbit (JS.to_int32 x) k = Z.testbit x k.
Proof.
  intros Hk. unfold JS.to_int32.
  rewrite <- (Z.mod_pow2_bits_low ((x + 2 ^ 31) mod 2 ^ 32 - 2 ^ 31) 32 k) by lia.
  rewrite <- (Z.mod_pow2_bits_low x 32 k) by lia.
  f_equal. rewrite Zminus_mod_idemp_l. f_equal. lia.
Qed.

Lemma lock_bit_test (bits k : Z) :
  0 <= k < 8 -> (JS.and bits (JS.shl 1 k) =? 0) = negb (Z.testbit bits k).
Proof.
  intros Hk.
  assert (E : JS.shl 1 k = 2 ^ k).
  { unfold JS.shl. rewrite (to_int32_small 1) by lia. rewrite Z.mod_small by lia.
    rewrite Z.shiftl_1_l. apply to_int32_small.
    assert (0 < 2 ^ k) by (apply Z.pow_pos_nonneg; lia).
    assert (2 ^ k < 2 ^ 31) by (apply Z.pow_lt_mono_r; lia). lia. }
  rewrite E. unfold JS.and.
  assert (0 < 2 ^ k) by (apply Z.pow_pos_nonneg; lia).
  assert (2 ^ k < 2 ^ 31) by (apply Z.pow_lt_mono_r; lia).
  rewrite (to_int32_small (2 ^ k)) by lia.
  rewrite land_pow2_testbit by lia. rewrite testbit_to_int32 by lia.
  destruct (Z.testbit bits k); cbn [negb]; [apply Z.eqb_neq; lia | reflexivity].
Qed.

Section LockRegions.
Context {Dev : Type} `{SerialPort Dev}.
Variable g : Geometry.

Lemma byte_replies_app (t1 t2 : list Event) :
  byte_replies (t1 ++ t2) = byte_replies t1 ++ byte_replies t2.
Proof. unfold byte_replies. apply flat_map_app. Qed.

Lemma commands_app (t1 t2 : list Event) :
  Mock.commands (t1 ++ t2) = Mock.commands t1 ++ Mock.commands t2.
Proof. unfold Mock.commands. apply flat_map_app. Qed.

Lemma map_seq_S {A} (f : nat -> A) (n : nat) :
  map f (seq 0 (S n)) = f 0%nat :: map (fun k => f (S k)) (seq 0 n).
Proof. cbn [seq map]. f_equal. rewrite <- seq_shift, map_map. reflexivity. Qed.

Lemma lock_regions_spec (n : nat) (region a bits : Z) (acc : list bool)
      (w : World Dev) (rs : list bool) (w' : World Dev) (t : list Event) :
  0 <= region <= lockRegions g -> lockRegions g - region <= Z.of_nat n ->
  Flash.lock_regions g n region a bits acc w = (Ok rs, w', t) ->
  let all := if region mod 8 =? 0 then byte_replies t else bits :: byte_replies t in
  rs = acc ++ map (fun k => region_bit all (region / 8) (region + Z.of_nat k))
                  (seq 0 (Z.to_nat (lockRegions g - region)))
  /\ Mock.commands t
     = map (fun k => SamBA.cmd_o (a + Z.of_nat k)) (seq 0 (List.length (byte_replies t)))
  /\ Z.of_nat (List.length (byte_replies t)) = (lockRegions g + 7) / 8 - (region + 7) / 8.
Proof.
  revert region a bits acc w rs w' t.
  induction n as [| n IH]; intros region a bits acc w rs w' t Hr Hn E;
    cbn [Flash.lock_regions] in E; cbv zeta.
  - run_inv E. replace (lockRegions g) with region by lia.
    rewrite Z.sub_diag. cbn. rewrite app_nil_r. repeat split. lia.
  - destruct (region <? lockRegions g) eqn:Hlt.
    2:{ apply Z.ltb_ge in Hlt. run_inv E. replace (lockRegions g) with region by lia.
        rewrite Z.sub_diag. cbn. rewrite app_nil_r. repeat split. lia. }
    apply Z.ltb_lt in Hlt.
    assert (Hrem : Z.rem region 8 = region mod 8) by (apply Z.rem_mod_nonneg; lia).
    rewrite Hrem in E.
    assert (Hm : 0 <= region mod 8 < 8) by (apply Z.mod_pos_bound; lia).
    assert (Em : Z.to_nat (lockRegions g - region)
                 = S (Z.to_nat (lockRegions g - (region + 1)))) by lia.
    rewrite Em, map_seq_S, Nat2Z.inj_0, Z.add_0_r. clear Em.
    destruct (region mod 8 =? 0) eqn:H8.
    + apply Z.eqb_eq in H8.
      run_ok E as S1. run_ok S1 as S2. run_inv S1. cbn [fst snd] in E.
      apply readByte_inv in S2. destruct S2 as (reply & -> & Er).
      destruct reply as [result |]; [| discriminate Er]. injection Er as ->.
      apply IH in E; [| lia | lia]. cbv zeta in E.
      assert (H1 : ((region + 1) mod 8 =? 0) = false)
        by (apply Z.eqb_neq; Z.div_mod_to_equations; lia).
      rewrite H1 in E.
      destruct E as (-> & Ec & El).
      rewrite !app_nil_r. rewrite byte_replies_app, commands_app.
      change (byte_replies [Sent (SamBA.cmd_o a) None (Some result)]) with [JS.get result 0].
      change (Mock.commands [Sent (SamBA.cmd_o a) None (Some result)]) with [SamBA.cmd_o a].
      cbn [app List.length]. split; [| split].
      * rewrite <- app_assoc. cbn [app]. f_equal. f_equal.
        -- rewrite lock_bit_test by lia. unfold region_bit.
           rewrite Z.sub_diag. reflexivity.
        -- apply map_ext. intros k. unfold region_bit.
           replace ((region + 1) / 8) with (region / 8) by (Z.div_mod_to_equations; lia).
           replace (region + 1 + Z.of_nat k) with (region + Z.of_nat (S k)) by lia.
           reflexivity.
      * rewrite map_seq_S, Nat2Z.inj_0, Z.add_0_r. f_equal. rewrite Ec.
        apply map_ext. intros k. f_equal. lia.
      * rewrite Nat2Z.inj_succ, El. Z.div_mod_to_equations. lia.
    + apply Z.eqb_neq in H8.
      run_ok E as S1. run_inv S1. cbn [fst snd] in E.
      apply IH in E; [| lia | lia]. cbv zeta in E.
      destruct E as (-> & Ec & El). cbn [app].
      split; [| split].
      * rewrite <- app_assoc. cbn [app]. f_equal. f_equal.
        -- rewrite lock_bit_test by lia. unfold region_bit.
           rewrite Z.sub_diag. reflexivity.
        -- apply map_ext. intros k. unfold region_bit.
           destruct ((region + 1) mod 8 =? 0) eqn:H1.
           ++ apply Z.eqb_eq in H1.
              replace (Z.to_nat ((region + Z.of_nat (S k)) / 8 - region / 8))
                with (S (Z.to_nat ((region + 1 + Z.of_nat k) / 8 - (region + 1) / 8)))
                by (rewrite Nat2Z.inj_succ; Z.div_mod_to_equations; lia).
              cbn [nth].
              replace (region + 1 + Z.of_nat k) with (region + Z.of_nat (S k)) by lia.
              reflexivity.
           ++ replace ((region + 1) / 8) with (region / 8)
                by (apply Z.eqb_neq in H1; Z.div_mod_to_equations; lia).
              replace (region + 1 + Z.of_nat k) with (region + Z.of_nat (S k)) by lia.
              reflexivity.
      * exact Ec.
      * rewrite El. Z.div_mod_to_equations. lia.
Qed.

End LockRegions.

(** X10. [getLockRegions] reads one byte for every
    eight regions, from [0x804006] on with the D2x driver and from
    [0x804008] on with the D5x driver, and reports region [i] as locked
    exactly when bit [i mod 8] of byte [i / 8] is clear. *)
Theorem getLockRegions_decodes {Dev} `{SerialPort Dev} (g : Geometry)
        (w : World Dev) (rs : list bool) (w' : World Dev) (t : list Event) :
  0 <= lockRegions g ->
  (D2x.getLockRegions g w = (Ok rs, w', t) ->
   rs = map (fun k => region_bit (byte_replies t) 0 (Z.of_nat k))
            (seq 0 (Z.to_nat (lockRegions g)))
   /\ Mock.commands t
      = map (fun k => SamBA.cmd_o (0x804006 + Z.of_nat k))
            (seq 0 (Z.to_nat ((lockRegions g + 7) / 8))))
  /\ (D5x.getLockRegions g w = (Ok rs, w', t) ->
      rs = map (fun k => region_bit (byte_replies t) 0 (Z.of_nat k))
               (seq 0 (Z.to_nat (lockRegions g)))
      /\ Mock.commands t
         = map (fun k => SamBA.cmd_o (0x804008 + Z.of_nat k))
               (seq 0 (Z.to_nat ((lockRegions g + 7) / 8)))).
Proof.
  intros Hl. split; intros E.
  - unfold D2x.getLockRegions in E. apply lock_regions_spec in E; [| lia | lia].
    cbn zeta in E. change (0 mod 8 =? 0) with true in E. cbn iota in E.
    rewrite Z.sub_0_r in E. change (0 / 8) with 0 in E.
    destruct E as (-> & Ec & El). split; [reflexivity |].
    rewrite Ec. do 2 f_equal. change ((0 + 7) / 8) with 0 in El. lia.
  - unfold D5x.getLockRegions in E. apply lock_regions_spec in E; [| lia | lia].
    cbn zeta in E. change (0 mod 8 =? 0) with true in E. cbn iota in E.
    rewrite Z.sub_0_r in E. change (0 / 8) with 0 in E.
    destruct E as (-> & Ec & El). split; [reflexivity |].
    rewrite Ec. do 2 f_equal. change ((0 + 7) / 8) with 0 in El. lia.
Qed.

Lemma getLockRegions_decodes_witness :
  D2x.getLockRegions Mock.samd21 (Mock.world 0 Mock.fresh) = d2x_lock_regions_run
  /\ Mock.commands (snd d2x_lock_regions_run) = ["o00804006,4"; "o00804007,4"]
  /\ fst (fst d2x_lock_regions_run)
     = Ok (map (fun k => region_bit [0x01; 0x01] 0 (Z.of_nat k)) (seq 0 16)).
Proof.
  split; [vm_compute; reflexivity |].
  pose (rs := match fst (fst d2x_lock_regions_run) with Ok rs => rs | _ => [] end).
  assert (L : 0 <= lockRegions Mock.samd21) by (vm_compute; discriminate).
  destruct (getLockRegions_decodes Mock.samd21 (Mock.world 0 Mock.fresh) rs
              (snd (fst d2x_lock_regions_run)) (snd d2x_lock_regions_run) L) as [Q _].
  destruct Q as [Qr Qc]; [vm_compute; reflexivity |].
  split; [rewrite Qc; reflexivity |].
  change (fst (fst d2x_lock_regions_run)) with (Ok rs). rewrite Qr. reflexivity.
Defined.

(** ** The applet on the board *)

Section Setup.
Context {Dev : Type} `{SerialPort Dev}.

#[global] Instance setup_kept_stable : Stable (@setup_kept Dev).
Proof.
  split; unfold setup_kept.
  - intros w. split; auto.
  - intros w1 w2 w3 t1 t2 [A1 A2] [B1 B2]. split; auto.
  - intros cmd rs data _ w r w' t E. run_inv E. rewrite Hinst, Hflash. split; auto.
  - intros w. split; auto.
  - intros w. split; auto.
Qed.

Lemma setup_kept_go (a : Z) : respects (@setup_kept Dev) (SamBA.go a).
Proof.
  intros w r w' t E. unfold SamBA.go in E. run_inv E as G.
  - run_inv G. run_inv E. unfold setup_kept. rewrite Hinst, Hflash. split; auto.
  - run_never E.
  - run_never E.
Qed.

Lemma setup_kept_flip : respects (@setup_kept Dev) Flash.flipBuffer.
Proof.
  intros w r w' t. unfold Flash.flipBuffer, bind, gets, modify, emit.
  intros [= <- <- <-]. split; auto.
Qed.

Lemma setup_kept_setters (g : Geometry) :
  (forall rs, respects (@setup_kept Dev) (Flash.setLockRegions g rs))
  /\ respects (@setup_kept Dev) Flash.setSecurity
  /\ (forall b, respects (@setup_kept Dev) (Flash.setBod b))
  /\ (forall b, respects (@setup_kept Dev) (Flash.setBor b))
  /\ (forall b, respects (@setup_kept Dev) (Flash.setBootFlash b))
  /\ (forall b, respects (@setup_kept Dev) (Flash.setEraseAuto b)).
Proof.
  repeat split; unfold respects; intros;
    match goal with
    | E : _ = (_, _, _) |- _ =>
        unfold Flash.setLockRegions, Flash.setSecurity, Flash.setBod, Flash.setBor,
          Flash.setBootFlash, Flash.setEraseAuto, when, Flash.canBod, Flash.canBor,
          Flash.canBootFlash in E;
        try match type of E with (if ?c then _ else _) _ = _ => destruct c end;
        run_inv E
    end; auto.
Qed.

Lemma run_op_setup_kept (f : Family) (g : Geometry) (fuel : nat) (op : Op) :
  respects (@setup_kept Dev) (run_op f g fuel op).
Proof.
  pose proof setup_kept_go. pose proof setup_kept_flip.
  destruct (setup_kept_setters g) as (L & S & Bd & Br & Bf & Ea).
  destruct op; cbn [run_op]; auto; destruct f; respects_auto.
Qed.

Lemma session_setup_kept (f : Family) (g : Geometry) (fuel : nat) (ops : list Op) (w : World Dev) :
  setup_kept w (session f g fuel ops w) [].
Proof.
  revert w. induction ops as [| op ops IH]; intros w; cbn [session].
  - apply st_nil.
  - destruct (run_op f g fuel op w) as [[r w1] t] eqn:E. cbn [fst snd].
    apply run_op_setup_kept in E. destruct E as [A1 A2], (IH w1) as [B1 B2].
    split; auto.
Qed.

End Setup.

(** X11. No operation of a driver takes the applet
    off the board again or undoes its preparation: once [installed]
    or [prepared] is set it stays set through every session.  An
    installed applet is not sent again, an applet that is not
    installed is sent as one [S] command of 52 bytes, and a prepared
    applet is not prepared again. *)
Theorem applet_installed_once {Dev} `{SerialPort Dev} (f : Family) (g : Geometry) (fuel : nat) :
  (forall ops (w : World Dev),
      (installed w = true -> installed (session f g fuel ops w) = true)
      /\ (prepared (flash w) = true -> prepared (flash (session f g fuel ops w)) = true))
  /\ (forall w : World Dev,
         installed w = true -> WordCopyApplet.checkInstall (user g) w = (Ok tt, w, []))
  /\ (forall w : World Dev,
         installed w = false ->
         exists d,
           WordCopyApplet.checkInstall (user g) w
           = (Ok tt, set_installed (set_port w d) true,
              [Sent (SamBA.cmd_S (user g) 52) (Some WordCopyApplet.code) None]))
  /\ (forall w : World Dev,
         prepared (flash w) = true -> Flash.prepareApplet g w = (Ok tt, w, [])).
Proof.
  split; [| split; [| split]].
  - intros ops w. apply session_setup_kept.
  - intros w Hi. unfold WordCopyApplet.checkInstall, bind, gets. rewrite Hi. reflexivity.
  - intros w Hi. unfold WordCopyApplet.checkInstall, bind, gets. rewrite Hi. cbn [negb app].
    unfold SamBA.write, bind, SamBA.sendCommand.
    destruct (exchange (port w) (SamBA.cmd_S (user g) WordCopyApplet.size)
                       (Some WordCopyApplet.code)) as [avail d].
    exists d. reflexivity.
  - intros w Hp. unfold Flash.prepareApplet, bind, gets. rewrite Hp. reflexivity.
Qed.

(** ** What the operations leave alone *)

Section Settings.
Context {Dev : Type} `{SerialPort Dev}.

#[global] Instance settings_kept_stable : Stable (@settings_kept Dev).
Proof.
  split; unfold settings_kept.
  - intros w. split; reflexivity.
  - intros w1 w2 w3 t1 t2 [A1 A2] [B1 B2]. split; congruence.
  - intros cmd rs data _ w r w' t E. run_inv E. rewrite Hsamba, Hflash. split; reflexivity.
  - intros w. split; reflexivity.
  - intros w. split; reflexivity.
Qed.

Lemma settings_kept_go (a : Z) : respects (@settings_kept Dev) (SamBA.go a).
Proof.
  intros w r w' t E. unfold SamBA.go in E. run_inv E as G.
  - run_inv G. run_inv E. unfold settings_kept. rewrite Hsamba, Hflash. split; reflexivity.
  - run_never E.
  - run_never E.
Qed.

Lemma settings_kept_flip : respects (@settings_kept Dev) Flash.flipBuffer.
Proof.
  intros w r w' t. unfold Flash.flipBuffer, bind, gets, modify, emit.
  intros [= <- <- <-]. split; reflexivity.
Qed.

(** What a setter of an option does: nothing is sent, and nothing but
    the options changes. *)
Lemma setter_inv (g : Geometry) (op : Op) (f : Family) (fuel : nat)
      (w : World Dev) r w' t :
  match op with
  | SetLockRegions _ | SetSecurity | SetBod _ | SetBor _ | SetBootFlash _ => True
  | _ => False
  end ->
  run_op f g fuel op w = (r, w', t) ->
  t = [] /\ samba w' = samba w /\ eraseAuto (flash w') = eraseAuto (flash w)
  /\ onBufferA (flash w') = onBufferA (flash w).
Proof.
  intros Hop E. destruct op; try contradiction; cbn [run_op] in E;
    unfold Flash.setLockRegions, Flash.setSecurity, Flash.setBod, Flash.setBor,
      Flash.setBootFlash, when, Flash.canBod, Flash.canBor, Flash.canBootFlash in E;
    try match type of E with (if ?c then _ else _) _ = _ => destruct c end;
    run_inv E; auto.
Qed.

Lemma run_op_settings_kept (f : Family) (g : Geometry) (fuel : nat) (op : Op) :
  sets_eraseAuto op = false -> respects (@settings_kept Dev) (run_op f g fuel op).
Proof.
  intros Hop. pose proof settings_kept_go. pose proof settings_kept_flip.
  assert (S : forall op', match op' with
                          | SetLockRegions _ | SetSecurity | SetBod _ | SetBor _
                          | SetBootFlash _ => True
                          | _ => False
                          end -> respects (@settings_kept Dev) (run_op f g fuel op')).
  { intros op' Hs w r w' t E. apply setter_inv in E; [| exact Hs].
    destruct E as (_ & A & B & _). split; assumption. }
  destruct op; try discriminate Hop; try (apply S; exact I);
    cbn [run_op]; destruct f; respects_auto.
Qed.

Lemma run_op_no_applet (f : Family) (g : Geometry) (fuel : nat) (op : Op) :
  runs_applet op = false ->
  respects (@no_go Dev) (run_op f g fuel op) /\ respects (@quiet Dev) (run_op f g fuel op).
Proof.
  intros Hop.
  assert (S : forall op', match op' with
                          | SetLockRegions _ | SetSecurity | SetBod _ | SetBor _
                          | SetBootFlash _ => True
                          | _ => False
                          end ->
                          respects (@no_go Dev) (run_op f g fuel op')
                          /\ respects (@quiet Dev) (run_op f g fuel op')).
  { intros op' Hs. split; intros w r w' t E; (apply setter_inv in E; [| exact Hs]);
      destruct E as (-> & _ & _ & B).
    - constructor.
    - split; [constructor | exact B]. }
  assert (A : forall b, respects (@no_go Dev) (@Flash.setEraseAuto Dev b)
                        /\ respects (@quiet Dev) (@Flash.setEraseAuto Dev b)).
  { intros b. split; intros w r w' t E; unfold Flash.setEraseAuto in E; run_inv E.
    - constructor.
    - split; [constructor | reflexivity]. }
  destruct op; try discriminate Hop; try (apply S; exact I); try (apply A);
    cbn [run_op]; destruct f; split; respects_auto.
Qed.

End Settings.

(** X12. No operation of a driver changes what
    the client knows of the board.  Only [setEraseAuto] changes the
    auto-erase switch.  Only [writePage] and [writeOptions] run the
    applet: every other operation sends no [G] command and leaves the
    choice of the page buffer as it is. *)
Theorem operations_leave_alone {Dev} `{SerialPort Dev} (f : Family) (g : Geometry)
        (fuel : nat) (op : Op) (w : World Dev) r (w' : World Dev) (t : list Event) :
  run_op f g fuel op w = (r, w', t) ->
  samba w' = samba w
  /\ (sets_eraseAuto op = false -> eraseAuto (flash w') = eraseAuto (flash w))
  /\ (runs_applet op = false ->
      Forall not_go t /\ Forall is_sent t /\ onBufferA (flash w') = onBufferA (flash w)).
Proof.
  intros E. split; [| split].
  - destruct (sets_eraseAuto op) eqn:Hop.
    + destruct op; try discriminate Hop. cbn [run_op] in E.
      unfold Flash.setEraseAuto in E. run_inv E. reflexivity.
    + apply (run_op_settings_kept f g fuel op Hop) in E. apply E.
  - intros Hop. apply (run_op_settings_kept f g fuel op Hop) in E. apply E.
  - intros Hop. destruct (run_op_no_applet f g fuel op Hop) as [N Q].
    apply N in E as En. apply Q in E as [Eq Eb]. split; [exact En |]. split; assumption.
Qed.

Lemma operations_leave_alone_witness :
  run_op D2xFamily Mock.samd21 1 (EraseAll 0x2000) connected = eraseAll_run
  /\ samba (snd (fst eraseAll_run)) = samba connected
  /\ Forall not_go (snd eraseAll_run).
Proof.
  split; [vm_compute; reflexivity |].
  destruct (operations_leave_alone D2xFamily Mock.samd21 1 (EraseAll 0x2000) connected
              (fst (fst eraseAll_run)) (snd (fst eraseAll_run)) (snd eraseAll_run))
    as (A & _ & B).
  - vm_compute; reflexivity.
  - split; [exact A |]. apply B. reflexivity.
Defined.

(** ** Uint8Buffer *)

Lemma firstn_skipn_app3 {A} (pre q post : list A) :
  firstn (List.length q) (skipn (List.length pre) (pre ++ q ++ post)) = q.
Proof.
  rewrite skipn_app, skipn_all, Nat.sub_diag. cbn [app skipn].
  rewrite firstn_app, firstn_all, Nat.sub_diag. cbn [firstn]. apply app_nil_r.
Qed.

(** The storage of a buffer in three parts: what was read, what is
    queued, what is free. *)
Lemma buffer_parts (b : Uint8Buffer.t) :
  buffer_ok b ->
  exists pre post,
    Uint8Buffer.view_ b = pre ++ queued b ++ post
    /\ JS.len pre = Uint8Buffer.readOffset b
    /\ JS.len (queued b) = Uint8Buffer.length b
    /\ JS.len post = Uint8Buffer.size b - Uint8Buffer.writeOffset b.
Proof.
  intros (Hro & Hwo & Hlen & _). unfold queued, Uint8Buffer.length, JS.len in *.
  set (v := Uint8Buffer.view_ b) in *. set (ro := Uint8Buffer.readOffset b) in *.
  set (wo := Uint8Buffer.writeOffset b) in *.
  exists (firstn (Z.to_nat ro) v), (skipn (Z.to_nat (wo - ro)) (skipn (Z.to_nat ro) v)).
  repeat split.
  - rewrite firstn_skipn, firstn_skipn. reflexivity.
  - rewrite length_firstn. lia.
  - rewrite length_firstn, length_skipn. lia.
  - rewrite !length_skipn. lia.
Qed.

Lemma queued_parts (ro wo sz : Z) (pre q post : list Z) :
  JS.len pre = ro -> JS.len q = wo - ro ->
  queued (Uint8Buffer.mk ro wo sz (pre ++ q ++ post)) = q.
Proof.
  unfold queued, Uint8Buffer.length, JS.len. cbn [Uint8Buffer.readOffset Uint8Buffer.writeOffset
    Uint8Buffer.view_]. intros <- E. rewrite <- E, !Nat2Z.id. apply firstn_skipn_app3.
Qed.

Lemma bytes_mod (bytes : list Z) : Forall (fun v => 0 <= v < 256) (map (fun v => v mod 256) bytes).
Proof.
  induction bytes; cbn [map]; constructor; [apply Z.mod_pos_bound; lia | assumption].
Qed.

(** After [ensure(n)] there is room for [n] bytes, and what was stored
    is still there. *)
Lemma ensure_room (b : Uint8Buffer.t) (n : Z) :
  buffer_ok b ->
  exists zs,
    Uint8Buffer.ensure b n
    = Some (Uint8Buffer.mk (Uint8Buffer.readOffset b) (Uint8Buffer.writeOffset b)
                           (Uint8Buffer.size b + JS.len zs) (Uint8Buffer.view_ b ++ zs))
    /\ Forall (fun v => 0 <= v < 256) zs
    /\ n <= Uint8Buffer.size b + JS.len zs - Uint8Buffer.writeOffset b.
Proof.
  intros (Hro & Hwo & Hlen & Hb). unfold Uint8Buffer.ensure.
  destruct (Uint8Buffer.size b - Uint8Buffer.writeOffset b <? n) eqn:E.
  - apply Z.ltb_lt in E. unfold Uint8Buffer.grow.
    set (m := Z.max n (Uint8Buffer.size b)).
    replace (Uint8Buffer.size b + m <? 0) with false by (symmetry; apply Z.ltb_ge; lia).
    exists (repeat 0 (Z.to_nat m)). unfold JS.len in *. rewrite repeat_length.
    split; [| split].
    + rewrite firstn_all2 by lia. do 3 f_equal; [lia |]. f_equal. lia.
    + apply Forall_forall. intros x Hx. apply repeat_spec in Hx. lia.
    + lia.
  - apply Z.ltb_ge in E. exists []. unfold JS.len. cbn [List.length].
    rewrite Z.add_0_r, app_nil_r. split; [destruct b; reflexivity |]. split; [constructor | lia].
Qed.

Lemma copy_queues (b : Uint8Buffer.t) (bytes : list Z) :
  buffer_ok b ->
  exists b',
    Uint8Buffer.copy b bytes = Some b'
    /\ Uint8Buffer.push b bytes = Some b'
    /\ buffer_ok b'
    /\ queued b' = queued b ++ map (fun v => v mod 256) bytes
    /\ Uint8Buffer.readOffset b' = Uint8Buffer.readOffset b.
Proof.
  intros Hok. destruct (ensure_room b (JS.len bytes) Hok) as (zs & Ee & Hzs & Hroom).
  destruct (buffer_parts b Hok) as (pre & post & Ev & Lpre & Lq & Lpost).
  destruct Hok as (Hro & Hwo & Hlen & Hb).
  unfold Uint8Buffer.copy, Uint8Buffer.push. rewrite Ee.
  cbn [Uint8Buffer.view_ Uint8Buffer.writeOffset Uint8Buffer.readOffset Uint8Buffer.size].
  unfold Uint8Buffer.set_at.
  assert (Lv : JS.len (Uint8Buffer.view_ b ++ zs) = Uint8Buffer.size b + JS.len zs)
    by (unfold JS.len in *; rewrite length_app; lia).
  replace ((Uint8Buffer.writeOffset b <? 0)
           || (JS.len (Uint8Buffer.view_ b ++ zs) <? Uint8Buffer.writeOffset b + JS.len bytes))
    with false
    by (symmetry; apply orb_false_iff; split; apply Z.ltb_ge; lia).
  eexists. split; [reflexivity |]. split; [reflexivity |].
  set (wo := Uint8Buffer.writeOffset b) in *. set (ro := Uint8Buffer.readOffset b) in *.
  set (n := JS.len bytes) in *.
  assert (Efirst : firstn (Z.to_nat wo) (Uint8Buffer.view_ b ++ zs) = pre ++ queued b).
  { rewrite Ev. unfold Uint8Buffer.length, JS.len in *.
    rewrite app_assoc, <- app_assoc.
    replace (Z.to_nat wo) with (List.length (pre ++ queued b) + 0)%nat
      by (rewrite length_app; lia).
    rewrite firstn_app_2. cbn [firstn]. apply app_nil_r. }
  rewrite Efirst.
  split; [| split].
  - unfold buffer_ok.
    cbn [Uint8Buffer.view_ Uint8Buffer.writeOffset Uint8Buffer.readOffset Uint8Buffer.size].
    assert (n >= 0) by (unfold n, JS.len; lia).
    split; [lia |]. split; [lia |]. split.
    + unfold JS.len in *. rewrite !length_app, length_map, length_skipn, length_app.
      rewrite length_app in Lv. unfold Uint8Buffer.length in Lq. fold ro wo in Lq. lia.
    + rewrite !Forall_app. repeat split.
      * apply Forall_forall. intros x Hx. rewrite Forall_forall in Hb. apply Hb.
        rewrite Ev. apply in_or_app. left. exact Hx.
      * apply Forall_forall. intros x Hx. rewrite Forall_forall in Hb. apply Hb.
        rewrite Ev. apply in_or_app. right. apply in_or_app. left. exact Hx.
      * apply bytes_mod.
      * apply Forall_forall. intros x Hx.
        assert (Hall : Forall (fun v => 0 <= v < 256) (Uint8Buffer.view_ b ++ zs))
          by (apply Forall_app; split; assumption).
        rewrite Forall_forall in Hall. apply Hall.
        rewrite <- (firstn_skipn (Z.to_nat (wo + n)) (Uint8Buffer.view_ b ++ zs)).
        apply in_or_app. right. exact Hx.
  - rewrite <- app_assoc.
    rewrite (app_assoc (queued b)).
    apply queued_parts; [exact Lpre |].
    unfold JS.len in *. rewrite length_app, length_map.
    unfold Uint8Buffer.length in Lq. fold ro wo in Lq. lia.
  - reflexivity.
Qed.

Lemma shift_takes (b : Uint8Buffer.t) :
  buffer_ok b ->
  match queued b with
  | [] => Uint8Buffer.shift b = (None, b)
  | x :: rest =>
      exists b', Uint8Buffer.shift b = (Some x, b') /\ buffer_ok b' /\ queued b' = rest
  end.
Proof.
  intros Hok. destruct (buffer_parts b Hok) as (pre & post & Ev & Lpre & Lq & Lpost).
  destruct Hok as (Hro & Hwo & Hlen & Hb). unfold Uint8Buffer.shift.
  destruct (queued b) as [| x rest] eqn:Eq.
  - unfold JS.len in Lq. cbn [List.length] in Lq.
    replace (Uint8Buffer.length b <=? 0) with true by (symmetry; apply Z.leb_le; lia).
    reflexivity.
  - unfold JS.len in Lq. cbn [List.length] in Lq.
    replace (Uint8Buffer.length b <=? 0) with false by (symmetry; apply Z.leb_gt; lia).
    eexists. split; [| split].
    + f_equal. unfold Uint8Buffer.at_.
      unfold Uint8Buffer.length in Lq.
      replace ((0 <=? Uint8Buffer.readOffset b)
               && (Uint8Buffer.readOffset b <? JS.len (Uint8Buffer.view_ b))) with true
        by (symmetry; apply andb_true_iff; split; [apply Z.leb_le | apply Z.ltb_lt]; lia).
      f_equal. rewrite Ev. unfold JS.len in Lpre. rewrite <- Lpre, Nat2Z.id.
      rewrite app_nth2 by lia. rewrite Nat.sub_diag. reflexivity.
    + unfold buffer_ok.
      cbn [Uint8Buffer.view_ Uint8Buffer.writeOffset Uint8Buffer.readOffset Uint8Buffer.size].
      unfold Uint8Buffer.length in Lq. repeat split; try lia; assumption.
    + rewrite Ev.
      replace (pre ++ (x :: rest) ++ post) with ((pre ++ [x]) ++ rest ++ post)
        by (rewrite <- app_assoc; reflexivity).
      apply queued_parts; unfold JS.len in *; [rewrite length_app; cbn [List.length]; lia |].
      unfold Uint8Buffer.length in Lq. lia.
Qed.

Lemma view_from_start (b : Uint8Buffer.t) :
  buffer_ok b -> Uint8Buffer.readOffset b = 0 -> Uint8Buffer.view b = Some (queued b).
Proof.
  intros (Hro & Hwo & Hlen & Hb) E0. unfold Uint8Buffer.view, queued, Uint8Buffer.length.
  rewrite E0. cbn [Z.ltb Z.compare orb Z.to_nat skipn]. rewrite Z.sub_0_r, Z.add_0_l.
  replace (Uint8Buffer.writeOffset b <? 0) with false by (symmetry; apply Z.ltb_ge; lia).
  replace (JS.len (Uint8Buffer.view_ b) <? Uint8Buffer.writeOffset b) with false
    by (symmetry; apply Z.ltb_ge; lia).
  reflexivity.
Qed.

Lemma view_after_shift (b : Uint8Buffer.t) (l : list Z) :
  buffer_ok b -> 0 < Uint8Buffer.readOffset b ->
  Uint8Buffer.view b = Some l ->
  JS.len l = Uint8Buffer.writeOffset b /\ JS.len (queued b) < JS.len l.
Proof.
  intros Hok Hpos E. destruct (buffer_parts b Hok) as (pre & post & Ev & Lpre & Lq & Lpost).
  destruct Hok as (Hro & Hwo & Hlen & Hb). unfold Uint8Buffer.view in E.
  destruct ((Uint8Buffer.readOffset b <? 0) || (Uint8Buffer.writeOffset b <? 0)
            || (JS.len (Uint8Buffer.view_ b) <? Uint8Buffer.readOffset b + Uint8Buffer.writeOffset b))
    eqn:Eb; [discriminate |].
  apply orb_false_iff in Eb. destruct Eb as [_ Eb]. apply Z.ltb_ge in Eb.
  injection E as <-. unfold Uint8Buffer.length in Lq.
  assert (L : JS.len (firstn (Z.to_nat (Uint8Buffer.writeOffset b))
                             (skipn (Z.to_nat (Uint8Buffer.readOffset b)) (Uint8Buffer.view_ b)))
              = Uint8Buffer.writeOffset b).
  { unfold JS.len in *. rewrite length_firstn, length_skipn. lia. }
  split; [exact L | lia].
Qed.

Lemma fill_queues (b : Uint8Buffer.t) (element n : Z) :
  buffer_ok b -> 0 <= n ->
  exists b',
    Uint8Buffer.fill b element n = Some b'
    /\ buffer_ok b'
    /\ queued b' = queued b ++ repeat (element mod 256) (Z.to_nat n)
    /\ Uint8Buffer.readOffset b' = Uint8Buffer.readOffset b.
Proof.
  intros Hok Hn. destruct (ensure_room b n Hok) as (zs & Ee & Hzs & Hroom).
  destruct (buffer_parts b Hok) as (pre & post & Ev & Lpre & Lq & Lpost).
  destruct Hok as (Hro & Hwo & Hlen & Hb).
  unfold Uint8Buffer.fill. rewrite Ee.
  cbn [Uint8Buffer.view_ Uint8Buffer.writeOffset Uint8Buffer.readOffset Uint8Buffer.size].
  eexists. split; [reflexivity |].
  set (wo := Uint8Buffer.writeOffset b) in *. set (ro := Uint8Buffer.readOffset b) in *.
  unfold Uint8Buffer.length in Lq. fold ro wo in Lq.
  assert (Lv : JS.len (Uint8Buffer.view_ b ++ zs) = Uint8Buffer.size b + JS.len zs)
    by (unfold JS.len in *; rewrite length_app; lia).
  assert (Ef : Uint8Buffer.fill_range (Uint8Buffer.view_ b ++ zs) element wo (wo + n)
               = pre ++ (queued b ++ repeat (element mod 256) (Z.to_nat n))
                     ++ skipn (Z.to_nat (wo + n)) (Uint8Buffer.view_ b ++ zs)).
  { unfold Uint8Buffer.fill_range, Uint8Buffer.clamp. rewrite Lv.
    replace (wo <? 0) with false by (symmetry; apply Z.ltb_ge; lia).
    replace (wo + n <? 0) with false by (symmetry; apply Z.ltb_ge; lia).
    rewrite !Z.min_l by lia.
    assert (Efirst : firstn (Z.to_nat wo) (Uint8Buffer.view_ b ++ zs) = pre ++ queued b).
    { rewrite Ev. unfold JS.len in *. rewrite app_assoc, <- app_assoc.
      replace (Z.to_nat wo) with (List.length (pre ++ queued b) + 0)%nat
        by (rewrite length_app; lia).
      rewrite firstn_app_2. cbn [firstn]. apply app_nil_r. }
    destruct (wo <? wo + n) eqn:El.
    - rewrite Efirst. replace (wo + n - wo) with n by lia. rewrite <- !app_assoc. reflexivity.
    - apply Z.ltb_ge in El. assert (n = 0) by lia. subst n.
      cbn [Z.to_nat repeat]. rewrite Z.add_0_r, app_nil_r.
      rewrite <- (firstn_skipn (Z.to_nat wo) (Uint8Buffer.view_ b ++ zs)) at 1.
      rewrite Efirst, <- app_assoc. reflexivity. }
  rewrite Ef. split; [| split].
  - unfold buffer_ok.
    cbn [Uint8Buffer.view_ Uint8Buffer.writeOffset Uint8Buffer.readOffset Uint8Buffer.size].
    split; [lia |]. split; [lia |]. split.
    + unfold JS.len in *. rewrite !length_app, repeat_length, length_skipn, length_app.
      rewrite length_app in Lv. lia.
    + assert (Hall : Forall (fun v => 0 <= v < 256) (Uint8Buffer.view_ b ++ zs))
        by (apply Forall_app; split; assumption).
      rewrite !Forall_app. repeat split.
      * apply Forall_forall. intros x Hx. rewrite Forall_forall in Hb. apply Hb.
        rewrite Ev. apply in_or_app. left. exact Hx.
      * apply Forall_forall. intros x Hx. rewrite Forall_forall in Hb. apply Hb.
        rewrite Ev. apply in_or_app. right. apply in_or_app. left. exact Hx.
      * apply Forall_forall. intros x Hx. apply repeat_spec in Hx. subst x.
        apply Z.mod_pos_bound. lia.
      * apply Forall_forall. intros x Hx. rewrite Forall_forall in Hall. apply Hall.
        rewrite <- (firstn_skipn (Z.to_nat (wo + n)) (Uint8Buffer.view_ b ++ zs)).
        apply in_or_app. right. exact Hx.
  - apply queued_parts; [exact Lpre |].
    unfold JS.len in *. rewrite length_app, repeat_length. lia.
  - reflexivity.
Qed.

Lemma reset_empties (b : Uint8Buffer.t) :
  JS.len (Uint8Buffer.view_ b) = Uint8Buffer.size b -> 0 <= Uint8Buffer.size b ->
  Forall (fun v => 0 <= v < 256) (Uint8Buffer.view_ b) ->
  buffer_ok (Uint8Buffer.reset b) /\ queued (Uint8Buffer.reset b) = []
  /\ Uint8Buffer.readOffset (Uint8Buffer.reset b) = 0.
Proof.
  intros Hlen Hs Hb. unfold buffer_ok, queued, Uint8Buffer.reset, Uint8Buffer.length.
  cbn [Uint8Buffer.view_ Uint8Buffer.writeOffset Uint8Buffer.readOffset Uint8Buffer.size].
  repeat split; try lia; assumption.
Qed.

Lemma buffer_ok_size (b : Uint8Buffer.t) : buffer_ok b -> 0 <= Uint8Buffer.size b.
Proof. intros (? & ? & ? & ?). lia. Qed.

Lemma new_buffer_ok (n : Z) :
  0 <= n -> exists b, Uint8Buffer.new n = Some b /\ buffer_ok b /\ queued b = [].
Proof.
  intros Hn. unfold Uint8Buffer.new.
  replace (n <? 0) with false by (symmetry; apply Z.ltb_ge; exact Hn).
  eexists. split; [reflexivity |]. split.
  - unfold buffer_ok. cbn. unfold JS.len. rewrite repeat_length.
    repeat split; try lia. apply Forall_forall. intros x Hx. apply repeat_spec in Hx. lia.
  - reflexivity.
Qed.

Lemma toByteArray_bytes (s : string) :
  map (fun v => v mod 256) (toByteArray s) = toByteArray s.
Proof.
  unfold toByteArray. rewrite map_map. apply map_ext. intros c.
  destruct c as [[] [] [] [] [] [] [] []]; reflexivity.
Qed.

(** X13. The packet that [sendCommand] builds
    in the buffer it keeps is the characters of the command followed
    by [#], whatever the buffer held before, and the buffer stays
    usable for the next command. *)
Theorem packet_is_command_and_hash (packet : Uint8Buffer.t) (cmd : string) :
  buffer_ok packet ->
  exists packet',
    packet_of packet cmd = Some (toByteArray cmd ++ [0x23], packet')
    /\ buffer_ok packet'
    /\ JS.len (toByteArray cmd) = Z.of_nat (String.length cmd).
Proof.
  intros Hok. unfold packet_of.
  destruct Hok as (Hro & Hwo & Hlen & Hb).
  destruct (reset_empties packet Hlen ltac:(lia) Hb) as (Hok0 & Q0 & R0).
  destruct (copy_queues (Uint8Buffer.reset packet) (toByteArray cmd) Hok0)
    as (b1 & -> & _ & Hok1 & Q1 & R1).
  destruct (copy_queues b1 [0x23] Hok1) as (b2 & _ & -> & Hok2 & Q2 & R2).
  rewrite view_from_start by (try assumption; congruence).
  rewrite Q2, Q1, Q0, toByteArray_bytes. cbn [app map].
  exists b2. split; [reflexivity |]. split; [exact Hok2 |].
  unfold toByteArray, JS.len. rewrite length_map. f_equal.
  clear. induction cmd as [| c cmd IH]; [reflexivity |].
  cbn [list_ascii_of_string List.length String.length]. f_equal. exact IH.
Qed.

Lemma packet_is_command_and_hash_witness :
  exists packet',
    packet_of (Uint8Buffer.mk 3 5 8 [86; 35; 78; 35; 0; 0; 0; 0]) "w00804000,4"
    = Some (toByteArray "w00804000,4" ++ [0x23], packet').
Proof.
  destruct (packet_is_command_and_hash (Uint8Buffer.mk 3 5 8 [86; 35; 78; 35; 0; 0; 0; 0])
                                       "w00804000,4") as (packet' & E & _).
  - split; [cbn; lia |]. split; [cbn; lia |]. split; [reflexivity |].
    repeat constructor; lia.
  - exists packet'. exact E.
Defined.

(** X14. A [Uint8Buffer] is a queue of bytes.  A new
    buffer is empty; [copy] and [push] do the same and put the bytes,
    each modulo 256, behind the ones that wait, growing the storage
    when there is no room; [fill] puts that many copies of one byte
    behind them; [shift] takes the oldest byte, and returns nothing
    and changes nothing on an empty buffer; [reset] empties the
    buffer; [length] is the number of bytes that wait. *)
Theorem buffer_is_a_queue (b : Uint8Buffer.t) :
  buffer_ok b ->
  (forall bs, exists b',
        Uint8Buffer.copy b bs = Some b' /\ Uint8Buffer.push b bs = Some b'
        /\ buffer_ok b' /\ queued b' = queued b ++ map (fun v => v mod 256) bs)
  /\ (forall element n, 0 <= n ->
        exists b', Uint8Buffer.fill b element n = Some b'
                   /\ buffer_ok b'
                   /\ queued b' = queued b ++ repeat (element mod 256) (Z.to_nat n))
  /\ match queued b with
     | [] => Uint8Buffer.shift b = (None, b)
     | x :: rest =>
         exists b', Uint8Buffer.shift b = (Some x, b') /\ buffer_ok b' /\ queued b' = rest
     end
  /\ (buffer_ok (Uint8Buffer.reset b) /\ queued (Uint8Buffer.reset b) = [])
  /\ JS.len (queued b) = Uint8Buffer.length b
  /\ (forall n, 0 <= n ->
        exists b0, Uint8Buffer.new n = Some b0 /\ buffer_ok b0 /\ queued b0 = []).
Proof.
  intros Hb. split.
  { intros bs. destruct (copy_queues b bs Hb) as (b' & C & P & Hb' & Q & _).
    exists b'. auto. }
  split.
  { intros element n Hn. destruct (fill_queues b element n Hb Hn) as (b' & F & Hb' & Q & _).
    exists b'. auto. }
  split; [apply shift_takes; exact Hb |].
  split.
  { destruct Hb as (Ho & Hw & Hl & Hf).
    destruct (reset_empties b Hl) as (R & Q & _); [lia | exact Hf |]. split; assumption. }
  split.
  { destruct (buffer_parts b Hb) as (pre & post & _ & _ & L & _). exact L. }
  intros n Hn. apply new_buffer_ok. exact Hn.
Qed.

Lemma buffer_is_a_queue_witness :
  buffer_ok (Uint8Buffer.mk 1 3 4 [7; 8; 9; 0])
  /\ queued (Uint8Buffer.mk 1 3 4 [7; 8; 9; 0]) = [8; 9]
  /\ exists b', Uint8Buffer.push (Uint8Buffer.mk 1 3 4 [7; 8; 9; 0]) [300; 2] = Some b'
                /\ queued b' = [8; 9; 44; 2].
Proof.
  assert (Hb : buffer_ok (Uint8Buffer.mk 1 3 4 [7; 8; 9; 0])).
  { split; [cbn; lia |]. split; [cbn; lia |]. split; [reflexivity |]. repeat constructor; lia. }
  split; [exact Hb |]. split; [reflexivity |].
  destruct (buffer_is_a_queue (Uint8Buffer.mk 1 3 4 [7; 8; 9; 0]) Hb) as (C & _).
  destruct (C [300; 2]) as (b' & _ & P & _ & Q).
  exists b'. split; [exact P | exact Q].
Defined.

(** X15. [view] takes [writeOffset] as the
    length of the view, not the number of bytes that wait.  On a
    buffer from which nothing was shifted it is the bytes that wait;
    after a [shift], a view that is returned is longer than the queue
    and runs into storage behind it, and when the storage is too short
    for that length [view] raises the [RangeError]. *)
Theorem view_counts_from_read_offset (b : Uint8Buffer.t) :
  buffer_ok b ->
  (Uint8Buffer.readOffset b = 0 -> Uint8Buffer.view b = Some (queued b))
  /\ (0 < Uint8Buffer.readOffset b ->
      forall l, Uint8Buffer.view b = Some l ->
                JS.len l = Uint8Buffer.writeOffset b /\ JS.len (queued b) < JS.len l)
  /\ (Uint8Buffer.size b < Uint8Buffer.readOffset b + Uint8Buffer.writeOffset b ->
      Uint8Buffer.view b = None).
Proof.
  intros Hb. split; [apply view_from_start; exact Hb |].
  split; [intros Hr l; apply view_after_shift; assumption |].
  intros Hlt. destruct Hb as (Ho & Hw & Hl & Hf). unfold Uint8Buffer.view.
  rewrite Hl.
  replace (Uint8Buffer.size b <? Uint8Buffer.readOffset b + Uint8Buffer.writeOffset b)
    with true by (symmetry; apply Z.ltb_lt; exact Hlt).
  rewrite !orb_true_r. reflexivity.
Qed.

Lemma view_counts_from_read_offset_witness :
  buffer_ok (Uint8Buffer.mk 1 3 4 [7; 8; 9; 0])
  /\ queued (Uint8Buffer.mk 1 3 4 [7; 8; 9; 0]) = [8; 9]
  /\ Uint8Buffer.view (Uint8Buffer.mk 1 3 4 [7; 8; 9; 0]) = Some [8; 9; 0]
  /\ JS.len (queued (Uint8Buffer.mk 1 3 4 [7; 8; 9; 0])) < JS.len [8; 9; 0].
Proof.
  assert (Hb : buffer_ok (Uint8Buffer.mk 1 3 4 [7; 8; 9; 0])).
  { split; [cbn; lia |]. split; [cbn; lia |]. split; [reflexivity |]. repeat constructor; lia. }
  split; [exact Hb |]. split; [reflexivity |]. split; [reflexivity |].
  destruct (view_counts_from_read_offset (Uint8Buffer.mk 1 3 4 [7; 8; 9; 0]) Hb) as (_ & S & _).
  apply (S ltac:(cbn; lia) [8; 9; 0]). reflexivity.
Defined.

(** ** hex and parseInt *)

Lemma digit16_cases (d : Z) :
  0 <= d < 16 ->
  Checksum.digit_value (JS.digit16 d) = Some d
  /\ Checksum.is_space (JS.digit16 d) = false
  /\ Ascii.eqb (JS.digit16 d) "-" = false
  /\ Ascii.eqb (JS.digit16 d) "+" = false
  /\ Ascii.eqb (JS.digit16 d) "x" = false
  /\ Ascii.eqb (JS.digit16 d) "X" = false
  /\ 0 < Z.of_N (N_of_ascii (JS.digit16 d)) < 128.
Proof.
  intros Hd.
  assert (C : d = 0 \/ d = 1 \/ d = 2 \/ d = 3 \/ d = 4 \/ d = 5 \/ d = 6 \/ d = 7 \/ d = 8
              \/ d = 9 \/ d = 10 \/ d = 11 \/ d = 12 \/ d = 13 \/ d = 14 \/ d = 15) by lia.
  repeat (destruct C as [-> | C]; [vm_compute; repeat split; congruence |]).
  subst d. vm_compute. repeat split; congruence.
Qed.

Lemma digits16_all_hex (n : nat) (v : Z) (acc : string) :
  0 <= v -> all_hex acc -> all_hex (JS.digits16 n v acc).
Proof.
  revert v acc. induction n as [| n IH]; intros v acc Hv Ha; cbn [JS.digits16]; [exact Ha |].
  assert (Hc : all_hex (String (JS.digit16 (v mod 16)) acc)).
  { split; [| exact Ha]. exists (v mod 16). split; [apply Z.mod_pos_bound; lia | reflexivity]. }
  destruct (v / 16 =? 0); [exact Hc |]. apply IH; [apply Z.div_pos; lia | exact Hc].
Qed.

Lemma pad0_all_hex (n : nat) (s : string) : all_hex s -> all_hex (JS.pad0 n s).
Proof.
  intros Hs. induction n as [| n IH]; cbn [JS.pad0]; [exact Hs |].
  split; [exists 0; split; [lia | reflexivity] | exact IH].
Qed.

Lemma hex_all_hex (v digits : Z) : 0 <= v -> all_hex (SamBA.hex v digits).
Proof.
  intros Hv. unfold SamBA.hex, JS.toString16.
  replace (v <? 0) with false by (symmetry; apply Z.ltb_ge; lia).
  apply pad0_all_hex, digits16_all_hex; [lia | exact I].
Qed.

Lemma digits_digits16 (n : nat) (v : Z) (acc : string) (a : option Z) :
  0 <= v < 16 ^ Z.of_nat n -> (1 <= n)%nat -> zero_acc a ->
  Checksum.digits (JS.digits16 n v acc) a = Checksum.digits acc (Some v).
Proof.
  revert v acc. induction n as [| n IH]; intros v acc Hv Hn Ha; [lia |].
  cbn [JS.digits16].
  assert (Hm : 0 <= v mod 16 < 16) by (apply Z.mod_pos_bound; lia).
  destruct (digit16_cases (v mod 16) Hm) as (Dv & _).
  destruct (v / 16 =? 0) eqn:E.
  - apply Z.eqb_eq in E. cbn [Checksum.digits]. rewrite Dv.
    assert (v mod 16 = v) by (Z.div_mod_to_equations; lia).
    destruct Ha as [-> | ->]; do 2 f_equal; lia.
  - apply Z.eqb_neq in E.
    assert (Hq : 0 <= v / 16) by (apply Z.div_pos; lia).
    destruct n as [| n].
    + exfalso. apply E. apply Z.div_small. change (16 ^ Z.of_nat 1) with 16 in Hv. lia.
    + rewrite IH; [| | lia | exact Ha].
      * cbn [Checksum.digits]. rewrite Dv. do 2 f_equal. Z.div_mod_to_equations. lia.
      * split; [lia |]. apply Z.div_lt_upper_bound; [lia |].
        replace (Z.of_nat (S (S n))) with (1 + Z.of_nat (S n)) in Hv by lia.
        rewrite Z.pow_add_r in Hv by lia. change (16 ^ 1) with 16 in Hv. lia.
Qed.

Lemma digits_pad0 (n : nat) (s : string) (a : option Z) :
  zero_acc a -> exists a', zero_acc a' /\ Checksum.digits (JS.pad0 n s) a = Checksum.digits s a'.
Proof.
  revert a. induction n as [| n IH]; intros a Ha; cbn [JS.pad0].
  - exists a. auto.
  - cbn [Checksum.digits]. change (Checksum.digit_value "0") with (Some 0).
    destruct (IH (Some match a with Some a0 => a0 * 16 + 0 | None => 0 end)) as (a' & Ha' & E).
    { right. destruct Ha as [-> | ->]; reflexivity. }
    exists a'. auto.
Qed.

Lemma parse_all_hex (s : string) :
  all_hex s -> Checksum.parseInt16 s
               = match Checksum.digits s None with Some v => Some (1 * v) | None => None end.
Proof.
  intros Hs. unfold Checksum.parseInt16.
  destruct s as [| c s]; [reflexivity |]. destruct Hs as [(d & Hd & ->) Hs].
  destruct (digit16_cases d Hd) as (_ & Sp & Mi & Pl & _).
  cbn [Checksum.trim]. rewrite Sp, Mi, Pl.
  destruct s as [| x s]; [reflexivity |]. destruct Hs as [(d' & Hd' & ->) Hs].
  destruct (digit16_cases d' Hd') as (_ & _ & _ & _ & Lx & Ux & _).
  rewrite Lx, Ux, andb_false_r. reflexivity.
Qed.

Lemma log2_hex_bound (v : Z) : 0 <= v -> v < 16 ^ Z.of_nat (S (Z.to_nat (Z.log2 v))).
Proof.
  intros Hv. destruct (Z.eq_dec v 0) as [-> | N]; [reflexivity |].
  destruct (Z.log2_spec v ltac:(lia)) as [_ Hhi].
  rewrite Nat2Z.inj_succ, Z2Nat.id by apply Z.log2_nonneg.
  eapply Z.lt_le_trans; [exact Hhi |].
  apply Z.pow_le_mono_l. lia.
Qed.

Lemma parseInt16_hex (v digits : Z) :
  0 <= v -> Checksum.parseInt16 (SamBA.hex v digits) = Some v.
Proof.
  intros Hv. rewrite parse_all_hex by (apply hex_all_hex; exact Hv).
  unfold SamBA.hex, JS.toString16.
  replace (v <? 0) with false by (symmetry; apply Z.ltb_ge; lia).
  rewrite Z.abs_eq by lia.
  destruct (digits_pad0 (Z.to_nat digits
                         - String.length (JS.digits16 (S (Z.to_nat (Z.log2 v))) v ""))
                        (JS.digits16 (S (Z.to_nat (Z.log2 v))) v "") None) as (a' & Ha' & ->);
    [left; reflexivity |].
  rewrite digits_digits16; [| split; [lia | apply log2_hex_bound; lia] | lia | exact Ha'].
  cbn [Checksum.digits]. f_equal. lia.
Qed.

(** X16. The text that [hex] writes for a number that is
    not negative reads back as that number with [parseInt(_, 16)],
    whatever the number of digits asked for.  It has exactly [digits]
    characters when the number fits in them, so the commands that
    carry an address and a value of 32 bits have a fixed length. *)
Theorem hex_reads_back (v digits : Z) :
  0 <= v ->
  Checksum.parseInt16 (SamBA.hex v digits) = Some v
  /\ (1 <= digits -> v < 16 ^ digits -> String.length (SamBA.hex v digits) = Z.to_nat digits)
  /\ (v < 2 ^ 32 ->
      String.length (SamBA.cmd_w v) = 11%nat
      /\ forall a, 0 <= a < 2 ^ 32 ->
                   String.length (SamBA.cmd_W a v) = 18%nat
                   /\ String.length (SamBA.cmd_S a v) = 18%nat).
Proof.
  intros Hv. split; [apply parseInt16_hex; exact Hv |]. split.
  - intros Hd Hlt. apply hex_length; lia.
  - intros Hlt. split.
    + apply (hex_fixed_width v v); lia.
    + intros a Ha. destruct (hex_fixed_width a v) as (_ & W & _ & S); [lia | lia |].
      split; assumption.
Qed.

Lemma hex_reads_back_witness :
  0 <= 0x804000
  /\ SamBA.hex 0x804000 8 = "00804000"
  /\ Checksum.parseInt16 "00804000" = Some 0x804000
  /\ String.length (SamBA.cmd_w 0x804000) = 11%nat.
Proof.
  assert (P : 0 <= 0x804000) by lia.
  destruct (hex_reads_back 0x804000 8 P) as (R & _ & W).
  split; [exact P |]. split; [reflexivity |]. split; [exact R |].
  apply W. reflexivity.
Defined.

(** ** checksumBuffer *)

Lemma decodeResponse_drops_two (pre : list Z) (x y : Z) :
  pre <> [] -> SamBA.decodeResponse (pre ++ [x; y]) = SamBA.decode pre.
Proof.
  intros Hp. unfold SamBA.decodeResponse.
  assert (Hl : JS.len (pre ++ [x; y]) = JS.len pre + 2)
    by (unfold JS.len; rewrite length_app; simpl; lia).
  assert (0 < JS.len pre) by (destruct pre; [contradiction | unfold JS.len; simpl; lia]).
  replace (2 <? JS.len (pre ++ [x; y])) with true by (symmetry; apply Z.ltb_lt; lia).
  change (JS.truthy 12) with true. change (JS.truthy 10) with true. cbv iota.
  f_equal. unfold JS.subarray_to. rewrite Hl.
  replace (Z.to_nat (JS.len pre + 2 - 2)) with (List.length pre) by (unfold JS.len; lia).
  rewrite !firstn_set by (unfold JS.len in *; lia).
  rewrite firstn_app, firstn_all, Nat.sub_diag. cbn [firstn]. apply app_nil_r.
Qed.

Lemma collect_all (avail reply : list Z) (n : Z) :
  Forall (fun c => 0 < c < 256) avail ->
  JS.len reply + JS.len avail = n ->
  SamBA.collect avail reply n = reply ++ avail.
Proof.
  revert reply. induction avail as [| c avail IH]; intros reply Hb Hn; cbn [SamBA.collect].
  - symmetry. apply app_nil_r.
  - inversion Hb as [| ? ? Hc Hb']; subst.
    rewrite Z.mod_small by lia.
    replace (c =? 0) with false by (symmetry; apply Z.eqb_neq; lia).
    rewrite andb_false_r.
    assert (L : JS.len (reply ++ [c]) = JS.len reply + 1)
      by (unfold JS.len; rewrite length_app; simpl; lia).
    destruct (JS.truthy (JS.len reply + JS.len (c :: avail))
              && (JS.len (reply ++ [c]) =? JS.len reply + JS.len (c :: avail))) eqn:E.
    + apply andb_true_iff in E. destruct E as [_ E]. apply Z.eqb_eq in E.
      assert (avail = []) by (destruct avail; [reflexivity | unfold JS.len in *; simpl in *; lia]).
      subst avail. reflexivity.
    + rewrite IH; [rewrite <- app_assoc; reflexivity | exact Hb' |].
      unfold JS.len in *. rewrite length_app. simpl in *. lia.
Qed.

Lemma bytes_of_app (s1 s2 : string) : bytes_of (s1 ++ s2) = bytes_of s1 ++ bytes_of s2.
Proof.
  unfold bytes_of. induction s1 as [| c s1 IH]; [reflexivity |].
  cbn [String.append list_ascii_of_string map app]. f_equal. exact IH.
Qed.

Lemma bytes_of_length (s : string) : List.length (bytes_of s) = String.length s.
Proof.
  unfold bytes_of. rewrite length_map.
  induction s as [| c s IH]; [reflexivity |]. cbn [list_ascii_of_string List.length String.length].
  f_equal. exact IH.
Qed.

Lemma decode_bytes_of (s : string) : SamBA.decode (bytes_of s) = s.
Proof.
  unfold SamBA.decode, bytes_of. rewrite map_map.
  induction s as [| c s IH]; [reflexivity |].
  cbn [list_ascii_of_string map string_of_list_ascii]. rewrite IH.
  rewrite N2Z.id, ascii_N_embedding. reflexivity.
Qed.

Lemma all_hex_bytes (s : string) : all_hex s -> Forall (fun c => 0 < c < 256) (bytes_of s).
Proof.
  unfold bytes_of. induction s as [| c s IH]; intros Hs; cbn [list_ascii_of_string map].
  - constructor.
  - destruct Hs as [(d & Hd & ->) Hs]. constructor; [| apply IH; exact Hs].
    destruct (digit16_cases d Hd) as (_ & _ & _ & _ & _ & _ & B). lia.
Qed.

Lemma substring_middle (c : ascii) (h t : string) :
  substring 1 (String.length h) (String c (h ++ t)) = h.
Proof.
  cbn [substring]. induction h as [| x h IH]; cbn [String.length String.append substring].
  - destruct t; reflexivity.
  - f_equal. exact IH.
Qed.

Lemma checksum_read_back {Dev} `{SerialPort Dev}
        (w : World Dev) (start_addr size_ crc : Z) (d : Dev) :
  canWriteBuffer (samba w) = true -> size_ <= 4096 -> 0 <= crc < 2 ^ 32 ->
  exchange (port w) ("Z" ++ SamBA.hex start_addr 8 ++ "," ++ SamBA.hex size_ 8)%string None
  = (checksum_reply crc, d) ->
  Checksum.checksumBuffer start_addr size_ w
  = (Ok (Some crc), set_port w d,
     [Sent ("Z" ++ SamBA.hex start_addr 8 ++ "," ++ SamBA.hex size_ 8)%string None
           (Some (checksum_reply crc))]).
Proof.
  intros Hcan Hsize Hcrc Ex.
  assert (Hh : String.length (SamBA.hex crc 8) = 8%nat) by (apply hex_length; lia).
  assert (Hx : all_hex (SamBA.hex crc 8)) by (apply hex_all_hex; lia).
  unfold Checksum.checksumBuffer, bind at 1, gets. rewrite Hcan. cbn [negb app].
  unfold SamBA.checksumBufferSize.
  replace (4096 <? size_) with false by (symmetry; apply Z.ltb_ge; exact Hsize).
  unfold bind, SamBA.sendCommand. rewrite Ex. cbn [Z.ltb Z.compare].
  assert (Eb : checksum_reply crc
               = [90] ++ bytes_of (SamBA.hex crc 8) ++ [35; 10; 13]).
  { unfold checksum_reply. rewrite !bytes_of_app. reflexivity. }
  assert (Lr : List.length (checksum_reply crc) = 12%nat).
  { rewrite Eb, !length_app, bytes_of_length, Hh. reflexivity. }
  assert (Er : SamBA.readBuffer (checksum_reply crc) 12 = Some (checksum_reply crc)).
  { unfold SamBA.readBuffer. rewrite collect_all.
    - cbn [app]. rewrite Eb. reflexivity.
    - rewrite Eb. rewrite !Forall_app. repeat split.
      + repeat constructor.
      + apply all_hex_bytes. exact Hx.
      + repeat constructor; lia.
    - unfold JS.len. rewrite Lr. reflexivity. }
  rewrite Er.
  assert (E0 : (JS.get (checksum_reply crc) 0 =? 90) = true) by (rewrite Eb; reflexivity).
  rewrite E0. unfold ret. cbn [app].
  assert (Ef : checksum_reply crc = bytes_of ("Z" ++ SamBA.hex crc 8 ++ "#") ++ [10; 13]).
  { rewrite Eb, !bytes_of_app. change (bytes_of "Z") with [90]. change (bytes_of "#") with [35].
    rewrite <- !app_assoc. reflexivity. }
  assert (Ed : SamBA.decodeResponse (checksum_reply crc)
               = ("Z" ++ SamBA.hex crc 8 ++ "#")%string).
  { rewrite Ef, decodeResponse_drops_two by discriminate. apply decode_bytes_of. }
  rewrite Ed.
  change ("Z" ++ SamBA.hex crc 8 ++ "#")%string with (String "Z" (SamBA.hex crc 8 ++ "#")).
  rewrite <- Hh at 1. rewrite substring_middle.
  rewrite parseInt16_hex by lia. reflexivity.
Qed.

Lemma checksum_gate {Dev} `{SerialPort Dev} (w : World Dev) (start_addr size_ : Z) :
  (canWriteBuffer (samba w) = false ->
   Checksum.checksumBuffer start_addr size_ w = (Throw (SamBAError "Cannot write buffer"), w, []))
  /\ (canWriteBuffer (samba w) = true -> 4096 < size_ ->
      Checksum.checksumBuffer start_addr size_ w
      = (Throw (SamBAError "Size too large for checksum buffer"), w, [])).
Proof.
  split.
  - intros Hc. unfold Checksum.checksumBuffer, bind, gets. rewrite Hc. reflexivity.
  - intros Hc Hs. unfold Checksum.checksumBuffer, bind, gets. rewrite Hc. cbn [negb].
    unfold SamBA.checksumBufferSize.
    replace (4096 <? size_) with true by (symmetry; apply Z.ltb_lt; exact Hs). reflexivity.
Qed.

(** X17. [checksumBuffer] asks the capability
    to write a buffer, not the one to checksum: without it the call
    throws before anything is sent, as it does for more than 4096
    bytes.  Otherwise it sends [Z] with the address and the size in
    eight digits each, and when the board answers [Z], the checksum
    in eight hexadecimal digits and [#], it returns that checksum. *)
Theorem checksumBuffer_reads_back {Dev} `{SerialPort Dev}
        (w : World Dev) (start_addr size_ : Z) :
  (canWriteBuffer (samba w) = false ->
   Checksum.checksumBuffer start_addr size_ w
   = (Throw (SamBAError "Cannot write buffer"), w, []))
  /\ (canWriteBuffer (samba w) = true -> 4096 < size_ ->
      Checksum.checksumBuffer start_addr size_ w
      = (Throw (SamBAError "Size too large for checksum buffer"), w, []))
  /\ (forall crc d,
         canWriteBuffer (samba w) = true -> size_ <= 4096 -> 0 <= crc < 2 ^ 32 ->
         exchange (port w) ("Z" ++ SamBA.hex start_addr 8 ++ "," ++ SamBA.hex size_ 8)%string
                  None
         = (checksum_reply crc, d) ->
         Checksum.checksumBuffer start_addr size_ w
         = (Ok (Some crc), set_port w d,
            [Sent ("Z" ++ SamBA.hex start_addr 8 ++ "," ++ SamBA.hex size_ 8)%string None
                  (Some (checksum_reply crc))])).
Proof.
  split; [apply checksum_gate |]. split; [apply checksum_gate |].
  intros crc d. apply checksum_read_back.
Qed.

Lemma checksumBuffer_reads_back_witness :
  Checksum.checksumBuffer
    (H := Scripted.port) 0x2000 64
    (Scripted.world [("Z00002000,00000040", checksum_reply 0xcafe)]
                    (SamBA.set_canWriteBuffer SamBA.new))
  = (Ok (Some 0xcafe),
     Scripted.world [("Z00002000,00000040", checksum_reply 0xcafe)]
                    (SamBA.set_canWriteBuffer SamBA.new),
     [Sent "Z00002000,00000040" None (Some (checksum_reply 0xcafe))]).
Proof.
  destruct (@checksumBuffer_reads_back
              Scripted.Script Scripted.port
              (Scripted.world [("Z00002000,00000040", checksum_reply 0xcafe)]
                              (SamBA.set_canWriteBuffer SamBA.new))
              0x2000 64) as (_ & _ & R).
  apply (R 0xcafe [("Z00002000,00000040", checksum_reply 0xcafe)]).
  - reflexivity.
  - lia.
  - lia.
  - reflexivity.
Defined.

(** ** device.ts *)

Lemma distinct_NoDup (l : list Z) : distinct l = true -> NoDup l.
Proof.
  induction l as [| x l IH]; intros E; [constructor |].
  cbn [distinct] in E. apply andb_true_iff in E. destruct E as [E1 E2].
  constructor; [| apply IH; exact E2].
  intros Hin. apply negb_true_iff in E1.
  assert (C : existsb (Z.eqb x) l = true) by (apply existsb_exists; exists x; split; [exact Hin | apply Z.eqb_refl]).
  congruence.
Qed.

Lemma device_labels_distinct :
  NoDup chip_labels /\ NoDup device_labels /\ NoDup (flat_map fst Device.ext_cases).
Proof. repeat split; apply distinct_NoDup; vm_compute; reflexivity. Qed.

Lemma device_rows_ok : Forall row_ok Device.device_cases.
Proof.
  unfold Device.device_cases.
  repeat (constructor; [split; [reflexivity | cbn; repeat split; tauto] |]).
  constructor.
Qed.

Lemma d2x_row_aligned (r : Device.Row) :
  Device.driver r = D2xFamily -> Device.row_size r = 64 -> word_aligned (Device.geometry_of r).
Proof.
  intros Ed Es. unfold Device.geometry_of. rewrite Ed. unfold word_aligned, D2x.geometry.
  cbn [addr size]. rewrite Es. split; [exists 0; reflexivity | exists 16; reflexivity].
Qed.

Section DeviceFacts.
Context {Dev : Type} `{SerialPort Dev}.

Lemma build_outcome (r : Device.Row) (key : Z) (w : World Dev) dev w' t :
  row_ok r ->
  Device.build r key w = (Ok dev, w', t) ->
  Device.family dev = Device.row_family r
  /\ match Device.driver r with
     | D2xFamily =>
         Device.flash dev = Some (Device.name r, D2xFamily, Device.geometry_of r)
         /\ flash w' = Mock.fresh /\ installed w' = false
     | D5xFamily => Device.flash dev = None
     end.
Proof.
  intros (Hnew & Hrow) E. unfold Device.build in E. run_ok E as S1. rewrite Hnew in E.
  destruct (Device.driver r).
  - run_ok E as S2. run_inv S2. run_inv E. cbn. auto.
  - run_inv E. cbn. auto.
Qed.

End DeviceFacts.

(** X18. When [create] returns a device with a
    flash, the driver is the D2x driver with pages of 64 bytes and
    512, 1024, 2048 or 4096 pages, its geometry passes the test of the
    constructor and is word aligned, the applet is not installed, and
    the family is SAMD21, SAMR21 or SAML21.  For the families SAMD51,
    SAME51, SAME53 and SAME54 no flash is built. *)
Theorem create_builds_d2x_only {Dev} `{SerialPort Dev}
        (w : World Dev) (dev : Device.t) (w' : World Dev) (t : list Event) :
  Device.create w = (Ok dev, w', t) ->
  match Device.flash dev with
  | None => True
  | Some (_, drv, g) =>
      drv = D2xFamily
      /\ (exists pages_ user_ stack_,
             g = D2x.geometry pages_ 64 user_ stack_ /\ In pages_ [512; 1024; 2048; 4096])
      /\ word_aligned g
      /\ Flash.new g = inr (flash w')
      /\ installed w' = false
      /\ In (Device.family dev) d2x_families
  end
  /\ (In (Device.family dev) d5x_families -> Device.flash dev = None).
Proof.
  intros E. unfold Device.create in E. run_ok E as S1.
  destruct (Device.lookup _ Device.chip_cases) as [fam |]; [run_inv E; cbn; auto |].
  destruct (_ =? 0x23cc0ce0).
  { destruct (Device.lookup _ Device.ext_cases); run_inv E; cbn; auto. }
  destruct (_ =? 0); [| run_inv E; cbn; auto].
  destruct (Device.lookup_row _) as [r |] eqn:El; [| run_inv E; cbn; auto].
  apply find_some in El. destruct El as [Hin _].
  pose proof device_rows_ok as Hall. rewrite Forall_forall in Hall. specialize (Hall r Hin).
  pose proof (build_outcome r _ _ _ _ _ Hall E) as (Ef & Ed).
  destruct Hall as (Hnew & Hrow).
  destruct (Device.driver r) eqn:Edrv.
  - destruct Ed as (-> & Efl & Einst). destruct Hrow as (Hs & Hp & Hf).
    split.
    + split; [reflexivity |]. split.
      * exists (Device.row_pages r), (Device.row_user r), (Device.row_stack r).
        unfold Device.geometry_of. rewrite Edrv, Hs. auto.
      * split; [apply d2x_row_aligned; assumption |].
        split; [rewrite Efl; exact Hnew |]. split; [exact Einst |]. rewrite Ef. exact Hf.
    + intros Hin5. rewrite Ef in Hin5. exfalso.
      unfold d2x_families, d5x_families in *. cbn [In] in *.
      repeat match goal with
             | H : _ \/ _ |- _ => destruct H
             | H : False |- _ => destruct H
             | H1 : ?a = ?x, H2 : ?b = ?x |- _ => rewrite <- H1 in H2; discriminate H2
             end.
  - rewrite Ed. auto.
Qed.

Lemma create_builds_d2x_only_witness :
  Device.create (H := Scripted.port) (Scripted.world Scripted.samd21j18 SamBA.new) = create_run
  /\ exists dev, fst (fst create_run) = Ok dev
                 /\ Device.flash dev = Some ("ATSAMD21x18", D2xFamily, Mock.samd21)
                 /\ word_aligned Mock.samd21
                 /\ In (Device.family dev) d2x_families.
Proof.
  split; [vm_compute; reflexivity |].
  pose (dev := match fst (fst create_run) with
               | Ok dev => dev
               | _ => Device.mk Device.FAMILY_NONE None None
               end).
  exists dev. split; [reflexivity |]. split; [reflexivity |].
  destruct (@create_builds_d2x_only
              Scripted.Script Scripted.port (Scripted.world Scripted.samd21j18 SamBA.new) dev
              (snd (fst create_run)) (snd create_run)) as [Q _].
  - vm_compute; reflexivity.
  - change (Device.flash dev) with (Some ("ATSAMD21x18", D2xFamily, Mock.samd21)) in Q.
    destruct Q as (_ & _ & A & _ & _ & F). split; [exact A | exact F].
Defined.

Lemma land_le_nonneg (a b : Z) : 0 <= a -> Z.land a b <= a.
Proof.
  intros Ha.
  assert (D : Z.ldiff (Z.land a b) a = 0).
  { apply Z.bits_inj'. intros n Hn. rewrite Z.ldiff_spec, Z.land_spec, Z.bits_0.
    destruct (Z.testbit a n), (Z.testbit b n); reflexivity. }
  pose proof (Z.sub_nocarry_ldiff a (Z.land a b) D) as E.
  assert (0 <= Z.ldiff a (Z.land a b)) by (apply Z.ldiff_nonneg; left; exact Ha).
  lia.
Qed.

Lemma to_int32_range (z : Z) : - 2 ^ 31 <= JS.to_int32 z < 2 ^ 31.
Proof.
  unfold JS.to_int32. pose proof (Z.mod_pos_bound (z + 2 ^ 31) (2 ^ 32) ltac:(lia)). lia.
Qed.

Lemma and_below (a b : Z) : JS.and a b < 2 ^ 31.
Proof.
  unfold JS.and. pose proof (to_int32_range a) as Ra.
  destruct (Z.lt_ge_cases (Z.land (JS.to_int32 a) (JS.to_int32 b)) 0) as [N | P]; [lia |].
  apply Z.land_nonneg in P. destruct P as [P | P].
  - pose proof (land_le_nonneg _ (JS.to_int32 b) P). lia.
  - pose proof (to_int32_range b) as Rb. rewrite Z.land_comm.
    pose proof (land_le_nonneg _ (JS.to_int32 a) P). lia.
Qed.

(** The test for an ARM7 branch at the reset vector compares a signed
    32-bit number with 0xea000000, which is above all of them. *)
Lemma arm7_test_false (vector : Z) : (JS.and vector 0xff000000 =? 0xea000000) = false.
Proof. apply Z.eqb_neq. pose proof (and_below vector 0xff000000). lia. Qed.

Section Only.
Context {Dev : Type} `{SerialPort Dev}.
Variable P : Event -> Prop.

Lemma only_ret {A} (a : A) : respects (@only Dev P) (ret a).
Proof. intros w r w' t E. run_inv E. constructor. Qed.

Lemma only_throw {A} (e : Error) : respects (@only Dev P) (@throw Dev A e).
Proof. intros w r w' t E. run_inv E. constructor. Qed.

Lemma only_gets {A} (f : World Dev -> A) : respects (@only Dev P) (gets f).
Proof. intros w r w' t E. run_inv E. constructor. Qed.

Lemma only_modify (f : World Dev -> World Dev) : respects (@only Dev P) (modify f).
Proof. intros w r w' t E. run_inv E. constructor. Qed.

Lemma only_bind {A B} (m : M Dev A) (f : A -> M Dev B) :
  respects (@only Dev P) m -> (forall a, respects (@only Dev P) (f a)) ->
  respects (@only Dev P) (bind m f).
Proof.
  intros Hm Hf w r w' t E. run_inv E as E1.
  - apply Forall_app. split; [eapply Hm | eapply Hf]; eassumption.
  - eapply Hm; eassumption.
  - eapply Hm; eassumption.
Qed.

Lemma only_send (cmd : string) (responseSize : Z) (data : option (list Z)) :
  (forall reply, P (Sent cmd data reply)) ->
  respects (@only Dev P) (SamBA.sendCommand cmd responseSize data).
Proof. intros Hp w r w' t E. run_inv E. constructor; [apply Hp | constructor]. Qed.

Lemma only_readWord (a : Z) :
  (forall reply, P (Sent (SamBA.cmd_w a) None reply)) ->
  respects (@only Dev P) (SamBA.readWord a).
Proof.
  intros Hp w r w' t E. apply readWord_inv in E. destruct E as (reply & -> & _).
  constructor; [apply Hp | constructor].
Qed.

End Only.

Ltac only_step :=
  lazymatch goal with
  | |- respects (only _) (bind _ _) => apply only_bind; [| intros]
  | |- respects (only _) (ret _) => apply only_ret
  | |- respects (only _) (throw _) => apply only_throw
  | |- respects (only _) (gets _) => apply only_gets
  | |- respects (only _) (modify _) => apply only_modify
  | |- respects (only _) (SamBA.readWord ?a) =>
      apply only_readWord; intros reply; exists a, reply; split; [reflexivity | cbn; tauto]
  | |- respects (only _) (if ?b then _ else _) => destruct b
  | |- respects (only _) (match ?x with _ => _ end) => destruct x
  | |- respects (only _) (let _ := _ in _) => cbv zeta
  end.

Section Probes.
Context {Dev : Type} `{SerialPort Dev}.

Lemma only_more (P Q : Event -> Prop) {A} (m : M Dev A) :
  (forall e, P e -> Q e) -> respects (@only Dev P) m -> respects (@only Dev Q) m.
Proof. intros Hpq Hm w r w' t E. eapply Forall_impl; [exact Hpq | eapply Hm; exact E]. Qed.

Lemma reads_among_incl (l1 l2 : list Z) (e : Event) :
  incl l1 l2 -> reads_among l1 e -> reads_among l2 e.
Proof. intros Hi (a & reply & -> & Ha). exists a, reply. auto. Qed.

Lemma readChipId_reads : respects (@only Dev (reads_among CHIPID)) Device.readChipId.
Proof. unfold Device.readChipId, CHIPID. repeat only_step. Qed.

Lemma readChipUniqueId_reads :
  respects (@only Dev (reads_among SERIAL)) Device.readChipUniqueId.
Proof. unfold Device.readChipUniqueId, SERIAL. repeat only_step. Qed.

Lemma identify_reads : respects (@only Dev (reads_among probes)) Device.identify.
Proof.
  unfold Device.identify.
  apply only_bind; [only_step | intros vector].
  rewrite arm7_test_false.
  repeat first
    [ apply (only_more (reads_among CHIPID));
      [intros e; apply reads_among_incl; unfold probes, CHIPID, SERIAL, incl; cbn; tauto
      | apply readChipId_reads]
    | only_step ].
Qed.

Lemma build_reads (r : Device.Row) (key : Z) :
  respects (@only Dev (reads_among probes)) (Device.build r key).
Proof.
  unfold Device.build.
  repeat first
    [ apply (only_more (reads_among SERIAL));
      [intros e; apply reads_among_incl; unfold probes, CHIPID, SERIAL, incl; cbn; tauto
      | apply readChipUniqueId_reads]
    | only_step ].
Qed.

Lemma create_reads : respects (@only Dev (reads_among probes)) Device.create.
Proof.
  unfold Device.create.
  apply only_bind; [apply identify_reads | intros ids]. cbv zeta.
  repeat first [ apply build_reads | only_step ].
Qed.

End Probes.

Lemma cmd_w_apart (a : Z) :
  In a probes -> SamBA.cmd_w a <> SamBA.cmd_w ARM7_CHIPID.
Proof.
  unfold probes, CHIPID, SERIAL, CPUID, DSU_DID. cbn [app In].
  intros Hin.
  repeat (destruct Hin as [<- | Hin]; [vm_compute; discriminate |]).
  destruct Hin.
Qed.

(** X19. [create] only reads words, and only at
    the reset vector, the CPUID, the DSU device identifier, address 4,
    the four CHIPID registers and the four words of the serial number.
    It never reads the CHIPID register of the ARM7 and ARM9 parts at
    [0xfffff240]: the test that guards that read compares a signed
    32-bit number with [0xea000000] and fails for every vector. *)
Theorem create_never_probes_arm7 {Dev} `{SerialPort Dev}
        (w : World Dev) r (w' : World Dev) (t : list Event) :
  Device.create w = (r, w', t) ->
  Forall (reads_among probes) t
  /\ (forall reply, ~ In (Sent (SamBA.cmd_w ARM7_CHIPID) None reply) t)
  /\ (forall vector, (JS.and vector 0xff000000 =? 0xea000000) = false).
Proof.
  intros E. apply create_reads in E. unfold only in E. split; [exact E |]. split.
  - intros reply Hin. rewrite Forall_forall in E. apply E in Hin.
    destruct Hin as (a & reply' & Eq & Ha).
    apply (f_equal (fun e => match e with Sent c _ _ => c | Flip _ => EmptyString end)) in Eq.
    eapply cmd_w_apart; [exact Ha | symmetry; exact Eq].
  - apply arm7_test_false.
Qed.

Lemma create_never_probes_arm7_witness :
  Device.create (H := Scripted.port) (Scripted.world Scripted.samd21j18 SamBA.new) = create_run
  /\ Forall (reads_among probes) (snd create_run)
  /\ forall reply, ~ In (Sent (SamBA.cmd_w ARM7_CHIPID) None reply) (snd create_run).
Proof.
  split; [vm_compute; reflexivity |].
  destruct (@create_never_probes_arm7
              Scripted.Script Scripted.port (Scripted.world Scripted.samd21j18 SamBA.new)
              (fst (fst create_run)) (snd (fst create_run)) (snd create_run)) as (A & B & _).
  - vm_compute; reflexivity.
  - split; [exact A | exact B].
Defined.

Section CortexM0.
Context {Dev : Type} `{SerialPort Dev}.

(** What [create] does once the device identifier is read. *)
Lemma create_tail_reads (deviceId : Z) (w : World Dev) r w' t :
  (let key := JS.and (fst (fst (0, 0, deviceId))) 0x7fffffe0 in
   match Device.lookup key Device.chip_cases with
   | Some fam => ret (Device.mk fam None None)
   | None =>
       if key =? 0x23cc0ce0 then
         match Device.lookup (snd (fst (0, 0, deviceId))) Device.ext_cases with
         | Some fam => ret (Device.mk fam None None)
         | None => ret (Device.mk Device.FAMILY_NONE None None)
         end
       else if key =? 0 then
         match Device.lookup_row (JS.and (snd (0, 0, deviceId)) 0xffff00ff) with
         | Some r => Device.build r (JS.and (snd (0, 0, deviceId)) 0xffff00ff)
         | None => ret (Device.mk Device.FAMILY_NONE None None)
         end
       else ret (Device.mk Device.FAMILY_NONE None None)
   end) w = (r, w', t) ->
  Forall (reads_among SERIAL) t.
Proof.
  cbn [fst snd]. change (JS.and 0 0x7fffffe0) with 0. cbv zeta.
  change (Device.lookup 0 Device.chip_cases) with (@None Device.Family).
  change (0 =? 0x23cc0ce0) with false. change (0 =? 0) with true. cbv iota.
  intros E. destruct (Device.lookup_row _) as [row |]; [| run_inv E; constructor].
  unfold Device.build in E.
  assert (R : respects (@only Dev (reads_among SERIAL)) (Device.build row (JS.and deviceId 0xffff00ff))).
  { unfold Device.build. repeat first [apply readChipUniqueId_reads | only_step]. }
  exact (R _ _ _ _ E).
Qed.

End CortexM0.

Lemma identify_log {Dev} `{SerialPort Dev} (w : World Dev) r (w' : World Dev) (t : list Event) :
  Device.identify w = (r, w', t) ->
  t = [Sent (SamBA.cmd_w 0) None None]
  \/ exists vector reply1 tail,
       t = Sent (SamBA.cmd_w 0) None (Some vector) :: Sent (SamBA.cmd_w CPUID) None reply1 :: tail
       /\ forall cpuid,
            reply1 = Some cpuid -> JS.and (SamBA.word_of cpuid) 0xfff0 = 0xC600 ->
            exists reply2,
              tail = [Sent (SamBA.cmd_w DSU_DID) None reply2]
              /\ forall ids, r = Ok ids -> fst ids = (0, 0).
Proof.
  intros E. unfold Device.identify in E.
  run_inv E as R0; apply readWord_inv in R0 || apply readWord_inv in E.
  2:{ destruct E as (reply0 & -> & Er). destruct reply0; [discriminate Er | left; reflexivity]. }
  2:{ destruct E as (reply0 & -> & Er). destruct reply0; discriminate Er. }
  destruct R0 as (reply0 & -> & Er0). destruct reply0 as [vector |]; [| discriminate Er0].
  injection Er0 as ->. rewrite arm7_test_false in E. right. exists vector.
  run_inv E as R1; apply readWord_inv in R1 || apply readWord_inv in E.
  2:{ destruct E as (reply1 & -> & Er). exists reply1, []. split; [reflexivity |].
      intros cpuid ->. discriminate Er. }
  2:{ destruct E as (reply1 & -> & Er). destruct reply1; discriminate Er. }
  destruct R1 as (reply1 & -> & Er1). exists reply1. eexists. split; [reflexivity |].
  intros cpuid -> Hc. injection Er1 as ->.
  change 0x0000fff0 with 0xfff0 in E. rewrite Hc in E. cbn [Z.eqb Pos.eqb] in E.
  run_inv E as R2; apply readWord_inv in R2 || apply readWord_inv in E.
  - destruct R2 as (reply2 & -> & _). run_inv E. exists reply2. split; [reflexivity |].
    intros ids [= <-]. reflexivity.
  - destruct E as (reply2 & -> & _). exists reply2. split; [reflexivity |]. intros ids [=].
  - destruct E as (reply2 & -> & _). exists reply2. split; [reflexivity |]. intros ids [=].
Qed.

(** X20. When the CPUID that [create] reads is that of
    a Cortex-M0+, the next read is the DSU device identifier, and
    whatever follows are reads of the serial number: the CHIPID
    registers are left alone. *)
Theorem create_on_cortex_m0 {Dev} `{SerialPort Dev}
        (w : World Dev) r (w' : World Dev) (t : list Event)
        (vector cpuid : list Z) (rest : list Event) :
  Device.create w = (r, w', t) ->
  t = Sent (SamBA.cmd_w 0) None (Some vector)
      :: Sent (SamBA.cmd_w CPUID) None (Some cpuid) :: rest ->
  JS.and (SamBA.word_of cpuid) 0xfff0 = 0xC600 ->
  exists reply tail,
    rest = Sent (SamBA.cmd_w DSU_DID) None reply :: tail
    /\ Forall (reads_among SERIAL) tail.
Proof.
  intros E Et Hc. unfold Device.create in E.
  run_inv E as S1.
  - apply identify_log in S1. destruct S1 as [-> | (v & reply1 & tail & -> & Hm)].
    + cbn [app] in Et. discriminate Et.
    + cbn [app] in Et. injection Et as Ev E1 Erest. subst reply1.
      destruct (Hm cpuid eq_refl Hc) as (reply2 & -> & Hids).
      specialize (Hids _ eq_refl). cbn [app] in Erest.
      exists reply2. eexists. split; [symmetry; exact Erest |].
      destruct a as [[chipId extChipId] deviceId]. cbn [fst] in Hids. injection Hids as -> ->.
      eapply create_tail_reads. exact E.
  - apply identify_log in E. destruct E as [-> | (v & reply1 & tail & -> & Hm)].
    + discriminate Et.
    + injection Et as Ev E1 Erest. subst reply1.
      destruct (Hm cpuid eq_refl Hc) as (reply2 & -> & _).
      exists reply2, []. split; [symmetry; exact Erest | constructor].
  - apply identify_log in E. destruct E as [-> | (v & reply1 & tail & -> & Hm)].
    + discriminate Et.
    + injection Et as Ev E1 Erest. subst reply1.
      destruct (Hm cpuid eq_refl Hc) as (reply2 & -> & _).
      exists reply2, []. split; [symmetry; exact Erest | constructor].
Qed.

Lemma create_on_cortex_m0_witness :
  Device.create (H := Scripted.port) (Scripted.world Scripted.samd21j18 SamBA.new) = create_run
  /\ exists reply tail,
       skipn 2 (snd create_run) = Sent (SamBA.cmd_w DSU_DID) None reply :: tail
       /\ Forall (reads_among SERIAL) tail.
Proof.
  split; [vm_compute; reflexivity |].
  apply (@create_on_cortex_m0
           Scripted.Script Scripted.port (Scripted.world Scripted.samd21j18 SamBA.new)
           (fst (fst create_run)) (snd (fst create_run)) (snd create_run)
           [0xfc; 0x7f; 0x00] [0x01; 0xc6; 0x0c; 0x41] (skipn 2 (snd create_run))).
  - vm_compute; reflexivity.
  - reflexivity.
  - reflexivity.
Defined.

(** X21. [reset] never throws and leaves the state of
    the client and of the flash driver alone.  It sends nothing for a
    device without a family and one word otherwise; for the families
    of the two NVM drivers this is the system reset request written to
    the AIRCR register. *)
Theorem reset_never_throws {Dev} `{SerialPort Dev} (fam : Device.Family) (w : World Dev) :
  exists w' t,
    Device.reset fam w = (Ok tt, w', t)
    /\ samba w' = samba w /\ flash w' = flash w /\ installed w' = installed w
    /\ (fam = Device.FAMILY_NONE -> t = [])
    /\ (fam <> Device.FAMILY_NONE -> exists a v, t = [Sent (SamBA.cmd_W a v) None None])
    /\ (In fam (d2x_families ++ d5x_families) ->
        t = [Sent (SamBA.cmd_W 0xE000ED0C 0x05FA0004) None None]).
Proof.
  assert (W : forall a v, exists w' t,
               Device.try_ (SamBA.writeWord a v) w = (Ok tt, w', t)
               /\ samba w' = samba w /\ flash w' = flash w /\ installed w' = installed w
               /\ t = [Sent (SamBA.cmd_W a v) None None]).
  { intros a v. unfold Device.try_, SamBA.writeWord, bind, SamBA.sendCommand, ret.
    destruct (exchange (port w) (SamBA.cmd_W a v) None) as [avail d].
    eexists. eexists. split; [reflexivity |]. repeat split. }
  destruct fam; unfold Device.reset;
    try (match goal with
         | |- context [Device.try_ (SamBA.writeWord ?a ?v)] =>
             destruct (W a v) as (w' & t & E & Hs & Hf & Hi & ->);
             exists w', [Sent (SamBA.cmd_W a v) None None];
             split; [exact E |]; split; [exact Hs |]; split; [exact Hf |]; split; [exact Hi |];
             split; [discriminate |];
             split; [intros _; exists a, v; reflexivity |];
             intros Hin; cbn in Hin;
             repeat (destruct Hin as [Hin | Hin]; [try discriminate Hin; reflexivity |]);
             destruct Hin
         end).
  exists w, []. repeat split; try reflexivity.
  - intros N. contradiction.
  - intros Hin. cbn in Hin.
    repeat (destruct Hin as [Hin | Hin]; [discriminate Hin |]). destruct Hin.
Qed.

(** ** Flasher *)

Lemma map_mod_bytes (l : list Z) : bytes l -> map (fun v => v mod 256) l = l.
Proof.
  induction 1 as [| x l Hx Hl IH]; cbn [map]; [reflexivity |].
  rewrite IH, Z.mod_small by lia. reflexivity.
Qed.

Lemma bytes_firstn (n : nat) (l : list Z) : bytes l -> bytes (firstn n l).
Proof.
  intros Hl. apply Forall_forall. intros x Hx. unfold bytes in Hl. rewrite Forall_forall in Hl.
  apply Hl. rewrite <- (firstn_skipn n l). apply in_or_app. left. exact Hx.
Qed.

Lemma bytes_skipn (n : nat) (l : list Z) : bytes l -> bytes (skipn n l).
Proof.
  intros Hl. apply Forall_forall. intros x Hx. unfold bytes in Hl. rewrite Forall_forall in Hl.
  apply Hl. rewrite <- (firstn_skipn n l). apply in_or_app. right. exact Hx.
Qed.

(** The page buffer after [reset], [copy] and [fill]: the block, then
    zeros. *)
Lemma page_buffer (b : Uint8Buffer.t) (block : list Z) (k : Z) :
  buffer_ok b -> bytes block -> 0 <= k ->
  exists b1 b2,
    Uint8Buffer.copy (Uint8Buffer.reset b) block = Some b1
    /\ buffer_ok b1 /\ Uint8Buffer.view b1 = Some block
    /\ Uint8Buffer.fill b1 0 k = Some b2
    /\ buffer_ok b2 /\ Uint8Buffer.view b2 = Some (block ++ repeat 0 (Z.to_nat k)).
Proof.
  intros (Hro & Hwo & Hlen & Hb) Hblock Hk.
  destruct (reset_empties b Hlen ltac:(lia) Hb) as (Hok0 & Q0 & R0).
  destruct (copy_queues (Uint8Buffer.reset b) block Hok0) as (b1 & E1 & _ & Hok1 & Q1 & R1).
  destruct (fill_queues b1 0 k Hok1 Hk) as (b2 & E2 & Hok2 & Q2 & R2).
  exists b1, b2. rewrite Q0, map_mod_bytes in Q1 by exact Hblock. cbn [app] in Q1.
  rewrite Q1 in Q2. change (0 mod 256) with 0 in Q2.
  split; [exact E1 |]. split; [exact Hok1 |]. split.
  { rewrite view_from_start by (try assumption; congruence). congruence. }
  split; [exact E2 |]. split; [exact Hok2 |].
  rewrite view_from_start by (try assumption; congruence). congruence.
Qed.

Lemma slice_block (data : list Z) (from n : Z) :
  0 <= from -> 0 <= n -> from + n <= JS.len data ->
  Flasher.slice data from (from + n) = firstn (Z.to_nat n) (skipn (Z.to_nat from) data).
Proof.
  intros Hf Hn Hl. unfold Flasher.slice, Uint8Buffer.clamp.
  replace (from <? 0) with false by (symmetry; apply Z.ltb_ge; lia).
  replace (from + n <? 0) with false by (symmetry; apply Z.ltb_ge; lia).
  rewrite !Z.min_l by lia. do 2 f_equal. lia.
Qed.

Lemma pages_from_enough (n m pageSize : nat) (data : list Z) :
  (1 <= pageSize)%nat -> (List.length data <= n)%nat -> (List.length data <= m)%nat ->
  pages_from n pageSize data = pages_from m pageSize data.
Proof.
  intros Hp. revert m data. induction n as [| n IH]; intros m data Hn Hm.
  - destruct data; [| simpl in Hn; lia]. destruct m; reflexivity.
  - destruct data as [| x data]; [destruct m; reflexivity |].
    destruct m as [| m]; [simpl in Hm; lia |].
    cbn [pages_from]. f_equal. apply IH; rewrite length_skipn; cbn [List.length] in *; lia.
Qed.

Lemma pages_of_step (pageSize : Z) (data : list Z) :
  0 < pageSize -> data <> [] ->
  pages_of pageSize data
  = (firstn (Z.to_nat pageSize) data ++ repeat 0 (Z.to_nat pageSize - List.length data))
      :: pages_of pageSize (skipn (Z.to_nat pageSize) data).
Proof.
  intros Hp Hd. unfold pages_of. destruct data as [| x data]; [contradiction |].
  cbn [List.length pages_from]. f_equal.
  apply pages_from_enough; [lia | |]; rewrite ?length_skipn; cbn [List.length]; lia.
Qed.

Section PageLoop.
Context {Dev : Type} `{SerialPort Dev}.
Variable observer : FlasherObserver Dev.
Variable driver : Family.
Variable g : Geometry.
Variable fuel : nat.

Lemma write_pages_sends (n : nat) (data : list Z) (buffer : Uint8Buffer.t)
      (remaining dataOffset pageNum numPages first : Z) (w : World Dev) :
  0 < size g -> buffer_ok buffer -> bytes data ->
  0 <= dataOffset -> dataOffset + remaining = JS.len data ->
  0 <= remaining <= Z.of_nat n ->
  numPages - pageNum = (remaining + size g - 1) / size g ->
  Flasher.write_pages observer driver g fuel n data buffer remaining dataOffset
                      pageNum numPages first w
  = send_pages observer driver g fuel
               (pages_of (size g) (skipn (Z.to_nat dataOffset) data)) first pageNum numPages w.
Proof.
  intros Hs. revert buffer remaining dataOffset pageNum w.
  induction n as [| n IH]; intros buffer remaining dataOffset pageNum w Hok Hb Hd Hlen Hr Hnum.
  - assert (remaining = 0) by lia. subst remaining.
    rewrite skipn_all2 by (unfold JS.len in Hlen; lia). reflexivity.
  - cbn [Flasher.write_pages].
    destruct (0 <? remaining) eqn:Hpos.
    2:{ apply Z.ltb_ge in Hpos. assert (remaining = 0) by lia. subst remaining.
        rewrite skipn_all2 by (unfold JS.len in Hlen; lia). reflexivity. }
    apply Z.ltb_lt in Hpos. cbv zeta.
    set (rest := skipn (Z.to_nat dataOffset) data).
    assert (Lrest : Z.of_nat (List.length rest) = remaining)
      by (unfold rest; rewrite length_skipn; unfold JS.len in Hlen; lia).
    assert (Hrest : rest <> []) by (intros C; rewrite C in Lrest; simpl in Lrest; lia).
    rewrite (pages_of_step (size g) rest Hs Hrest). cbn [send_pages].
    set (fbytes := if remaining <? size g then remaining else size g).
    assert (Hf : 0 < fbytes <= remaining /\ fbytes <= size g
                 /\ (remaining < size g -> fbytes = remaining)
                 /\ (size g <= remaining -> fbytes = size g)).
    { unfold fbytes. destruct (remaining <? size g) eqn:E;
        [apply Z.ltb_lt in E | apply Z.ltb_ge in E]; lia. }
    rewrite slice_block by lia. fold rest.
    destruct (page_buffer buffer (firstn (Z.to_nat fbytes) rest) (size g - fbytes) Hok)
      as (b1 & b2 & E1 & Hok1 & V1 & E2 & Hok2 & V2);
      [apply bytes_firstn, bytes_skipn; exact Hb | lia |].
    rewrite E1. cbn [Flasher.ranged]. rewrite bind_ret_l.
    apply bind_ext. intros [] w1.
    assert (Hskip : skipn (Z.to_nat (dataOffset + fbytes)) data = skipn (Z.to_nat (size g)) rest).
    { unfold rest. rewrite skipn_skipn.
      destruct (Z.lt_ge_cases remaining (size g)) as [E | E].
      - rewrite !skipn_all2 by (unfold JS.len in Hlen; lia). reflexivity.
      - f_equal. lia. }
    destruct (fbytes <? size g) eqn:Ef.
    + apply Z.ltb_lt in Ef.
      assert (Efb : fbytes = remaining) by lia.
      rewrite E2. cbn [Flasher.ranged]. rewrite bind_assoc, !bind_ret_l. cbn [fst snd].
      rewrite V2. cbn [Flasher.ranged]. rewrite bind_ret_l.
      assert (Eq : Z.quot (fbytes + size g - 1) (size g) * size g = size g).
      { rewrite Z.quot_div_nonneg by lia.
        replace ((fbytes + size g - 1) / size g) with 1; [lia |].
        apply Z.div_unique with (r := fbytes - 1); lia. }
      rewrite Eq.
      assert (Epage : firstn (Z.to_nat fbytes) rest ++ repeat 0 (Z.to_nat (size g - fbytes))
                      = firstn (Z.to_nat (size g)) rest
                               ++ repeat 0 (Z.to_nat (size g) - List.length rest)).
      { rewrite !firstn_all2 by lia. do 2 f_equal. lia. }
      rewrite Epage. apply bind_ext. intros [] w2. apply bind_ext. intros [] w3.
      rewrite Z.eqb_refl. cbn [negb]. rewrite orb_false_r.
      assert (Hone : numPages = pageNum + 1).
      { assert ((remaining + size g - 1) / size g = 1); [| lia].
        symmetry. apply Z.div_unique with (r := remaining - 1); lia. }
      replace (pageNum + 1 =? numPages) with true by (symmetry; apply Z.eqb_eq; lia).
      rewrite <- Hskip, Efb.
      rewrite skipn_all2 by (unfold JS.len in Hlen; lia). reflexivity.
    + apply Z.ltb_ge in Ef. assert (Efb : fbytes = size g) by lia.
      rewrite !bind_ret_l. cbn [fst snd]. rewrite V1. cbn [Flasher.ranged]. rewrite bind_ret_l.
      assert (Epage : firstn (Z.to_nat fbytes) rest
                      = firstn (Z.to_nat (size g)) rest
                               ++ repeat 0 (Z.to_nat (size g) - List.length rest)).
      { rewrite Efb. replace (Z.to_nat (size g) - List.length rest)%nat with 0%nat by lia.
        cbn [repeat]. symmetry. apply app_nil_r. }
      rewrite Epage, Efb. apply bind_ext. intros [] w2. apply bind_ext. intros [] w3.
      rewrite Z.eqb_refl. cbn [negb]. rewrite orb_false_r.
      assert (Hq : (remaining + size g - 1) / size g
                   = (remaining - size g + size g - 1) / size g + 1).
      { replace (remaining + size g - 1) with ((remaining - size g + size g - 1) + 1 * size g)
          by lia.
        rewrite Z.div_add by lia. reflexivity. }
      destruct (pageNum + 1 =? numPages) eqn:Ebreak.
      * apply Z.eqb_eq in Ebreak.
        assert (E0 : (remaining - size g + size g - 1) / size g = 0) by lia.
        assert (remaining - size g <= 0).
        { apply Z.div_small_iff in E0; [| lia]. lia. }
        rewrite <- Hskip, Efb. rewrite skipn_all2 by (unfold JS.len in Hlen; lia). reflexivity.
      * apply Z.eqb_neq in Ebreak.
        rewrite <- Hskip. rewrite <- Efb at 2.
        apply IH; try assumption; try lia.
Qed.

End PageLoop.

Lemma pages_from_spec (n : nat) (pageSize : nat) (data : list Z) :
  (1 <= pageSize)%nat -> (List.length data <= n)%nat ->
  Forall (fun p => List.length p = pageSize) (pages_from n pageSize data)
  /\ (exists k, (k < pageSize)%nat /\ List.concat (pages_from n pageSize data) = data ++ repeat 0 k)
  /\ Z.of_nat (List.length (pages_from n pageSize data))
     = (Z.of_nat (List.length data) + Z.of_nat pageSize - 1) / Z.of_nat pageSize.
Proof.
  intros Hp. revert data. induction n as [| n IH]; intros data Hn.
  - destruct data; [| simpl in Hn; lia]. cbn [pages_from]. split; [constructor |]. split.
    + exists 0%nat. split; [lia | reflexivity].
    + cbn [List.length]. symmetry. apply Z.div_small. lia.
  - destruct data as [| x data].
    { cbn [pages_from]. split; [constructor |]. split.
      - exists 0%nat. split; [lia | reflexivity].
      - cbn [List.length]. symmetry. apply Z.div_small. lia. }
    set (l := x :: data) in *. cbn [pages_from]. fold l.
    destruct (IH (skipn pageSize l)) as (F & (k & Hk & C) & L).
    { rewrite length_skipn. unfold l in *. cbn [List.length] in *. lia. }
    assert (Hl : (1 <= List.length l)%nat) by (unfold l; cbn [List.length]; lia).
    replace (match l with [] => [] | _ :: _ =>
               (firstn pageSize l ++ repeat 0 (pageSize - List.length l))
                 :: pages_from n pageSize (skipn pageSize l) end)
      with ((firstn pageSize l ++ repeat 0 (pageSize - List.length l))
              :: pages_from n pageSize (skipn pageSize l)) by reflexivity.
    split; [| split].
    + constructor; [| exact F]. rewrite length_app, length_firstn, repeat_length. lia.
    + cbn [List.concat].
      destruct (Nat.le_gt_cases pageSize (List.length l)) as [Hle | Hgt].
      * exists k. split; [exact Hk |]. rewrite C.
        replace (pageSize - List.length l)%nat with 0%nat by lia. cbn [repeat].
        rewrite app_nil_r, app_assoc, firstn_skipn. reflexivity.
      * exists (pageSize - List.length l)%nat. split; [lia |].
        rewrite firstn_all2, skipn_all2 by lia.
        assert (E0 : pages_from n pageSize [] = []) by (destruct n; reflexivity).
        rewrite E0. cbn [List.concat]. rewrite app_nil_r. reflexivity.
    + cbn [List.length]. rewrite Nat2Z.inj_succ, L, length_skipn.
      destruct (Nat.le_gt_cases pageSize (List.length l)) as [Hle | Hgt].
      * rewrite Nat2Z.inj_sub by lia.
        replace (Z.of_nat (List.length l) + Z.of_nat pageSize - 1)
          with ((Z.of_nat (List.length l) - Z.of_nat pageSize + Z.of_nat pageSize - 1)
                + 1 * Z.of_nat pageSize) by lia.
        rewrite Z.div_add by lia. lia.
      * replace (List.length l - pageSize)%nat with 0%nat by lia.
        rewrite Z.div_small by lia.
        apply Z.div_unique with (r := Z.of_nat (List.length l) - 1); lia.
Qed.

Lemma pages_of_spec (pageSize : Z) (data : list Z) :
  0 < pageSize ->
  Forall (fun p => JS.len p = pageSize) (pages_of pageSize data)
  /\ (exists k, 0 <= k < pageSize /\ List.concat (pages_of pageSize data) = data ++ repeat 0 (Z.to_nat k))
  /\ JS.len (pages_of pageSize data) = (JS.len data + pageSize - 1) / pageSize.
Proof.
  intros Hp. unfold pages_of.
  destruct (pages_from_spec (List.length data) (Z.to_nat pageSize) data ltac:(lia) ltac:(lia))
    as (F & (k & Hk & C) & L).
  split; [| split].
  - eapply Forall_impl; [| exact F]. intros p E. cbv beta in E. unfold JS.len. lia.
  - exists (Z.of_nat k). split; [lia |]. rewrite Nat2Z.id. exact C.
  - unfold JS.len. rewrite L, Z2Nat.id by lia. reflexivity.
Qed.

Section FlasherFacts.
Context {Dev : Type} `{SerialPort Dev}.
Variable observer : FlasherObserver Dev.
Variable driver : Family.
Variable g : Geometry.
Variable fuel : nat.

Lemma writePage_in_range (page : Z) (w w' : World Dev) (t : list Event) :
  Flasher.writePage driver g fuel page w = (Ok tt, w', t) -> page < pages g.
Proof.
  unfold Flasher.writePage, D2x.writePage, D5x.writePage.
  destruct driver; destruct (pages g <=? page) eqn:E; try discriminate;
    intros _; apply Z.leb_gt in E; exact E.
Qed.

Lemma send_pages_within (ps : list (list Z)) (first pageNum numPages : Z)
      (w w' : World Dev) (t : list Event) :
  send_pages observer driver g fuel ps first pageNum numPages w = (Ok tt, w', t) ->
  ps <> [] -> first + pageNum + JS.len ps <= pages g.
Proof.
  revert pageNum w t. induction ps as [| p ps IH]; intros pageNum w t E Hne; [contradiction |].
  cbn [send_pages] in E. run_ok E as S1. run_ok E as S2. run_ok E as S3. units.
  apply writePage_in_range in S3.
  destruct ps as [| p' ps].
  - unfold JS.len. cbn [List.length]. lia.
  - apply IH in E; [| discriminate]. unfold JS.len in *. cbn [List.length] in *. lia.
Qed.

Lemma write_as_send_pages (data : list Z) (foffset : Z) (w : World Dev) :
  0 < size g -> bytes data ->
  Z.rem foffset (size g) = 0 -> foffset < Flash.totalSize g ->
  page_count g data <= pages g ->
  canWriteBuffer (samba w) = false -> status_keeps_client observer ->
  Flasher.write observer driver g fuel data foffset w
  = (onStatus observer (write_status g data) ;;
     send_pages observer driver g fuel (pages_of (size g) data)
                (Z.quot foffset (size g)) 0 (page_count g data) ;;
     onProgress observer (inject_Z (page_count g data)) (page_count g data) ;;
     ret None) w.
Proof.
  intros Hs Hb Hrem Hoff Hfit Hcan Hobs. unfold Flasher.write.
  replace (size g =? 0) with false by (symmetry; apply Z.eqb_neq; lia).
  rewrite Hrem. cbn [Z.eqb negb orb].
  replace (Flash.totalSize g <=? foffset) with false by (symmetry; apply Z.leb_gt; exact Hoff).
  fold (page_count g data).
  replace (pages g <? page_count g data) with false by (symmetry; apply Z.ltb_ge; exact Hfit).
  fold (write_status g data).
  apply bind_ext_run. intros [] w1 t1 E1.
  rewrite bind_gets. rewrite (Hobs _ _ _ _ _ E1), Hcan.
  destruct (new_buffer_ok (size g) ltac:(lia)) as (b0 & -> & Hok0 & _).
  cbn [Flasher.ranged]. rewrite bind_assoc, bind_ret_l.
  apply bind_cong_l.
  rewrite (write_pages_sends observer driver g fuel); try assumption; try lia.
  - reflexivity.
  - unfold JS.len. lia.
  - unfold page_count. rewrite Z.quot_div_nonneg by (unfold JS.len; lia). lia.
Qed.

End FlasherFacts.

Lemma blocks_from_enough (n m : nat) (data : list Z) :
  (List.length data <= n)%nat -> (List.length data <= m)%nat ->
  blocks_from n data = blocks_from m data.
Proof.
  revert m data. induction n as [| n IH]; intros m data Hn Hm.
  - destruct data; [| cbn [List.length] in Hn; lia]. destruct m; reflexivity.
  - destruct data as [| x data]; [destruct m; reflexivity |].
    destruct m as [| m]; [cbn [List.length] in Hm; lia |].
    cbn [blocks_from]. f_equal. apply IH; rewrite length_skipn; cbn [List.length] in *; lia.
Qed.

Lemma blocks_of_step (data : list Z) :
  data <> [] -> blocks_of data = firstn 4096 data :: blocks_of (skipn 4096 data).
Proof.
  intros Hd. unfold blocks_of. destruct data as [| x data]; [contradiction |].
  cbn [List.length blocks_from]. f_equal.
  apply blocks_from_enough; rewrite ?length_skipn; cbn [List.length]; lia.
Qed.

Section BlockLoop.
Context {Dev : Type} `{SerialPort Dev}.
Variable observer : FlasherObserver Dev.
Variable driver : Family.
Variable g : Geometry.
Variable fuel : nat.

Lemma write_buffers_sends (n : nat) (data : list Z) (buffer : Uint8Buffer.t)
      (remaining dataOffset offset numPages foffset : Z) (w : World Dev) :
  buffer_ok buffer -> bytes data ->
  0 <= dataOffset -> dataOffset + remaining = JS.len data ->
  0 <= remaining <= Z.of_nat n ->
  Flasher.write_buffers observer driver g fuel n data buffer remaining dataOffset
                        offset numPages foffset w
  = send_blocks observer driver g fuel (blocks_of (skipn (Z.to_nat dataOffset) data))
                foffset offset numPages w.
Proof.
  revert buffer remaining dataOffset offset w.
  induction n as [| n IH]; intros buffer remaining dataOffset offset w Hok Hb Hd Hlen Hr.
  - assert (remaining = 0) by lia. subst remaining.
    rewrite skipn_all2 by (unfold JS.len in Hlen; lia). reflexivity.
  - cbn [Flasher.write_buffers].
    destruct (0 <? remaining) eqn:Hpos.
    2:{ apply Z.ltb_ge in Hpos. assert (remaining = 0) by lia. subst remaining.
        rewrite skipn_all2 by (unfold JS.len in Hlen; lia). reflexivity. }
    apply Z.ltb_lt in Hpos. cbv zeta.
    set (rest := skipn (Z.to_nat dataOffset) data).
    assert (Lrest : Z.of_nat (List.length rest) = remaining)
      by (unfold rest; rewrite length_skipn; unfold JS.len in Hlen; lia).
    assert (Hrest : rest <> []) by (intros C; rewrite C in Lrest; simpl in Lrest; lia).
    rewrite (blocks_of_step rest Hrest). cbn [send_blocks].
    set (fbytes := if remaining <? 4096 then remaining else 4096).
    assert (Hf : 0 < fbytes <= remaining /\ fbytes <= 4096
                 /\ (remaining < 4096 -> fbytes = remaining)
                 /\ (4096 <= remaining -> fbytes = 4096)).
    { unfold fbytes. destruct (remaining <? 4096) eqn:E;
        [apply Z.ltb_lt in E | apply Z.ltb_ge in E]; lia. }
    rewrite slice_block by lia. fold rest.
    assert (Eblock : firstn (Z.to_nat fbytes) rest = firstn 4096 rest).
    { destruct (Z.lt_ge_cases remaining 4096) as [E | E].
      - rewrite !firstn_all2 by lia. reflexivity.
      - f_equal. lia. }
    assert (Lblock : JS.len (firstn 4096 rest) = fbytes).
    { unfold JS.len. rewrite length_firstn. lia. }
    destruct (page_buffer buffer (firstn (Z.to_nat fbytes) rest) (4096 - fbytes) Hok)
      as (b1 & b2 & E1 & Hok1 & V1 & E2 & Hok2 & V2);
      [apply bytes_firstn, bytes_skipn; exact Hb | lia |].
    rewrite E1. cbn [Flasher.ranged]. rewrite bind_ret_l.
    apply bind_ext. intros [] w1.
    assert (Hskip : skipn (Z.to_nat (dataOffset + fbytes)) data = skipn 4096 rest).
    { unfold rest. rewrite skipn_skipn.
      destruct (Z.lt_ge_cases remaining 4096) as [E | E].
      - rewrite !skipn_all2 by (unfold JS.len in Hlen; lia). reflexivity.
      - f_equal. lia. }
    unfold announced. rewrite Lblock.
    destruct (fbytes <? 4096) eqn:Ef.
    + apply Z.ltb_lt in Ef.
      rewrite E2. cbn [Flasher.ranged]. rewrite bind_assoc, !bind_ret_l. cbn [fst snd].
      rewrite V2. cbn [Flasher.ranged]. rewrite bind_ret_l.
      rewrite Eblock.
      replace (Z.to_nat (4096 - fbytes)) with (4096 - List.length (firstn 4096 rest))%nat
        by (unfold JS.len in Lblock; lia).
      apply bind_ext. intros [] w2. apply bind_ext. intros [] w3.
      rewrite <- Hskip. apply IH; try assumption; lia.
    + apply Z.ltb_ge in Ef.
      rewrite !bind_ret_l. cbn [fst snd]. rewrite V1. cbn [Flasher.ranged]. rewrite bind_ret_l.
      rewrite Eblock.
      replace (4096 - List.length (firstn 4096 rest))%nat with 0%nat
        by (unfold JS.len in Lblock; lia).
      cbn [repeat]. rewrite app_nil_r.
      apply bind_ext. intros [] w2. apply bind_ext. intros [] w3.
      rewrite <- Hskip. apply IH; try assumption; lia.
Qed.

Lemma write_as_send_blocks (data : list Z) (foffset : Z) (w : World Dev) :
  0 < size g -> bytes data ->
  Z.rem foffset (size g) = 0 -> foffset < Flash.totalSize g ->
  page_count g data <= pages g ->
  canWriteBuffer (samba w) = true -> status_keeps_client observer ->
  Flasher.write observer driver g fuel data foffset w
  = (onStatus observer (write_status g data) ;;
     send_blocks observer driver g fuel (blocks_of data) foffset 0 (page_count g data) ;;
     onProgress observer (inject_Z (page_count g data)) (page_count g data) ;;
     ret None) w.
Proof.
  intros Hs Hb Hrem Hoff Hfit Hcan Hobs. unfold Flasher.write.
  replace (size g =? 0) with false by (symmetry; apply Z.eqb_neq; lia).
  rewrite Hrem. cbn [Z.eqb negb orb].
  replace (Flash.totalSize g <=? foffset) with false by (symmetry; apply Z.leb_gt; exact Hoff).
  fold (page_count g data).
  replace (pages g <? page_count g data) with false by (symmetry; apply Z.ltb_ge; exact Hfit).
  fold (write_status g data).
  apply bind_ext_run. intros [] w1 t1 E1.
  rewrite bind_gets. rewrite (Hobs _ _ _ _ _ E1), Hcan.
  destruct (new_buffer_ok 4096 ltac:(lia)) as (b0 & -> & Hok0 & _).
  cbn [Flasher.ranged]. rewrite bind_assoc, bind_ret_l.
  apply bind_cong_l.
  rewrite (write_buffers_sends (Z.to_nat (JS.len data))); try assumption; try lia.
  - reflexivity.
  - unfold JS.len. lia.
Qed.

End BlockLoop.

Lemma blocks_from_spec (n : nat) (data : list Z) :
  (List.length data <= n)%nat ->
  Forall (fun b => 0 < JS.len b <= 4096) (blocks_from n data)
  /\ List.concat (blocks_from n data) = data.
Proof.
  revert data. induction n as [| n IH]; intros data Hn.
  - destruct data; [split; [constructor | reflexivity] | cbn [List.length] in Hn; lia].
  - destruct data as [| x data]; [split; [constructor | reflexivity] |].
    cbn [blocks_from]. set (d := x :: data) in *.
    assert (Hd : (1 <= List.length d)%nat) by (subst d; cbn [List.length]; lia).
    destruct (IH (skipn 4096 d)) as (F & C); [rewrite length_skipn; lia |].
    split.
    + constructor; [| exact F]. unfold JS.len. rewrite length_firstn. lia.
    + cbn [List.concat]. rewrite C. apply firstn_skipn.
Qed.

Lemma blocks_of_spec (data : list Z) :
  Forall (fun b => 0 < JS.len b <= 4096) (blocks_of data)
  /\ List.concat (blocks_of data) = data.
Proof. apply blocks_from_spec. lia. Qed.

Lemma silent_keeps_client {Dev} : status_keeps_client (@silent Dev).
Proof. intros message w r w' t E. cbn in E. injection E as _ <- _. reflexivity. Qed.

Lemma bytes_repeat (v : Z) (n : nat) : 0 <= v < 256 -> bytes (repeat v n).
Proof.
  intros Hv. apply Forall_forall. intros x Hx. apply repeat_spec in Hx. subst x. exact Hv.
Qed.

(** X22. [write] refuses a file before anything is said to
    the observer or sent to the board: with [FlashOffsetError] when
    the page size is zero, the offset is not a multiple of the page
    size or lies at or behind the end of the flash, and with
    [FileSizeError] when the file has more pages than the flash.  The
    second test does not look at the offset.  An empty file at an
    offset that is let through is reported to the observer and sends
    nothing. *)
Theorem write_guards {Dev} `{SerialPort Dev} (observer : FlasherObserver Dev) (driver : Family)
        (g : Geometry) (fuel : nat) (data : list Z) (foffset : Z) (w : World Dev) :
  (size g = 0 \/ Z.rem foffset (size g) <> 0 \/ Flash.totalSize g <= foffset ->
   Flasher.write observer driver g fuel data foffset w = (Ok (Some FlashOffsetError), w, []))
  /\ (size g <> 0 -> Z.rem foffset (size g) = 0 -> foffset < Flash.totalSize g ->
      (pages g < page_count g data ->
       Flasher.write observer driver g fuel data foffset w
       = (Ok (Some FileSizeError), w, []))
      /\ (0 < size g -> 0 <= pages g ->
          Flasher.write observer driver g fuel [] foffset w
          = (onStatus observer (write_status g []) ;;
             onProgress observer (inject_Z 0) 0 ;;
             ret None) w)).
Proof.
  split.
  - intros Hg. unfold Flasher.write.
    destruct (size g =? 0) eqn:E0; [reflexivity |].
    destruct (Z.rem foffset (size g) =? 0) eqn:E1; [| reflexivity].
    destruct (Flash.totalSize g <=? foffset) eqn:E2; [reflexivity |].
    apply Z.eqb_neq in E0. apply Z.eqb_eq in E1. apply Z.leb_gt in E2.
    destruct Hg as [Hg | [Hg | Hg]]; [contradiction | contradiction | lia].
  - intros Hs Hrem Hoff.
    assert (G : forall d,
               Flasher.write observer driver g fuel d foffset w
               = (if pages g <? page_count g d then ret (Some FileSizeError)
                  else
                    onStatus observer (write_status g d) ;;
                    can <- gets (fun w => canWriteBuffer (samba w)) ;;
                    (if can then
                       buffer <- Flasher.ranged (Uint8Buffer.new 4096) ;;
                       Flasher.write_buffers observer driver g fuel (Z.to_nat (JS.len d)) d
                                             buffer (JS.len d) 0 0 (page_count g d) foffset
                     else
                       buffer <- Flasher.ranged (Uint8Buffer.new (size g)) ;;
                       Flasher.write_pages observer driver g fuel (Z.to_nat (JS.len d)) d
                                           buffer (JS.len d) 0 0 (page_count g d)
                                           (Z.quot foffset (size g))) ;;
                    onProgress observer (inject_Z (page_count g d)) (page_count g d) ;;
                    ret None) w).
    { intros d. unfold Flasher.write.
      replace (size g =? 0) with false by (symmetry; apply Z.eqb_neq; exact Hs).
      rewrite Hrem. cbn [Z.eqb negb orb].
      replace (Flash.totalSize g <=? foffset) with false
        by (symmetry; apply Z.leb_gt; exact Hoff).
      reflexivity. }
    split.
    + intros Hp. rewrite G.
      replace (pages g <? page_count g data) with true by (symmetry; apply Z.ltb_lt; exact Hp).
      reflexivity.
    + intros Hpos Hpages. rewrite G.
      assert (P0 : page_count g [] = 0).
      { unfold page_count. change (JS.len (@nil Z)) with 0.
        apply Z.quot_small. lia. }
      rewrite P0.
      replace (pages g <? 0) with false by (symmetry; apply Z.ltb_ge; exact Hpages).
      apply bind_ext_run. intros [] w1 t1 E1.
      rewrite bind_gets. change (Z.to_nat (JS.len (@nil Z))) with 0%nat.
      destruct (canWriteBuffer (samba w1)).
      * rewrite bind_assoc. change (Flasher.ranged (Uint8Buffer.new 4096))
          with (@ret Dev _ (Uint8Buffer.mk 0 0 4096 (repeat 0 (Z.to_nat 4096)))).
        rewrite bind_ret_l. cbn [Flasher.write_buffers]. rewrite bind_ret_l. reflexivity.
      * destruct (new_buffer_ok (size g) ltac:(lia)) as (b0 & -> & _).
        cbn [Flasher.ranged]. rewrite bind_assoc, bind_ret_l.
        cbn [Flasher.write_pages]. rewrite bind_ret_l. reflexivity.
Qed.

Lemma write_guards_witness :
  Flasher.write silent D2xFamily Mock.samd21 1 (repeat 7 70) 0x2001 (Mock.world 0 Mock.fresh)
  = (Ok (Some FlashOffsetError), Mock.world 0 Mock.fresh, [])
  /\ Flasher.write silent D2xFamily (D2x.geometry 4 64 0x20004000 0x20008000) 1
                   (repeat 7 300) 0x40 (Mock.world 0 Mock.fresh)
     = (Ok (Some FileSizeError), Mock.world 0 Mock.fresh, []).
Proof.
  destruct (write_guards silent D2xFamily Mock.samd21 1 (repeat 7 70) 0x2001
                         (Mock.world 0 Mock.fresh)) as [A _].
  destruct (write_guards silent D2xFamily (D2x.geometry 4 64 0x20004000 0x20008000) 1
                         (repeat 7 300) 0x40 (Mock.world 0 Mock.fresh)) as [_ B].
  split.
  - apply A. right. left. vm_compute. discriminate.
  - apply B; [vm_compute; discriminate | reflexivity | reflexivity | reflexivity].
Defined.

(** X23. On a board that cannot write buffers, a
    [write] that is let through reports its status and then sends the
    file page by page from the page [foffset / pageSize] on: for each
    page the progress, the load of the page buffer and [writePage];
    after the last page it reports that all is done.  Every page has
    the page size, the pages in a row are the file followed by less
    than a page of zeros, and there are as many as the status line
    says. *)
Theorem write_page_by_page {Dev} `{SerialPort Dev} (observer : FlasherObserver Dev)
        (driver : Family) (g : Geometry) (fuel : nat) (data : list Z) (foffset : Z)
        (w : World Dev) :
  0 < size g -> bytes data ->
  Z.rem foffset (size g) = 0 -> foffset < Flash.totalSize g ->
  page_count g data <= pages g ->
  canWriteBuffer (samba w) = false -> status_keeps_client observer ->
  Flasher.write observer driver g fuel data foffset w
  = (onStatus observer (write_status g data) ;;
     send_pages observer driver g fuel (pages_of (size g) data)
                (Z.quot foffset (size g)) 0 (page_count g data) ;;
     onProgress observer (inject_Z (page_count g data)) (page_count g data) ;;
     ret None) w
  /\ Forall (fun p => JS.len p = size g) (pages_of (size g) data)
  /\ (exists k, 0 <= k < size g
                /\ List.concat (pages_of (size g) data) = data ++ repeat 0 (Z.to_nat k))
  /\ JS.len (pages_of (size g) data) = page_count g data.
Proof.
  intros Hs Hb Hrem Hoff Hfit Hcan Hobs.
  split; [apply write_as_send_pages; assumption |].
  destruct (pages_of_spec (size g) data Hs) as (F & C & L).
  split; [exact F |]. split; [exact C |].
  rewrite L. unfold page_count. rewrite Z.quot_div_nonneg by (unfold JS.len; lia). reflexivity.
Qed.

Lemma write_page_by_page_witness :
  Flasher.write silent D2xFamily Mock.samd21 1 (repeat 7 70) 0x2000 (Mock.world 0 Mock.fresh)
  = write_pages_run
  /\ fst (fst write_pages_run) = Ok None
  /\ pages_of 64 (repeat 7 70) = [repeat 7 64; repeat 7 6 ++ repeat 0 58]
  /\ write_pages_run
     = (send_pages silent D2xFamily Mock.samd21 1 (pages_of 64 (repeat 7 70)) 128 0 2 ;;
        ret None) (Mock.world 0 Mock.fresh).
Proof.
  split; [vm_compute; reflexivity |]. split; [reflexivity |]. split; [reflexivity |].
  destruct (write_page_by_page silent D2xFamily Mock.samd21 1 (repeat 7 70) 0x2000
                               (Mock.world 0 Mock.fresh)) as (E & _).
  - reflexivity.
  - apply bytes_repeat. lia.
  - reflexivity.
  - reflexivity.
  - vm_compute. discriminate.
  - reflexivity.
  - apply silent_keeps_client.
  - vm_compute in E. vm_compute. exact E.
Defined.

(** X24. On a board that cannot write buffers,
    a [write] of a file that is not empty completes only if the pages
    of the file, counted from the page of the offset, all lie in the
    flash. *)
Theorem write_stays_within_flash {Dev} `{SerialPort Dev} (observer : FlasherObserver Dev)
        (driver : Family) (g : Geometry) (fuel : nat) (data : list Z) (foffset : Z)
        (w w' : World Dev) (t : list Event) :
  0 < size g -> bytes data -> data <> [] ->
  Z.rem foffset (size g) = 0 -> foffset < Flash.totalSize g ->
  page_count g data <= pages g ->
  canWriteBuffer (samba w) = false -> status_keeps_client observer ->
  Flasher.write observer driver g fuel data foffset w = (Ok None, w', t) ->
  Z.quot foffset (size g) + page_count g data <= pages g.
Proof.
  intros Hs Hb Hne Hrem Hoff Hfit Hcan Hobs E.
  rewrite write_as_send_pages in E by assumption.
  run_ok E as S1. run_ok E as S2. units.
  destruct (pages_of_spec (size g) data Hs) as (_ & _ & L).
  assert (Hq : page_count g data = JS.len (pages_of (size g) data)).
  { rewrite L. unfold page_count. rewrite Z.quot_div_nonneg by (unfold JS.len; lia).
    reflexivity. }
  apply send_pages_within in S2.
  - rewrite Hq. lia.
  - intros Hnil. rewrite Hnil in L. change (JS.len (@nil (list Z))) with 0 in L.
    assert (1 <= JS.len data) by (destruct data; [contradiction | unfold JS.len; cbn [List.length]; lia]).
    assert (1 <= (JS.len data + size g - 1) / size g); [| lia].
    apply Z.div_le_lower_bound; lia.
Qed.

Lemma write_stays_within_flash_witness :
  Flasher.write silent D2xFamily Mock.samd21 1 (repeat 7 70) 0x2000 (Mock.world 0 Mock.fresh)
  = write_pages_run
  /\ Z.quot 0x2000 64 + page_count Mock.samd21 (repeat 7 70) <= 4096.
Proof.
  split; [vm_compute; reflexivity |].
  apply (write_stays_within_flash silent D2xFamily Mock.samd21 1 (repeat 7 70) 0x2000
                                  (Mock.world 0 Mock.fresh)
                                  (snd (fst write_pages_run)) (snd write_pages_run)).
  - reflexivity.
  - apply bytes_repeat. lia.
  - discriminate.
  - reflexivity.
  - reflexivity.
  - vm_compute. discriminate.
  - reflexivity.
  - apply silent_keeps_client.
  - vm_compute; reflexivity.
Defined.

(** X25. On a board that can write buffers, a
    [write] that is let through reports its status and then sends the
    file in blocks of 4096 bytes: for each block the progress, the
    load of the page buffer with the block filled up with zeros to
    4096 bytes, and [writeBuffer] at the place of the block with the
    size that is announced for it.  The blocks in a row are the file,
    none is empty, and the size that is announced for a block is not
    less than its length. *)
Theorem write_block_by_block {Dev} `{SerialPort Dev} (observer : FlasherObserver Dev)
        (driver : Family) (g : Geometry) (fuel : nat) (data : list Z) (foffset : Z)
        (w : World Dev) :
  0 < size g -> bytes data ->
  Z.rem foffset (size g) = 0 -> foffset < Flash.totalSize g ->
  page_count g data <= pages g ->
  canWriteBuffer (samba w) = true -> status_keeps_client observer ->
  Flasher.write observer driver g fuel data foffset w
  = (onStatus observer (write_status g data) ;;
     send_blocks observer driver g fuel (blocks_of data) foffset 0 (page_count g data) ;;
     onProgress observer (inject_Z (page_count g data)) (page_count g data) ;;
     ret None) w
  /\ List.concat (blocks_of data) = data
  /\ Forall (fun b => 0 < JS.len b <= 4096
                      /\ JS.len (b ++ repeat 0 (4096 - List.length b)) = 4096
                      /\ JS.len b <= announced g b < JS.len b + size g)
            (blocks_of data).
Proof.
  intros Hs Hb Hrem Hoff Hfit Hcan Hobs.
  split; [apply write_as_send_blocks; assumption |].
  destruct (blocks_of_spec data) as (F & C).
  split; [exact C |].
  eapply Forall_impl; [| exact F]. intros b Hl. cbv beta in Hl.
  split; [exact Hl |]. split.
  - unfold JS.len in *. rewrite length_app, repeat_length. lia.
  - unfold announced. destruct (JS.len b <? 4096); [| lia].
    rewrite Z.quot_div_nonneg by lia.
    pose proof (Z.div_mod (JS.len b + size g - 1) (size g) ltac:(lia)) as D.
    pose proof (Z.mod_pos_bound (JS.len b + size g - 1) (size g) Hs) as M.
    nia.
Qed.

Lemma write_block_by_block_witness :
  Flasher.write (H := Loader.port) silent D2xFamily Mock.samd21 1 (repeat 7 70) 0x2000 connected
  = write_blocks_run
  /\ fst (fst write_blocks_run) = Ok None
  /\ blocks_of (repeat 7 70) = [repeat 7 70]
  /\ announced Mock.samd21 (repeat 7 70) = 128
  /\ write_blocks_run
     = (send_blocks (H := Loader.port) silent D2xFamily Mock.samd21 1 (blocks_of (repeat 7 70))
                    0x2000 0 2 ;;
        ret None) connected.
Proof.
  split; [vm_compute; reflexivity |]. split; [reflexivity |]. split; [reflexivity |].
  split; [reflexivity |].
  destruct (@write_block_by_block nat Loader.port silent D2xFamily Mock.samd21 1 (repeat 7 70)
                                  0x2000 connected) as (E & _).
  - reflexivity.
  - apply bytes_repeat. lia.
  - reflexivity.
  - reflexivity.
  - vm_compute. discriminate.
  - reflexivity.
  - apply silent_keeps_client.
  - vm_compute in E. vm_compute. exact E.
Defined.
